(** * Cost aggregation of the Azure dashboard ([src/tws-dashboard.js])

    A shallow embedding of [processCSVData] (lines 23-108 of the source), of
    [formatCurrency], [handleFileUpload] and the two screens of the component,
    and of the lodash and JavaScript operations they are built from, followed
    by the properties of the aggregation that the specification states.

    Modelling choices.
    - A JavaScript number is a double, the primitive [float] of Rocq: sums,
      quotients and comparisons are those of IEEE 754 binary64, with [NaN],
      the infinities and the two zeros.  The conversions between numbers and
      text follow ECMAScript: [Number::toString] prints the shortest digits
      that read back as the same double, [StringToNumber] rounds the decimal
      to the nearest double, [toFixed] rounds the exact binary value.
    - A cell of a decoded row holds any primitive that the CSV decoder
      produces, in any column: text, a number, a boolean, [null], or nothing
      ([undefined]).  Objects (the [Date] that the decoder builds from an ISO
      timestamp), symbols and big integers are not represented.
    - Text is a sequence of 8-bit code units, compared unit by unit as
      JavaScript compares its 16-bit units.
    - An object used as a dictionary is the list of its own properties in
      creation order; [Lodash.ownProperties] enumerates it as the language does
      (array indices first, ascending; then the other keys as created).
    - [Array.prototype.sort] is an insertion sort.  Every comparator handed to
      it here breaks ties by the original position, so when the comparator
      orders the elements consistently the sorted array does not depend on
      the algorithm; the properties of an order below are stated for that
      case.
    - React's [setDashboardData] and [setError] write the two fields of an
      explicit [state]. *)

From Stdlib Require Import ZArith NArith List String Ascii Bool Lia.
From Stdlib Require Import Floats DecimalString Sorted Permutation.
Import ListNotations.

Local Open Scope string_scope.
Local Open Scope Z_scope.
Local Open Scope list_scope.

#[local] Set Warnings "-inexact-float".

(* ================================================================== *)
(** ** JavaScript values and operators *)

Module JS.

(** *** Numbers and their decimal text *)

(** The double nearest to [m * 2^e], ties to the even mantissa. *)
Definition nearest (m e : Z) : float :=
  SF2Prim (binary_normalize prec emax m e false).

(** The double nearest to the fraction [p / q], for [0 <= p] and [0 < q]:
    the quotient is cut after at least 56 bits and one more bit records
    whether anything was cut, which is all that the rounding looks at. *)
Definition nearest_fraction (p q : Z) : float :=
  let shift := Z.max 0 (Z.log2 q + 56 - Z.log2 p) in
  let (quotient, remainder) := Z.div_eucl (p * 2 ^ shift) q in
  nearest (2 * quotient + (if remainder =? 0 then 0 else 1)) (- shift - 1).

(** The double nearest to [d * 10^x], for [0 <= d]. *)
Definition nearest_decimal (d x : Z) : float :=
  if 0 <=? x then nearest (d * 10 ^ x) 0 else nearest_fraction d (10 ^ (- x)).

(** The decimal digits of a natural number. *)
Definition digits (z : Z) : string :=
  NilZero.string_of_uint (N.to_uint (Z.to_N z)).

Fixpoint zeros (n : nat) : string :=
  match n with
  | O => ""
  | S n' => String "0" (zeros n')
  end.

(** The least [j] from the given one with [p * 10^j >= q], for [0 < p < q]. *)
Fixpoint decade_below (fuel : nat) (p q j : Z) : Z :=
  match fuel with
  | O => j
  | S fuel' => if q <=? p * 10 then j else decade_below fuel' (p * 10) q (j + 1)
  end.

(** The integer [n] with [10^(n-1) <= p / q < 10^n], for [0 < p] and
    [0 < q]. *)
Definition decade (p q : Z) : Z :=
  if q <=? p then Z.of_nat (String.length (digits (p / q)))
  else 1 - decade_below (S (Z.to_nat (Z.log2 q))) p q 1.

(** Step 5 of [Number::toString]: for the finite [x = m * 2^e > 0] with
    [10^(n-1) <= x < 10^n], the integer [s] of [k] digits, [k] as small as
    possible, such that [s * 10^(n-k)] is [x] as a double; of two such [s]
    the one closest to [x], the even one on a tie. *)
Section Shortest.

Variables (x : float) (m e n : Z).

(** The integers around [x / 10^(n-k)], the closest first. *)
Definition around (k : Z) : list Z :=
  let p := m * 2 ^ Z.max e 0 * 10 ^ Z.max (k - n) 0 in
  let q := 2 ^ Z.max (- e) 0 * 10 ^ Z.max (n - k) 0 in
  let (lo, r) := Z.div_eucl p q in
  if r =? 0 then [lo]
  else match 2 * r ?= q with
       | Lt => [lo; lo + 1]
       | Gt => [lo + 1; lo]
       | Eq => if Z.even lo then [lo; lo + 1] else [lo + 1; lo]
       end.

Definition reads_back (k s : Z) : bool :=
  Leibniz.eqb (nearest_decimal s (n - k)) x.

(** The pair of [s] and its exponent [n], from [k] digits on. *)
Fixpoint shortest (fuel : nat) (k : Z) : Z * Z :=
  match List.find (reads_back k) (around k) with
  | Some s => if s =? 10 ^ k then (10 ^ (k - 1), n + 1) else (s, n)
  | None =>
      match fuel with
      | O => (hd 0 (around k), n)
      | S fuel' => shortest fuel' (k + 1)
      end
  end.

End Shortest.

(** Steps 6 to 10 of [Number::toString]: the text made of the digits of
    [s] and of the exponent [n]. *)
Definition decimal_text (s n : Z) : string :=
  let d := digits s in
  let k := Z.of_nat (String.length d) in
  if (k <=? n) && (n <=? 21) then
    (d ++ zeros (Z.to_nat (n - k)))%string
  else if (0 <? n) && (n <=? 21) then
    (String.substring 0 (Z.to_nat n) d ++ "."
       ++ String.substring (Z.to_nat n) (Z.to_nat (k - n)) d)%string
  else if (-6 <? n) && (n <=? 0) then
    ("0." ++ zeros (Z.to_nat (- n)) ++ d)%string
  else
    let exponent :=
      ((if (n - 1 <? 0)%Z then "-" else "+") ++ digits (Z.abs (n - 1)))%string in
    if k =? 1 then (d ++ "e" ++ exponent)%string
    else (String.substring 0 1 d ++ "."
            ++ String.substring 1 (Z.to_nat (k - 1)) d ++ "e" ++ exponent)%string.

(** [Number::toString(x)] in radix 10.  Seventeen digits always read back. *)
Definition number_to_string (x : float) : string :=
  match Prim2SF x with
  | S754_nan => "NaN"
  | S754_zero _ => "0"
  | S754_infinity sign => if sign then "-Infinity" else "Infinity"
  | S754_finite sign m e =>
      let n := decade (Zpos m * 2 ^ Z.max e 0) (2 ^ Z.max (- e) 0) in
      let (s, n') := shortest (abs x) (Zpos m) e n 16 1 in
      ((if sign then "-" else "") ++ decimal_text s n')%string
  end.

(** [x.toFixed(2)].  A finite [x] below [10^21] in magnitude prints as the
    integer [n] nearest to [100 * x] (the larger of two), with a point
    before its last two digits; the sign is that of [x], a zero has none. *)
Definition toFixed2 (x : float) : string :=
  match Prim2SF x with
  | S754_nan => "NaN"
  | S754_infinity sign => if sign then "-Infinity" else "Infinity"
  | S754_zero _ => "0.00"
  | S754_finite sign m e =>
      let text :=
        if (1e21 <=? abs x)%float then number_to_string (abs x)
        else
          let n := if 0 <=? e then Zpos m * 2 ^ e * 100
                   else (2 * Zpos m * 100 + 2 ^ (- e)) / (2 * 2 ^ (- e)) in
          let d := digits n in
          let d := (zeros (3 - String.length d)%nat ++ d)%string in
          let k := String.length d in
          (String.substring 0 (k - 2)%nat d ++ "."
             ++ String.substring (k - 2)%nat 2 d)%string in
      ((if sign then "-" else "") ++ text)%string
  end.

(** *** [StringToNumber] *)

(** White space and line terminators among the code units below 256. *)
Definition white (c : ascii) : bool :=
  let n := N_of_ascii c in
  ((9 <=? n) && (n <=? 13) || (n =? 32) || (n =? 160))%N.

Fixpoint trim_start (s : string) : string :=
  match s with
  | String c rest => if white c then trim_start rest else s
  | EmptyString => s
  end.

Fixpoint trim_end (s : string) : string :=
  match s with
  | EmptyString => EmptyString
  | String c rest =>
      match trim_end rest with
      | EmptyString => if white c then EmptyString else String c EmptyString
      | rest' => String c rest'
      end
  end.

(** The value of a digit in a radix up to 16. *)
Definition digit_value (radix : Z) (c : ascii) : option Z :=
  let n := Z.of_N (N_of_ascii c) in
  let v := if (48 <=? n) && (n <=? 57) then n - 48
           else if (97 <=? n) && (n <=? 102) then n - 87
           else if (65 <=? n) && (n <=? 70) then n - 55
           else 16 in
  if v <? radix then Some v else None.

(** The leading digits of [s]: their value after [value], how many they
    are after [count], and what follows them. *)
Fixpoint leading_digits (radix : Z) (s : string) (value count : Z)
    : Z * Z * string :=
  match s with
  | EmptyString => (value, count, s)
  | String c rest =>
      match digit_value radix c with
      | Some d => leading_digits radix rest (value * radix + d) (count + 1)
      | None => (value, count, s)
      end
  end.

(** [ExponentPart], or nothing, up to the end of the text. *)
Definition exponent_part (s : string) : option Z :=
  match s with
  | EmptyString => Some 0
  | String c rest =>
      if (Ascii.eqb c "e" || Ascii.eqb c "E")%bool then
        let (negative, rest) :=
          match rest with
          | String "-" r => (true, r)
          | String "+" r => (false, r)
          | _ => (false, rest)
          end in
        match leading_digits 10 rest 0 0 with
        | (x, count, EmptyString) =>
            if 0 <? count then Some (if negative then - x else x) else None
        | _ => None
        end
      else None
  end.

(** [StrUnsignedDecimalLiteral] other than [Infinity]. *)
Definition unsigned_decimal (s : string) : option float :=
  let '(whole, count1, rest) := leading_digits 10 s 0 0 in
  let '(all, count2, rest) :=
    match rest with
    | String "." r => leading_digits 10 r whole 0
    | _ => (whole, 0, rest)
    end in
  if (0 <? count1) || (0 <? count2) then
    match exponent_part rest with
    | Some x => Some (nearest_decimal all (x - count2))
    | None => None
    end
  else None.

(** [NonDecimalIntegerLiteral] after its prefix. *)
Definition integer_literal (radix : Z) (s : string) : float :=
  match leading_digits radix s 0 0 with
  | (v, count, EmptyString) => if 0 <? count then nearest v 0 else nan
  | _ => nan
  end.

Definition StringToNumber (text : string) : float :=
  let s := trim_end (trim_start text) in
  match s with
  | EmptyString => 0%float
  | String "0" (String c rest) =>
      if (Ascii.eqb c "x" || Ascii.eqb c "X")%bool then integer_literal 16 rest
      else if (Ascii.eqb c "o" || Ascii.eqb c "O")%bool then integer_literal 8 rest
      else if (Ascii.eqb c "b" || Ascii.eqb c "B")%bool then integer_literal 2 rest
      else match unsigned_decimal s with Some f => f | None => nan end
  | _ =>
      let (negative, body) :=
        match s with
        | String "-" r => (true, r)
        | String "+" r => (false, r)
        | _ => (false, s)
        end in
      let magnitude :=
        if (body =? "Infinity")%string then infinity
        else match unsigned_decimal body with Some f => f | None => nan end in
      if negative then (- magnitude)%float else magnitude
  end.

(** *** The primitive values *)

Inductive primitive : Type :=
| undefined
| null
| Bool (b : bool)
| Number (f : float)
| Text (s : string).
Arguments Number f%_float.

(** [ToNumber] *)
Definition ToNumber (v : primitive) : float :=
  match v with
  | undefined => nan
  | null => 0
  | Bool true => 1
  | Bool false => 0
  | Number f => f
  | Text s => StringToNumber s
  end.

(** [ToBoolean] *)
Definition ToBoolean (v : primitive) : bool :=
  match v with
  | undefined | null => false
  | Bool b => b
  | Number f => negb (is_zero f || is_nan f)
  | Text s => negb (s =? "")%string
  end.

(** [ToString] *)
Definition ToString (v : primitive) : string :=
  match v with
  | undefined => "undefined"
  | null => "null"
  | Bool true => "true"
  | Bool false => "false"
  | Number f => number_to_string f
  | Text s => s
  end.

(** [a + b]: a concatenation as soon as one operand is a text, a sum of
    doubles otherwise. *)
Definition js_add (a b : primitive) : primitive :=
  match a, b with
  | Text _, _ | _, Text _ => Text (ToString a ++ ToString b)
  | _, _ => Number (ToNumber a + ToNumber b)
  end.

(** [a < b] and [a > b]: by code units between two texts, between numbers
    otherwise, where [NaN] compares false. *)
Definition js_lt (a b : primitive) : bool :=
  match a, b with
  | Text s, Text t => String.ltb s t
  | _, _ => (ToNumber a <? ToNumber b)%float
  end.

Definition js_gt (a b : primitive) : bool :=
  match a, b with
  | Text s, Text t => String.ltb t s
  | _, _ => (ToNumber b <? ToNumber a)%float
  end.

(** [a === b] *)
Definition strict_equal (a b : primitive) : bool :=
  match a, b with
  | undefined, undefined => true
  | null, null => true
  | Bool x, Bool y => Bool.eqb x y
  | Number x, Number y => (x =? y)%float
  | Text s, Text t => (s =? t)%string
  | _, _ => false
  end.

(** [a || b] *)
Definition js_or (a b : primitive) : primitive := if ToBoolean a then a else b.

(** [s || d] on text: the empty text is the only falsy one. *)
Definition or_text (s d : string) : string :=
  if (s =? "")%string then d else s.

(** [o || d] where [o] is an object or [undefined]: an object is truthy. *)
Definition or_object {A : Type} (o : option A) (d : A) : A :=
  match o with
  | Some a => a
  | None => d
  end.

(** [a / b] *)
Definition js_div (a b : primitive) : primitive :=
  Number (ToNumber a / ToNumber b).

(** [a.length], a number. *)
Definition array_length {A : Type} (a : list A) : primitive :=
  Number (nearest (Z.of_nat (List.length a)) 0).

(** [s.split(sep)] for a separator of one code unit: the segments between
    the occurrences of [sep], never an empty array. *)
Fixpoint split (sep : ascii) (s : string) : list string :=
  match s with
  | EmptyString => [EmptyString]
  | String c rest =>
      if Ascii.eqb c sep then EmptyString :: split sep rest
      else match split sep rest with
           | seg :: segs => String c seg :: segs
           | [] => [String c EmptyString]
           end
  end.

(** [a.pop()] as an expression: the last element, [undefined] on []. *)
Definition pop {A : Type} (a : list A) : option A := List.last (List.map Some a) None.

(** [s.substring(0, n)]. *)
Definition substring0 (n : nat) (s : string) : string := String.substring 0 n s.

(** What a [throw] carries here: an [Error] with its [message]. *)
Record Error : Type := { message : string }.

(** The outcome of a block: a value, or an abrupt completion. *)
Inductive completion (A : Type) : Type :=
| Normal (a : A)
| Throw (e : Error).
Arguments Normal {A} a.
Arguments Throw {A} e.

End JS.
(* ================================================================== *)
(** ** The lodash functions that [processCSVData] calls

    The source imports lodash; each function below follows the code of
    lodash 4.17 under its own name ([baseSum], [sumBy], [groupBy] with
    [baseAssignValue], [compareAscending], [compareMultiple], [baseOrderBy]
    as [orderBy], [baseExtremum], [baseGt], [maxBy]).  A chained call
    [_(x).f(a)] is [f x a]. *)

Module Lodash.
Import JS.

(** *** [_.sumBy]

    The string shorthand ['costInBillingCurrency'] stands for the property
    getter, which is passed here as the function [iteratee]. *)

Fixpoint baseSum {A : Type} (array : list A) (iteratee : A -> primitive)
    (result : primitive) : primitive :=
  match array with
  | [] => result
  | value :: rest =>
      let current := iteratee value in
      baseSum rest iteratee
        match current with
        | undefined => result
        | _ => match result with
               | undefined => current
               | _ => js_add result current
               end
        end
  end.

Definition sumBy {A : Type} (array : list A) (iteratee : A -> primitive)
    : primitive :=
  match array with
  | [] => Number 0
  | _ :: _ => baseSum array iteratee undefined
  end.

(** *** Objects used as dictionaries *)

(** The own properties, in the order of their creation. *)
Definition object (V : Type) : Type := list (string * V).

Fixpoint hasOwnProperty {V : Type} (o : object V) (key : string) : bool :=
  match o with
  | [] => false
  | (k, _) :: rest => if (k =? key)%string then true else hasOwnProperty rest key
  end.

(** [result[key].push(value)] *)
Fixpoint push {V : Type} (o : object (list V)) (key : string) (value : V)
    : object (list V) :=
  match o with
  | [] => []
  | (k, items) :: rest =>
      if (k =? key)%string then (k, items ++ [value]) :: rest
      else (k, items) :: push rest key value
  end.

(** [baseAssignValue(result, key, value)] for a key that [result] lacks. *)
Definition baseAssignValue {V : Type} (o : object V) (key : string) (value : V)
    : object V :=
  o ++ [(key, value)].

(** An array index is the canonical decimal text of an integer below
    2^32 - 1. *)
Definition array_index (key : string) : option N :=
  match NilZero.uint_of_string key with
  | Some d =>
      let n := N.of_uint d in
      if ((NilZero.string_of_uint (N.to_uint n) =? key)%string
          && (n <? 4294967295)%N)%bool
      then Some n else None
  | None => None
  end.

(** [array.sort(comparer)]: [comparer a b <= 0] keeps [a] before [b]. *)
Fixpoint sort_insert {A : Type} (comparer : A -> A -> Z) (x : A) (l : list A)
    : list A :=
  match l with
  | [] => [x]
  | y :: rest =>
      if comparer x y <=? 0 then x :: y :: rest
      else y :: sort_insert comparer x rest
  end.

Definition sort {A : Type} (comparer : A -> A -> Z) (l : list A) : list A :=
  fold_right (sort_insert comparer) [] l.

Definition index_properties {V : Type} (o : object V) : list (N * (string * V)) :=
  flat_map (fun p => match array_index (fst p) with
                     | Some i => [(i, p)]
                     | None => []
                     end) o.

Definition named_properties {V : Type} (o : object V) : list (string * V) :=
  filter (fun p => match array_index (fst p) with
                   | Some _ => false
                   | None => true
                   end) o.

(** The own properties as [Object.keys] enumerates them: the array indices
    in ascending order, then the other keys in creation order. *)
Definition ownProperties {V : Type} (o : object V) : list (string * V) :=
  map snd (sort (fun a b => Z.of_N (fst a) - Z.of_N (fst b)) (index_properties o))
    ++ named_properties o.

(** *** [_.groupBy] *)

Definition groupBy {A : Type} (collection : list A) (iteratee : A -> primitive)
    : object (list A) :=
  fold_left
    (fun result value =>
       let key := ToString (iteratee value) in
       if hasOwnProperty result key then push result key value
       else baseAssignValue result key [value])
    collection [].

(** *** [_.map] over an object, [_.filter], [_.take], [array[0]] *)

Definition map_object {V B : Type} (o : object V) (iteratee : V -> string -> B)
    : list B :=
  map (fun p => iteratee (snd p) (fst p)) (ownProperties o).

Definition filter {A : Type} (array : list A) (predicate : A -> bool) : list A :=
  List.filter predicate array.

Definition take {A : Type} (array : list A) (n : nat) : list A := firstn n array.

Definition first {A : Type} (array : list A) : option A := hd_error array.

(** *** [_.orderBy] *)

(** What [compareAscending] asks of the two values it compares.  No value
    of the model is a symbol, so the [isSymbol] tests are constantly false
    and left out. *)
Class Comparable (K : Type) : Type := {
  greater : K -> K -> bool;        (* value > other *)
  less : K -> K -> bool;           (* value < other *)
  identical : K -> K -> bool;      (* value === other *)
  isNull : K -> bool;              (* value === null *)
  isUndefined : K -> bool          (* value === undefined *)
}.

#[global] Instance Comparable_primitive : Comparable primitive := {
  greater := js_gt;
  less := js_lt;
  identical := strict_equal;
  isNull := fun v => match v with null => true | _ => false end;
  isUndefined := fun v => match v with undefined => true | _ => false end
}.

#[global] Instance Comparable_text : Comparable string := {
  greater := fun a b => String.ltb b a;
  less := fun a b => String.ltb a b;
  identical := String.eqb;
  isNull := fun _ => false;
  isUndefined := fun _ => false
}.

Definition compareAscending {K : Type} `{Comparable K} (value other : K) : Z :=
  if negb (identical value other) then
    let valIsDefined := negb (isUndefined value) in
    let valIsNull := isNull value in
    let valIsReflexive := identical value value in
    let othIsDefined := negb (isUndefined other) in
    let othIsNull := isNull other in
    let othIsReflexive := identical other other in
    if (negb othIsNull && greater value other)
       || (valIsNull && othIsDefined && othIsReflexive)
       || (negb valIsDefined && othIsReflexive)
       || negb valIsReflexive
    then 1
    else if (negb valIsNull && less value other)
            || (othIsNull && valIsDefined && valIsReflexive)
            || (negb othIsDefined && valIsReflexive)
            || negb othIsReflexive
    then -1
    else 0
  else 0.

Inductive order : Type := asc | desc.

(** The objects [{criteria, index, value}] that [baseOrderBy] sorts; every
    call of the source has one iteratee, so [criteria] is one value. *)
Record sortable (A K : Type) : Type := {
  criteria : K;
  index : nat;
  value : A
}.
Arguments criteria {A K} _.
Arguments index {A K} _.
Arguments value {A K} _.

Definition compareMultiple {A K : Type} `{Comparable K} (orders : list order)
    (object other : sortable A K) : Z :=
  let result := compareAscending (criteria object) (criteria other) in
  if negb (result =? 0) then
    match orders with
    | [] => result
    | order :: _ => result * (match order with desc => -1 | asc => 1 end)
    end
  else Z.of_nat (index object) - Z.of_nat (index other).

Fixpoint sortables {A K : Type} (iteratee : A -> K) (collection : list A)
    (index : nat) : list (sortable A K) :=
  match collection with
  | [] => []
  | v :: rest =>
      {| criteria := iteratee v; index := index; value := v |}
        :: sortables iteratee rest (S index)
  end.

Definition orderBy {A K : Type} `{Comparable K} (collection : list A)
    (iteratee : A -> K) (orders : list order) : list A :=
  map value (sort (compareMultiple orders) (sortables iteratee collection 0)).

(** *** [_.maxBy] *)

Definition baseGt (value other : primitive) : bool := js_gt value other.

(** [computed] starts [undefined]; [result] is [undefined] until an element
    is chosen. *)
Fixpoint baseExtremum {A : Type} (array : list A) (iteratee : A -> primitive)
    (comparator : primitive -> primitive -> bool) (computed : primitive)
    (result : option A) : option A :=
  match array with
  | [] => result
  | value :: rest =>
      let current := iteratee value in
      let chosen :=
        match current with
        | undefined | null => false
        | _ => match computed with
               | undefined => strict_equal current current
               | _ => comparator current computed
               end
        end in
      if chosen then baseExtremum rest iteratee comparator current (Some value)
      else baseExtremum rest iteratee comparator computed result
  end.

Definition maxBy {A : Type} (array : list A) (iteratee : A -> primitive)
    : option A :=
  match array with
  | [] => None
  | _ :: _ => baseExtremum array iteratee baseGt undefined None
  end.

End Lodash.

(* ================================================================== *)
(** ** The dashboard's aggregation: [processCSVData] *)

Import JS.

(** One decoded row.  A field that the row lacks reads as [undefined]. *)
Record UsageRecord : Type := {
  date : primitive;
  costInBillingCurrency : primitive;
  serviceFamily : primitive;
  resourceId : primitive;
  resourceGroupName : primitive
}.

(** [{date, cost}] *)
Module DailyCost.
Record t : Type := { date : string; cost : primitive }.
End DailyCost.

(** [{name, value}] *)
Module ServiceEntry.
Record t : Type := { name : string; value : primitive }.
End ServiceEntry.

(** [{name, cost}] *)
Module CostEntry.
Record t : Type := { name : string; cost : primitive }.
End CostEntry.

(** The object handed to [setDashboardData]. *)
Module Summary.
Record t : Type := {
  totalCost : primitive;
  dailyAverage : primitive;
  serviceBreakdown : list ServiceEntry.t;
  dailyCosts : list DailyCost.t;
  peakUsage : DailyCost.t;
  resourceCosts : CostEntry.t;
  resourceGroupCosts : list CostEntry.t;
  topService : ServiceEntry.t
}.
End Summary.

(** The constants of the [try] block, each as a function of [data]. *)
Section Constants.

Variable data : list UsageRecord.

(* line 28 *)
Definition totalCost : primitive :=
  js_or (Lodash.sumBy data costInBillingCurrency) (Number 0).

(* lines 31-38 *)
Definition dailyCosts : list DailyCost.t :=
  Lodash.orderBy
    (Lodash.map_object (Lodash.groupBy data date)
       (fun items date =>
          {| DailyCost.date := or_text date "Unknown";
             DailyCost.cost :=
               js_or (Lodash.sumBy items costInBillingCurrency) (Number 0) |}))
    DailyCost.date [].

(* line 41 *)
Definition dailyAverage : primitive :=
  if (0 <? List.length dailyCosts)%nat
  then js_div totalCost (array_length dailyCosts)
  else Number 0.

(* line 44 *)
Definition peakUsage : DailyCost.t :=
  or_object (Lodash.maxBy dailyCosts DailyCost.cost)
    {| DailyCost.date := "N/A"; DailyCost.cost := Number 0 |}.

(* lines 47-55 *)
Definition serviceBreakdown : list ServiceEntry.t :=
  Lodash.orderBy
    (Lodash.filter
       (Lodash.map_object (Lodash.groupBy data serviceFamily)
          (fun items name =>
             {| ServiceEntry.name := or_text name "Others";
                ServiceEntry.value :=
                  js_or (Lodash.sumBy items costInBillingCurrency) (Number 0) |}))
       (fun item =>
          negb (ServiceEntry.name item =? "null")%string
          && negb (ServiceEntry.name item =? "undefined")%string
          && js_gt (ServiceEntry.value item) (Number 0)))
    ServiceEntry.value [Lodash.desc].

(* lines 58-66 *)
Definition resourceCosts : list CostEntry.t :=
  Lodash.orderBy
    (Lodash.filter
       (Lodash.map_object (Lodash.groupBy data resourceId)
          (fun items resource =>
             {| CostEntry.name :=
                  substring0 30
                    match pop (split "/" resource) with
                    | Some segment => or_text segment "Unnamed"
                    | None => "Unnamed"
                    end;
                CostEntry.cost :=
                  js_or (Lodash.sumBy items costInBillingCurrency) (Number 0) |}))
       (fun item => js_gt (CostEntry.cost item) (Number 0)))
    CostEntry.cost [Lodash.desc].

(* lines 69-82 *)
Definition resourceGroupCosts : list CostEntry.t :=
  Lodash.take
    (Lodash.orderBy
       (Lodash.filter
          (Lodash.map_object (Lodash.groupBy data resourceGroupName)
             (fun items name =>
                {| CostEntry.name := substring0 30 (or_text name "Unassigned");
                   CostEntry.cost :=
                     js_or (Lodash.sumBy items costInBillingCurrency) (Number 0) |}))
          (fun item =>
             negb (CostEntry.name item =? "null")%string
             && negb (CostEntry.name item =? "undefined")%string
             && js_gt (CostEntry.cost item) (Number 0)))
       CostEntry.cost [Lodash.desc])
    5.

(** The object of lines 84-93. *)
Definition aggregate : Summary.t :=
  {| Summary.totalCost := totalCost;
     Summary.dailyAverage := dailyAverage;
     Summary.serviceBreakdown := serviceBreakdown;
     Summary.dailyCosts := dailyCosts;
     Summary.peakUsage := peakUsage;
     Summary.resourceCosts :=
       or_object (Lodash.first resourceCosts)
         {| CostEntry.name := "N/A"; CostEntry.cost := Number 0 |};
     Summary.resourceGroupCosts := resourceGroupCosts;
     Summary.topService :=
       or_object (Lodash.first serviceBreakdown)
         {| ServiceEntry.name := "N/A"; ServiceEntry.value := Number 0 |} |}.

End Constants.

(** The argument of [processCSVData]: the decoder's result object with its
    [data] array (possibly missing), or no object at all. *)
Inductive results : Type :=
| results_undefined
| results_null
| results_object (data : option (list UsageRecord)).

(** [results.data || []]; reading a property of [undefined] or [null] throws
    a [TypeError], whose message is the one V8 gives. *)
Definition results_data (r : results) : completion (list UsageRecord) :=
  match r with
  | results_undefined =>
      Throw {| message := "Cannot read properties of undefined (reading 'data')" |}
  | results_null =>
      Throw {| message := "Cannot read properties of null (reading 'data')" |}
  | results_object (Some data) => Normal data
  | results_object None => Normal []
  end.

(** The [try] block up to the argument of [setDashboardData]. *)
Definition try_block (r : results) : completion Summary.t :=
  match results_data r with
  | Normal data => Normal (aggregate data)
  | Throw e => Throw e
  end.

(** The default structure of the [catch] block (lines 97-106). *)
Definition default_data : Summary.t :=
  {| Summary.totalCost := Number 0;
     Summary.dailyAverage := Number 0;
     Summary.serviceBreakdown := [];
     Summary.dailyCosts := [];
     Summary.peakUsage := {| DailyCost.date := "N/A"; DailyCost.cost := Number 0 |};
     Summary.resourceCosts := {| CostEntry.name := "N/A"; CostEntry.cost := Number 0 |};
     Summary.resourceGroupCosts := [];
     Summary.topService :=
       {| ServiceEntry.name := "N/A"; ServiceEntry.value := Number 0 |} |}.

(** The component's state that [processCSVData] writes. *)
Record state : Type := {
  dashboardData : option Summary.t;
  error : option string
}.

Definition setDashboardData (d : Summary.t) (st : state) : state :=
  {| dashboardData := Some d; error := error st |}.

Definition setError (msg : string) (st : state) : state :=
  {| dashboardData := dashboardData st; error := Some msg |}.

Definition processCSVData (r : results) (st : state) : state :=
  match try_block r with
  | Normal d => setDashboardData d st
  | Throw err =>
      setDashboardData default_data
        (setError ("Error processing data: " ++ message err)%string st)
  end.

(* ================================================================== *)
(** ** The vocabulary of the properties *)

(** [a <= b] and [a < b] between the numbers that two values read as;
    neither holds when one of them reads as [NaN]. *)
Definition num_le (a b : primitive) : Prop :=
  (ToNumber a <=? ToNumber b)%float = true.

Definition num_lt (a b : primitive) : Prop :=
  (ToNumber a <? ToNumber b)%float = true.

(** What the predicate of lines 53 and 75-79 lets through. *)
Definition named_and_positive (name : string) (v : primitive) : Prop :=
  name <> "null" /\ name <> "undefined" /\ num_lt (Number 0) v.

(** [m] is the first element of [l] whose cost is the greatest. *)
Definition first_maximum {A : Type} (cost : A -> primitive) (l : list A) (m : A)
    : Prop :=
  exists before after,
    l = before ++ m :: after
    /\ Forall (fun x => num_lt (cost x) (cost m)) before
    /\ Forall (fun x => num_le (cost x) (cost m)) after.

(** The number that a cell adds to a total when only numbers count. *)
Definition numeric_reading (v : primitive) : float :=
  match v with
  | Number f => f
  | _ => 0
  end.

(** The sum of a list of doubles, added from 0 in the order of the list. *)
Definition sum_floats (l : list float) : float :=
  fold_left PrimFloat.add l 0%float.

(** What a record adds to a total when only numbers count. *)
Definition numeric_cost (r : UsageRecord) : float :=
  numeric_reading (costInBillingCurrency r).

(** The number that [x || 0] is for a number [x]: 0 for a zero and for
    [NaN]. *)
Definition or_zero (x : float) : float :=
  if (is_zero x || is_nan x)%bool then 0%float else x.

(** The sum of a list of values as [0 + v1 + v2 + ...] computes it. *)
Definition sum_values (l : list primitive) : primitive :=
  fold_left js_add l (Number 0).

Definition is_text (v : primitive) : bool :=
  match v with
  | Text _ => true
  | _ => false
  end.

(** A cost cell that holds neither [true] nor a text. *)
Definition benign (v : primitive) : Prop :=
  match v with
  | Bool true | Text _ => False
  | _ => True
  end.

(** No cost cell of the rows holds a text. *)
Definition costs_without_text (data : list UsageRecord) : Prop :=
  Forall (fun r => is_text (costInBillingCurrency r) = false) data.

(** The shapes that [v || 0] takes: [true], a number other than [NaN], or
    a text that is not empty. *)
Definition settled (v : primitive) : Prop :=
  match v with
  | Bool true => True
  | Number f => is_nan f = false
  | Text s => s <> ""
  | _ => False
  end.

(** The shapes that [v || 0] takes when [v] is not a text. *)
Definition numeric (v : primitive) : Prop :=
  match v with
  | Bool true => True
  | Number f => is_nan f = false
  | _ => False
  end.

(** The cost that the summary shows for the rows whose [field] reads [k]. *)
Definition group_cost (field : UsageRecord -> primitive) (k : string)
    (data : list UsageRecord) : primitive :=
  js_or
    (Lodash.sumBy
       (List.filter (fun x => (ToString (field x) =? k)%string) data)
       costInBillingCurrency)
    (Number 0).

(** A label that the row lacks. *)
Definition absent (c : primitive) : bool :=
  match c with
  | undefined => true
  | _ => false
  end.

(** [comparer] decides the relation [T] between [x] and [y]. *)
Definition decides {A : Type} (comparer : A -> A -> Z) (T : A -> A -> Prop)
    (x y : A) : Prop :=
  (comparer x y <= 0 -> T x y) /\ (0 < comparer x y -> T y x).

(** The key under which [groupBy] files [x]. *)
Definition key_of {A : Type} (iteratee : A -> primitive) (x : A) : string :=
  ToString (iteratee x).

(** One turn of [groupBy]'s loop. *)
Definition group_step {A : Type} (iteratee : A -> primitive)
    (result : Lodash.object (list A)) (value : A) : Lodash.object (list A) :=
  if Lodash.hasOwnProperty result (key_of iteratee value)
  then Lodash.push result (key_of iteratee value) value
  else Lodash.baseAssignValue result (key_of iteratee value) [value].

(** The groups have distinct keys, each holds the elements of its key in
    their order in the collection, and every element has its group. *)
Definition grouped {A : Type} (iteratee : A -> primitive)
    (g : Lodash.object (list A)) (l : list A) : Prop :=
  NoDup (map fst g)
  /\ (forall k items, In (k, items) g ->
        items = List.filter (fun x => (key_of iteratee x =? k)%string) l)
  /\ (forall x, In x l -> Lodash.hasOwnProperty g (key_of iteratee x) = true).

(** The properties other than [k0]. *)
Definition others (k0 : string) {V : Type} (p : string * V) : bool :=
  negb (fst p =? k0)%string.

(** The cells of a column that are not [undefined], in order. *)
Definition present (cells : list primitive) : list primitive :=
  List.filter (fun v => match v with undefined => false | _ => true end) cells.

(** *** The order of the doubles *)

(** Where a double that is not [NaN] stands among the doubles: its class
    (negative infinity, negative, zero, positive, positive infinity), then
    its exponent and its mantissa, both negated below zero. *)
Definition rank (x : spec_float) : Z * Z * Z :=
  match x with
  | S754_infinity true => (-2, 0, 0)
  | S754_finite true m e => (-1, - e, Zneg m)
  | S754_zero _ | S754_nan => (0, 0, 0)
  | S754_finite false m e => (1, e, Zpos m)
  | S754_infinity false => (2, 0, 0)
  end.

Definition place (x : float) : Z * Z * Z := rank (Prim2SF x).

Definition lexicographic (a b : Z * Z * Z) : comparison :=
  let '(a1, a2, a3) := a in
  let '(b1, b2, b3) := b in
  match a1 ?= b1 with
  | Eq => match a2 ?= b2 with
          | Eq => a3 ?= b3
          | c => c
          end
  | c => c
  end.

Definition precedes (a b : Z * Z * Z) : Prop :=
  let '(a1, a2, a3) := a in
  let '(b1, b2, b3) := b in
  a1 < b1 \/ (a1 = b1 /\ (a2 < b2 \/ (a2 = b2 /\ a3 < b3))).

(** Two doubles that are the same, or two zeros. *)
Definition zero_like (a b : float) : Prop :=
  a = b \/ (is_zero a = true /\ is_zero b = true).

(** What [baseSum] holds in [result] against the sum [acc] of the numeric
    readings of the cells met so far: nothing or a cell that reads 0 while
    [acc] is 0, or else [acc] itself up to the sign of a zero. *)
Definition tallies (result : primitive) (acc : float) : Prop :=
  match result with
  | undefined | null | Bool false => acc = 0%float
  | Number f => zero_like f acc
  | Bool true | Text _ => False
  end.

(** *** Whole numbers *)

(** The finite double of sign [s] whose magnitude is the whole number [z],
    for [0 < z < 2^53]: a mantissa of 53 bits. *)
Definition whole_binary (s : bool) (z : Z) : spec_float :=
  S754_finite s (Z.to_pos (z * 2 ^ (52 - Z.log2 z))) (Z.log2 z - 52).

(** The double that a whole number below [2^53] in magnitude is. *)
Definition whole_float (z : Z) : spec_float :=
  match z with
  | Z0 => S754_zero false
  | Zpos _ => whole_binary false z
  | Zneg _ => whole_binary true (- z)
  end.

(** The whole part of a double, towards zero; 0 for the infinities and
    [NaN]. *)
Definition whole_part (f : float) : Z :=
  match Prim2SF f with
  | S754_finite s m e => cond_Zopp s (Z.shiftl (Zpos m) e)
  | _ => 0
  end.

(** The whole part of what a record adds to a total. *)
Definition amount (r : UsageRecord) : Z := whole_part (numeric_cost r).

(** The cost cell of the record is absent, [null], [false] or a number, and
    what it adds to a total is a whole number (and not the negative
    zero). *)
Definition whole_cost (r : UsageRecord) : Prop :=
  benign (costInBillingCurrency r) /\ numeric_cost r = nearest (amount r) 0.

Definition sum_Z (l : list Z) : Z := fold_right Z.add 0 l.

Definition sum_abs (l : list Z) : Z := fold_right (fun z s => Z.abs z + s) 0 l.

(* ================================================================== *)
(** ** Rows used as concrete inputs *)

(** A row from its date, cost, service family, resource id and resource
    group. *)
Definition row (d c s i g : primitive) : UsageRecord :=
  {| date := d; costInBillingCurrency := c; serviceFamily := s;
     resourceId := i; resourceGroupName := g |}.

(** The three rows of the specification's example. *)
Definition example_rows : list UsageRecord :=
  [ row (Text "2024-01-01") (Number 10) (Text "Compute") undefined (Text "rg1");
    row (Text "2024-01-01") (Number 5) (Text "Storage") undefined (Text "rg1");
    row (Text "2024-01-02") (Number 20) (Text "Compute") undefined (Text "rg2") ].

(** A cost column in which one cell reads [true]. *)
Definition boolean_cost_rows : list UsageRecord :=
  [ row (Text "2024-01-01") (Number 5) (Text "Compute") undefined (Text "rg1");
    row (Text "2024-01-01") (Bool true) (Text "Compute") undefined (Text "rg1") ].

(** A cost column in which one cell was left as the text ["N/A"]. *)
Definition text_cost_rows : list UsageRecord :=
  [ row (Text "2024-01-01") (Number 5) (Text "Compute") undefined (Text "rg1");
    row (Text "2024-01-01") (Text "N/A") (Text "Compute") undefined (Text "rg1");
    row (Text "2024-01-01") (Number 3) (Text "Compute") undefined (Text "rg1") ].

(** Three decimal costs over two days. *)
Definition decimal_rows : list UsageRecord :=
  [ row (Text "2024-01-01") (Number 0.1) (Text "Compute") undefined (Text "rg1");
    row (Text "2024-01-02") (Number 0.2) (Text "Compute") undefined (Text "rg1");
    row (Text "2024-01-02") (Number 0.3) (Text "Compute") undefined (Text "rg1") ].

(** Costs written with a sign, which the decoder leaves as text, and a
    number: as text ["+9"] is above ["+80"], as numbers 80 is above 10 and 10
    above 9. *)
Definition signed_cost_rows : list UsageRecord :=
  [ row (Text "2024-01-01") (Text "+9") (Text "Compute") (Text "/vm/a") (Text "rg1");
    row (Text "2024-01-02") (Text "+80") (Text "Storage") (Text "/vm/b") (Text "rg2");
    row (Text "2024-01-03") (Number 10) (Text "Network") (Text "/vm/c") (Text "rg3") ].

(** Two days whose costs are signed texts. *)
Definition signed_day_rows : list UsageRecord :=
  [ row (Text "2024-01-01") (Text "+80") (Text "Compute") undefined (Text "rg1");
    row (Text "2024-01-02") (Text "+9") (Text "Compute") undefined (Text "rg1") ].

(** Five resource groups whose costs are signed texts, then rows without a
    group name that cost 10. *)
Definition crowded_rows : list UsageRecord :=
  [ row (Text "2024-01-01") (Text "+9") (Text "Compute") undefined (Text "rg1");
    row (Text "2024-01-01") (Text "+83") (Text "Compute") undefined (Text "rg2");
    row (Text "2024-01-01") (Text "+82") (Text "Compute") undefined (Text "rg3");
    row (Text "2024-01-01") (Text "+81") (Text "Compute") undefined (Text "rg4");
    row (Text "2024-01-01") (Text "+80") (Text "Compute") undefined (Text "rg5");
    row (Text "2024-01-01") (Number 10) (Text "Compute") undefined (Text "") ].

(** A row whose three labels are the empty text, and an ordinary one. *)
Definition empty_label_rows : list UsageRecord :=
  [ row (Text "") (Number 7) (Text "") undefined (Text "");
    row (Text "2024-01-02") (Number 5) (Text "Compute") undefined (Text "rg1") ].

(** A row that lacks its labels, and a row whose label cells are empty. *)
Definition absent_label_rows : list UsageRecord :=
  [ row undefined (Number 5) undefined undefined undefined;
    row null (Number 3) null null null ].

(* ================================================================== *)
(** ** The rest of the component: formatting, upload and screens *)

(** [formatCurrency] (lines 8-11).  A boolean and a text have no
    [toFixed]: calling it throws a [TypeError], whose message is the one V8
    gives. *)
Definition formatCurrency (value : primitive) : completion string :=
  match value with
  | undefined | null => Normal "$0.00"
  | Number f => Normal ("$" ++ toFixed2 f)%string
  | Bool _ | Text _ => Throw {| message := "value.toFixed is not a function" |}
  end.

(** The text that [formatCurrency] gives for a number. *)
Definition currency (f : float) : string := ("$" ++ toFixed2 f)%string.

(** The expression of line 61, on the key [resource] of a group. *)
Definition resource_name (resource : string) : string :=
  substring0 30
    match pop (split "/" resource) with
    | Some segment => or_text segment "Unnamed"
    | None => "Unnamed"
    end.

(** The three [useState] cells of the component. *)
Record component : Type := {
  isLoading : bool;
  hooks : state
}.

Definition setIsLoading (b : bool) (c : component) : component :=
  {| isLoading := b; hooks := hooks c |}.

(** A setter of [dashboardData] or [error] run on the component. *)
Definition with_hooks (f : state -> state) (c : component) : component :=
  {| isLoading := isLoading c; hooks := f (hooks c) |}.

(** [setError(null)] *)
Definition setError_null (st : state) : state :=
  {| dashboardData := dashboardData st; error := None |}.

(** The [complete] callback handed to [Papa.parse] (lines 119-122). *)
Definition on_complete (r : results) (c : component) : component :=
  setIsLoading false (with_hooks (processCSVData r) c).

(** The [error] callback handed to [Papa.parse] (lines 123-126). *)
Definition on_error (e : Error) (c : component) : component :=
  setIsLoading false
    (with_hooks (setError ("Error parsing CSV: " ++ message e)%string) c).

(** How the parse of a selected file ends: the parser calls one of the two
    callbacks, once. *)
Inductive parse_end : Type :=
| parse_complete (r : results)
| parse_error (e : Error).

(** [handleFileUpload] up to the call of [Papa.parse] (lines 111-114), for
    a selected file. *)
Definition handleFileUpload_begin (c : component) : component :=
  with_hooks setError_null (setIsLoading true c).

(** [handleFileUpload] (lines 110-129) with the parse run to its end.
    [event.target.files[0]] is [None] when no file was selected. *)
Definition handleFileUpload (file : option parse_end) (c : component) : component :=
  match file with
  | None => c
  | Some (parse_complete r) => on_complete r (handleFileUpload_begin c)
  | Some (parse_error e) => on_error e (handleFileUpload_begin c)
  end.

(** Which of its two [return]s the component takes, with what that one
    reads of the state.  The first (lines 132-163) shows the line
    ["Processing file..."] when [isLoading] and the error when it is a
    non-empty text; the second (lines 166-381) is evaluated on [dashboardData]
    and reads nothing else of the state. *)
Inductive view : Type :=
| upload_screen (processing : bool) (message : option string)
| dashboard_screen (d : Summary.t).

Definition render (c : component) : view :=
  match dashboardData (hooks c) with
  | None =>
      upload_screen (isLoading c)
        match error (hooks c) with
        | Some msg => if (msg =? "")%string then None else Some msg
        | None => None
        end
  | Some d => dashboard_screen d
  end.

(** [a.map((entry, index) => f(entry, index))] *)
Fixpoint map_indexed {A B : Type} (f : A -> nat -> B) (a : list A) (index : nat)
    : list B :=
  match a with
  | [] => []
  | entry :: rest => f entry index :: map_indexed f rest (S index)
  end.

(** The data of the pie chart, [serviceBreakdown.slice(0, 5)] (line 278). *)
Definition pie_data (d : Summary.t) : list ServiceEntry.t :=
  firstn 5 (Summary.serviceBreakdown d).

(** The array of colours of lines 291-297. *)
Definition pie_colours : list string :=
  ["#2563eb"; "#16a34a"; "#9333ea"; "#ea580c"; "#0d9488"].

(** The [fill] of each cell of the pie (lines 288-299): [colours[index]],
    which is [undefined] past the end of the array. *)
Definition pie_fills (d : Summary.t) : list (option string) :=
  map_indexed (fun _ index => nth_error pie_colours index) (pie_data d) 0.

(** The text of the third recommendation (lines 370-373). *)
Definition peak_recommendation (d : Summary.t) : completion string :=
  if ToBoolean (DailyCost.cost (Summary.peakUsage d)) then
    match formatCurrency (DailyCost.cost (Summary.peakUsage d)) with
    | Normal amount_text =>
        Normal ("Peak daily cost of " ++ amount_text ++ " on "
                ++ DailyCost.date (Summary.peakUsage d)
                ++ ". Review workload scheduling and resource scaling policies.")%string
    | Throw e => Throw e
    end
  else Normal "No peak usage data available for analysis.".

(** The text of the first recommendation (lines 346-349). *)
Definition resource_group_recommendation (d : Summary.t) : completion string :=
  match Lodash.first (Summary.resourceGroupCosts d) with
  | Some e =>
      match formatCurrency (CostEntry.cost e) with
      | Normal amount_text =>
          Normal (CostEntry.name e ++ " has the highest spend at " ++ amount_text
                  ++ ". Review resource allocation and implement cost controls.")%string
      | Throw err => Throw err
      end
  | None => Normal "No resource group data available for analysis."
  end.

(* ================================================================== *)
(** ** The conversions between numbers and text, on known values *)

Example number_to_string_examples :
  map number_to_string
    [ 0.1 + 0.2; 1e21; 1e-7; 123456789012345680000; 5e-324; 100; 0.000001;
      nan; -1.5; neg_zero; 12.799999999999999; infinity ]%float
  = [ "0.30000000000000004"; "1e+21"; "1e-7"; "123456789012345680000";
      "5e-324"; "100"; "0.000001"; "NaN"; "-1.5"; "0"; "12.799999999999999";
      "Infinity" ].
Proof. vm_compute. reflexivity. Qed.

Example toFixed2_examples :
  map toFixed2
    [ 12.5; 1e21; 1.005; 0.125; 12.799999999999999; -1.5; -0.001; 0; 35;
      1234.5678; nan ]%float
  = [ "12.50"; "1e+21"; "1.00"; "0.13"; "12.80"; "-1.50"; "-0.00"; "0.00";
      "35.00"; "1234.57"; "NaN" ].
Proof. vm_compute. reflexivity. Qed.

Example StringToNumber_examples :
  map StringToNumber
    [ "+9"; "+80"; " 12.5 "; ""; "N/A"; "5N/A3"; "0x1F"; "1e3"; "-.5"; "12.8" ]
  = [ 9; 80; 12.5; 0; nan; nan; 31; 1000; -0.5; 12.8 ]%float.
Proof. vm_compute. reflexivity. Qed.

(** [+] concatenates from the first text on, and [>] reads a text as a
    number unless both sides are texts. *)
Example operators_on_text :
  js_add (js_add (Number 5) (Text "N/A")) (Number 3) = Text "5N/A3"
  /\ js_gt (Text "+9") (Number 0) = true
  /\ js_gt (Text "+9") (Text "+80") = true
  /\ js_gt (Number 10) (Text "+9") = true
  /\ js_gt (Number 3) (Text "5N/A") = false.
Proof. vm_compute. repeat split; reflexivity. Qed.

(* ================================================================== *)
(** ** The order of the doubles *)

Lemma lexicographic_Lt (a b : Z * Z * Z) : lexicographic a b = Lt <-> precedes a b.
Proof.
  destruct a as [[a1 a2] a3], b as [[b1 b2] b3]. unfold lexicographic, precedes.
  destruct (Z.compare_spec a1 b1), (Z.compare_spec a2 b2), (Z.compare_spec a3 b3);
    split; intros G; try discriminate; try reflexivity; try lia.
Qed.

Lemma lexicographic_Eq (a b : Z * Z * Z) : lexicographic a b = Eq <-> a = b.
Proof.
  destruct a as [[a1 a2] a3], b as [[b1 b2] b3]. unfold lexicographic.
  destruct (Z.compare_spec a1 b1), (Z.compare_spec a2 b2), (Z.compare_spec a3 b3);
    split; intros G; try discriminate; try reflexivity; try congruence;
    inversion G; lia.
Qed.

(** [SFcompare] is the lexicographic comparison of the ranks. *)
Lemma SFcompare_rank (a b : spec_float) :
  a <> S754_nan -> b <> S754_nan ->
  SFcompare a b = Some (lexicographic (rank a) (rank b)).
Proof.
  destruct a as [ sa | sa | | sa ma ea ], b as [ sb | sb | | sb mb eb ];
    intros Ha Hb; try congruence;
    try (destruct sa; reflexivity); try (destruct sb; reflexivity);
    try (destruct sa, sb; reflexivity).
  destruct sa, sb; cbn [SFcompare rank lexicographic]; try reflexivity;
    rewrite Pos.compare_cont_spec; cbn; rewrite ?Z.compare_opp;
    rewrite ?(Z.compare_antisym ea eb);
    destruct (ea ?= eb); destruct (ma ?= mb)%positive; reflexivity.
Qed.

Lemma is_nan_spec (x : float) : is_nan x = true <-> Prim2SF x = S754_nan.
Proof.
  unfold is_nan. rewrite eqb_spec. unfold SFeqb.
  destruct (Prim2SF x) as [ s | s | | s m e ];
    [ | | cbn; split; reflexivity | ];
    rewrite SFcompare_rank by discriminate;
    rewrite (proj2 (lexicographic_Eq _ _) eq_refl); split; discriminate.
Qed.

Lemma not_nan_spec (x : float) : is_nan x = false <-> Prim2SF x <> S754_nan.
Proof. rewrite <- is_nan_spec. destruct (is_nan x); split; congruence. Qed.

Lemma ltb_place (x y : float) :
  is_nan x = false -> is_nan y = false ->
  ((x <? y)%float = true <-> precedes (place x) (place y)).
Proof.
  intros Hx Hy. apply not_nan_spec in Hx, Hy.
  rewrite ltb_spec. unfold SFltb. rewrite (SFcompare_rank _ _ Hx Hy).
  rewrite <- lexicographic_Lt. unfold place.
  destruct (lexicographic (rank (Prim2SF x)) (rank (Prim2SF y))); split; congruence.
Qed.

Lemma leb_place (x y : float) :
  is_nan x = false -> is_nan y = false ->
  ((x <=? y)%float = true <-> precedes (place x) (place y) \/ place x = place y).
Proof.
  intros Hx Hy. apply not_nan_spec in Hx, Hy.
  rewrite leb_spec. unfold SFleb. rewrite (SFcompare_rank _ _ Hx Hy).
  rewrite <- lexicographic_Lt, <- lexicographic_Eq. unfold place.
  destruct (lexicographic (rank (Prim2SF x)) (rank (Prim2SF y))); split;
    intros H; try congruence; auto; destruct H; congruence.
Qed.

Lemma eqb_place (x y : float) :
  is_nan x = false -> is_nan y = false ->
  ((x =? y)%float = true <-> place x = place y).
Proof.
  intros Hx Hy. apply not_nan_spec in Hx, Hy.
  rewrite eqb_spec. unfold SFeqb. rewrite (SFcompare_rank _ _ Hx Hy).
  rewrite <- lexicographic_Eq. unfold place.
  destruct (lexicographic (rank (Prim2SF x)) (rank (Prim2SF y))); split; congruence.
Qed.

(** A comparison that holds has no [NaN] on either side. *)
Lemma leb_not_nan (x y : float) :
  (x <=? y)%float = true -> is_nan x = false /\ is_nan y = false.
Proof.
  rewrite leb_spec, !not_nan_spec. unfold SFleb.
  destruct (Prim2SF x), (Prim2SF y); cbn; intros H; split; congruence.
Qed.

Lemma ltb_not_nan (x y : float) :
  (x <? y)%float = true -> is_nan x = false /\ is_nan y = false.
Proof.
  rewrite ltb_spec, !not_nan_spec. unfold SFltb.
  destruct (Prim2SF x), (Prim2SF y); cbn; intros H; split; congruence.
Qed.

Lemma precedes_trans (a b c : Z * Z * Z) : precedes a b -> precedes b c -> precedes a c.
Proof.
  destruct a as [[a1 a2] a3], b as [[b1 b2] b3], c as [[c1 c2] c3].
  unfold precedes. lia.
Qed.

Lemma precedes_total (a b : Z * Z * Z) : precedes a b \/ a = b \/ precedes b a.
Proof.
  destruct a as [[a1 a2] a3], b as [[b1 b2] b3]. unfold precedes.
  destruct (Z.lt_trichotomy a1 b1) as [ | [ | ] ],
           (Z.lt_trichotomy a2 b2) as [ | [ | ] ],
           (Z.lt_trichotomy a3 b3) as [ | [ | ] ]; subst; auto; try lia.
Qed.

Lemma precedes_irrefl (a : Z * Z * Z) : ~ precedes a a.
Proof. destruct a as [[a1 a2] a3]. unfold precedes. lia. Qed.

Lemma leb_trans (x y z : float) :
  (x <=? y)%float = true -> (y <=? z)%float = true -> (x <=? z)%float = true.
Proof.
  intros Hxy Hyz.
  destruct (leb_not_nan _ _ Hxy) as [Hx Hy], (leb_not_nan _ _ Hyz) as [_ Hz].
  revert Hxy Hyz. rewrite !leb_place by assumption.
  intros [ H1 | H1 ] [ H2 | H2 ]; try rewrite H1; try rewrite <- H2; auto.
  left. eapply precedes_trans; eassumption.
Qed.

Lemma leb_refl (x : float) : is_nan x = false -> (x <=? x)%float = true.
Proof. intros Hx. apply leb_place; auto. Qed.

Lemma ltb_false_leb (x y : float) :
  is_nan x = false -> is_nan y = false ->
  (x <? y)%float = false -> (y <=? x)%float = true.
Proof.
  intros Hx Hy H. apply leb_place; [ assumption .. | ].
  destruct (precedes_total (place x) (place y)) as [ B | [ E | B ] ]; auto.
  apply (ltb_place x y Hx Hy) in B. congruence.
Qed.

Lemma ltb_leb (x y : float) : (x <? y)%float = true -> (x <=? y)%float = true.
Proof.
  intros H. destruct (ltb_not_nan _ _ H) as [Hx Hy].
  apply leb_place; [ assumption .. | ].
  left. apply (ltb_place x y Hx Hy). exact H.
Qed.

Lemma ltb_trans (x y z : float) :
  (x <? y)%float = true -> (y <? z)%float = true -> (x <? z)%float = true.
Proof.
  intros Hxy Hyz.
  destruct (ltb_not_nan _ _ Hxy) as [Hx Hy], (ltb_not_nan _ _ Hyz) as [_ Hz].
  revert Hxy Hyz. rewrite !ltb_place by assumption. apply precedes_trans.
Qed.

Lemma leb_ltb_trans (x y z : float) :
  (x <=? y)%float = true -> (y <? z)%float = true -> (x <? z)%float = true.
Proof.
  intros Hxy Hyz.
  destruct (leb_not_nan _ _ Hxy) as [Hx Hy], (ltb_not_nan _ _ Hyz) as [_ Hz].
  revert Hxy Hyz. rewrite leb_place, !ltb_place by assumption.
  intros [ H1 | H1 ] H2; [ eapply precedes_trans; eassumption | ].
  rewrite H1. exact H2.
Qed.

Lemma eqb_not_ltb (x y : float) :
  (x =? y)%float = true -> (x <? y)%float = false /\ (y <? x)%float = false.
Proof.
  intros H.
  assert (N : is_nan x = false /\ is_nan y = false).
  { revert H. rewrite eqb_spec, !not_nan_spec. unfold SFeqb.
    destruct (Prim2SF x), (Prim2SF y); cbn; intros H; split; congruence. }
  destruct N as [Hx Hy]. apply (eqb_place x y Hx Hy) in H.
  split.
  - destruct (x <? y)%float eqn:E; [ | reflexivity ].
    apply (ltb_place x y Hx Hy) in E. rewrite H in E.
    destruct (precedes_irrefl _ E).
  - destruct (y <? x)%float eqn:E; [ | reflexivity ].
    apply (ltb_place y x Hy Hx) in E. rewrite H in E.
    destruct (precedes_irrefl _ E).
Qed.

(** *** Zeros in a sum *)

Lemma is_zero_spec (x : float) :
  is_zero x = true <-> exists s, Prim2SF x = S754_zero s.
Proof.
  unfold is_zero. rewrite eqb_spec. unfold SFeqb.
  replace (Prim2SF zero) with (S754_zero false) by reflexivity.
  destruct (Prim2SF x) as [ s | s | | s m e ]; cbn.
  - split; [ eauto | reflexivity ].
  - destruct s; split; try discriminate; intros [? ?]; discriminate.
  - split; try discriminate; intros [? ?]; discriminate.
  - destruct s; split; try discriminate; intros [? ?]; discriminate.
Qed.

Lemma add_zero_like (a b c : float) :
  zero_like a b -> zero_like (a + c)%float (b + c)%float.
Proof.
  intros [ -> | [Ha Hb] ]; [ left; reflexivity | ].
  apply is_zero_spec in Ha, Hb. destruct Ha as [sa Ha], Hb as [sb Hb].
  destruct (Prim2SF c) as [ sc | sc | | sc mc ec ] eqn:Ec.
  - right. split; apply is_zero_spec; rewrite add_spec, ?Ha, ?Hb, Ec;
      [ destruct sa, sc | destruct sb, sc ]; eexists; reflexivity.
  - left. apply Prim2SF_inj. rewrite !add_spec, Ha, Hb, Ec. reflexivity.
  - left. apply Prim2SF_inj. rewrite !add_spec, Ha, Hb, Ec. reflexivity.
  - left. apply Prim2SF_inj. rewrite !add_spec, Ha, Hb, Ec. reflexivity.
Qed.

Lemma add_zero_r (a : float) : zero_like a (a + 0)%float.
Proof.
  destruct (Prim2SF a) as [ s | s | | s m e ] eqn:E.
  - right. split; apply is_zero_spec; [ eauto | ].
    rewrite add_spec, E. replace (Prim2SF 0) with (S754_zero false) by reflexivity.
    destruct s; eexists; reflexivity.
  - left. apply Prim2SF_inj. rewrite add_spec, E. reflexivity.
  - left. apply Prim2SF_inj. rewrite add_spec, E. reflexivity.
  - left. apply Prim2SF_inj. rewrite add_spec, E. reflexivity.
Qed.

Lemma add_zero_l (a : float) : zero_like a (0 + a)%float.
Proof.
  destruct (Prim2SF a) as [ s | s | | s m e ] eqn:E.
  - right. split; apply is_zero_spec; [ eauto | ].
    rewrite add_spec, E. replace (Prim2SF 0) with (S754_zero false) by reflexivity.
    destruct s; eexists; reflexivity.
  - left. apply Prim2SF_inj. rewrite add_spec, E. reflexivity.
  - left. apply Prim2SF_inj. rewrite add_spec, E. reflexivity.
  - left. apply Prim2SF_inj. rewrite add_spec, E. reflexivity.
Qed.

Lemma zero_like_trans (a b c : float) :
  zero_like a b -> zero_like b c -> zero_like a c.
Proof.
  intros [ -> | [Ha Hb] ] [ <- | [Hb' Hc] ]; unfold zero_like; auto.
Qed.

(** [x || 0] does not tell two zeros apart. *)
Lemma js_or_zero_like (a b : float) :
  zero_like a b -> js_or (Number a) (Number 0) = js_or (Number b) (Number 0).
Proof.
  intros [ -> | [Ha Hb] ]; [ reflexivity | ].
  unfold js_or. cbn [ToBoolean]. rewrite Ha, Hb. reflexivity.
Qed.
(* ================================================================== *)
(** ** What [v || 0] is *)

Lemma js_or_settled (v : primitive) : settled (js_or v (Number 0)).
Proof.
  unfold js_or. destruct (ToBoolean v) eqn:E; [ | reflexivity ].
  destruct v as [ | | [ | ] | f | s ]; cbn in *; try discriminate; auto.
  - apply negb_true_iff, orb_false_iff in E. tauto.
  - apply negb_true_iff, String.eqb_neq in E. exact E.
Qed.

Lemma js_or_is_text (v : primitive) :
  is_text v = false -> is_text (js_or v (Number 0)) = false.
Proof. intros H. unfold js_or. destruct (ToBoolean v); [ exact H | reflexivity ]. Qed.

Lemma settled_numeric (v : primitive) : settled v -> is_text v = false -> numeric v.
Proof. destruct v as [ | | [ | ] | f | s ]; cbn; auto; discriminate. Qed.

Lemma js_or_numeric (v : primitive) :
  is_text v = false -> numeric (js_or v (Number 0)).
Proof.
  intros H. apply settled_numeric; [ apply js_or_settled | apply js_or_is_text, H ].
Qed.

Lemma numeric_not_nan (v : primitive) : numeric v -> is_nan (ToNumber v) = false.
Proof. destruct v as [ | | [ | ] | f | s ]; cbn; auto; contradiction. Qed.

Lemma js_or_number (x : float) : js_or (Number x) (Number 0) = Number (or_zero x).
Proof.
  unfold js_or, or_zero. cbn [ToBoolean].
  destruct (is_zero x || is_nan x)%bool; reflexivity.
Qed.

(** [v > 0] is decided on the number that [v] reads as. *)
Lemma js_gt_zero (v : primitive) :
  js_gt v (Number 0) = true <-> num_lt (Number 0) v.
Proof. unfold num_lt. destruct v; reflexivity. Qed.

(* ================================================================== *)
(** ** What [sumBy] adds up *)

Section SumBy.

Context {A : Type} (iteratee : A -> primitive).

Lemma js_add_numbers (a b : primitive) :
  is_text a = false -> is_text b = false ->
  js_add a b = Number (ToNumber a + ToNumber b).
Proof. destruct a, b; cbn; intros; try discriminate; reflexivity. Qed.

(** Without a text among the cells, the sum is not a text. *)
Lemma baseSum_no_text (l : list A) : forall result,
  Forall (fun x => is_text (iteratee x) = false) l ->
  is_text result = false ->
  is_text (Lodash.baseSum l iteratee result) = false.
Proof.
  induction l as [ | x l IH ]; intros result Hl Hr; [ exact Hr | ].
  inversion Hl as [ | ? ? Hx Hl' ]; subst. cbn [Lodash.baseSum]. apply IH; [ exact Hl' | ].
  destruct (iteratee x), result; cbn in *; try discriminate; reflexivity.
Qed.

Lemma sumBy_no_text (l : list A) :
  Forall (fun x => is_text (iteratee x) = false) l ->
  is_text (Lodash.sumBy l iteratee) = false.
Proof.
  intros Hl. destruct l as [ | x l ]; [ reflexivity | ].
  unfold Lodash.sumBy. apply baseSum_no_text; [ exact Hl | reflexivity ].
Qed.

(** One turn of [baseSum]'s loop keeps the tally. *)
Lemma baseSum_step_tallies (result current : primitive) (acc : float) :
  tallies result acc -> benign current ->
  tallies
    match current with
    | undefined => result
    | _ => match result with
           | undefined => current
           | _ => js_add result current
           end
    end
    (acc + numeric_reading current)%float.
Proof.
  destruct current as [ | | [ | ] | g | t ]; cbn [benign]; try contradiction;
    destruct result as [ | | [ | ] | f | s ]; cbn [tallies]; try contradiction;
    intros Hr _; cbn [numeric_reading js_add ToNumber]; subst;
    try reflexivity;
    try (left; reflexivity);
    try (eapply zero_like_trans; [ exact Hr | apply add_zero_r ]);
    try (apply add_zero_like; exact Hr);
    try apply add_zero_l.
Qed.

Lemma baseSum_tallies (l : list A) : forall result acc,
  Forall (fun x => benign (iteratee x)) l ->
  tallies result acc ->
  tallies (Lodash.baseSum l iteratee result)
    (fold_left PrimFloat.add (map (fun x => numeric_reading (iteratee x)) l) acc).
Proof.
  induction l as [ | x l IH ]; intros result acc Hl Hr; [ exact Hr | ].
  inversion Hl as [ | ? ? Hx Hl' ]; subst. cbn [Lodash.baseSum map fold_left].
  apply IH; [ exact Hl' | ]. apply baseSum_step_tallies; assumption.
Qed.

Lemma tallies_js_or (result : primitive) (acc : float) :
  tallies result acc ->
  js_or result (Number 0) = js_or (Number acc) (Number 0).
Proof.
  destruct result as [ | | [ | ] | f | s ]; cbn [tallies]; try contradiction;
    try (intros ->; reflexivity).
  apply js_or_zero_like.
Qed.

(** With neither [true] nor a text among the cells, [sumBy(...) || 0] is
    the sum of the numbers of the cells, or 0 when that sum is [NaN]. *)
Lemma sumBy_or_zero (l : list A) :
  Forall (fun x => benign (iteratee x)) l ->
  js_or (Lodash.sumBy l iteratee) (Number 0)
  = Number (or_zero (sum_floats (map (fun x => numeric_reading (iteratee x)) l))).
Proof.
  intros Hl. rewrite <- js_or_number.
  destruct l as [ | x l ]; [ reflexivity | ].
  unfold Lodash.sumBy, sum_floats. apply tallies_js_or.
  apply baseSum_tallies; [ exact Hl | reflexivity ].
Qed.


End SumBy.

(* ================================================================== *)
(** ** The specification's example *)

Example aggregate_example :
  aggregate example_rows
  = {| Summary.totalCost := Number 35;
       Summary.dailyAverage := Number 17.5;
       Summary.serviceBreakdown :=
         [ {| ServiceEntry.name := "Compute"; ServiceEntry.value := Number 30 |};
           {| ServiceEntry.name := "Storage"; ServiceEntry.value := Number 5 |} ];
       Summary.dailyCosts :=
         [ {| DailyCost.date := "2024-01-01"; DailyCost.cost := Number 15 |};
           {| DailyCost.date := "2024-01-02"; DailyCost.cost := Number 20 |} ];
       Summary.peakUsage :=
         {| DailyCost.date := "2024-01-02"; DailyCost.cost := Number 20 |};
       Summary.resourceCosts :=
         {| CostEntry.name := "undefined"; CostEntry.cost := Number 35 |};
       Summary.resourceGroupCosts :=
         [ {| CostEntry.name := "rg2"; CostEntry.cost := Number 20 |};
           {| CostEntry.name := "rg1"; CostEntry.cost := Number 15 |} ];
       Summary.topService :=
         {| ServiceEntry.name := "Compute"; ServiceEntry.value := Number 30 |} |}.
Proof. vm_compute. reflexivity. Qed.

(** Numeric keys come first and in numeric order, whatever the rows' order;
    the empty date and the date ["Unknown"] give two entries of that name. *)
Example dailyCosts_key_order :
  dailyCosts
    [ row (Text "b") (Number 1) (Text "s") undefined (Text "g");
      row (Number 10) (Number 2) (Text "s") undefined (Text "g");
      row (Text "9") (Number 3) (Text "s") undefined (Text "g");
      row (Text "") (Number 4) (Text "s") undefined (Text "g");
      row (Text "Unknown") (Number 5) (Text "s") undefined (Text "g") ]
  = [ {| DailyCost.date := "10"; DailyCost.cost := Number 2 |};
      {| DailyCost.date := "9"; DailyCost.cost := Number 3 |};
      {| DailyCost.date := "Unknown"; DailyCost.cost := Number 4 |};
      {| DailyCost.date := "Unknown"; DailyCost.cost := Number 5 |};
      {| DailyCost.date := "b"; DailyCost.cost := Number 1 |} ].
Proof. vm_compute. reflexivity. Qed.

(** A cost left as text turns the total into a text; the average of that
    total is [NaN], and the display's [formatCurrency] throws on the total. *)
Example aggregate_text_cost :
  Summary.totalCost (aggregate text_cost_rows) = Text "5N/A3"
  /\ Summary.dailyAverage (aggregate text_cost_rows) = Number nan
  /\ Summary.dailyCosts (aggregate text_cost_rows)
     = [ {| DailyCost.date := "2024-01-01"; DailyCost.cost := Text "5N/A3" |} ]
  /\ Summary.serviceBreakdown (aggregate text_cost_rows) = []
  /\ formatCurrency (Summary.totalCost (aggregate text_cost_rows))
     = Throw {| message := "value.toFixed is not a function" |}.
Proof. vm_compute. repeat split; reflexivity. Qed.

(* ================================================================== *)
(** ** The total cost *)

(** Two doubles that [Leibniz.eqb] tells apart are not equal. *)
Lemma floats_differ (x y : float) : Leibniz.eqb x y = false -> x <> y.
Proof.
  intros H E. apply FloatAxioms.Leibniz.eqb_spec in E. congruence.
Qed.

Lemma numbers_differ (x y : float) : Leibniz.eqb x y = false -> Number x <> Number y.
Proof. intros H E. inversion E as [E']. exact (floats_differ x y H E'). Qed.

(** C1, as the specification states it, fails when a cost cell holds a boolean
    or a text: [5 + true] is [6], so [true] contributes 1 and not 0; and
    [5 + "N/A" + 3] is the text ["5N/A3"], not 8. *)
Lemma totalCost_counts_true :
  Summary.totalCost (aggregate boolean_cost_rows) = Number 6
  /\ Summary.totalCost (aggregate boolean_cost_rows)
     <> Number (sum_floats (map numeric_cost boolean_cost_rows))
  /\ Summary.totalCost (aggregate text_cost_rows) = Text "5N/A3"
  /\ Summary.totalCost (aggregate text_cost_rows)
     <> Number (sum_floats (map numeric_cost text_cost_rows)).
Proof.
  split; [ vm_compute; reflexivity | ].
  split; [ vm_compute; apply numbers_differ; vm_compute; reflexivity | ].
  split; [ vm_compute; reflexivity | vm_compute; discriminate ].
Qed.

(** C1 (amended): when no cost cell holds [true] or a text, the [totalCost] of
    the summary is the sum of the numbers of the cost cells, added as doubles
    from 0 in the order of the rows, a cell that is absent, [null] or [false]
    contributing 0; it is 0 when that sum is [NaN]. *)
Theorem totalCost_is_sum (data : list UsageRecord) :
  Forall (fun r => benign (costInBillingCurrency r)) data ->
  Summary.totalCost (aggregate data)
  = Number (or_zero (sum_floats (map numeric_cost data))).
Proof. intros H. exact (sumBy_or_zero costInBillingCurrency data H). Qed.

Lemma totalCost_is_sum_example :
  Forall (fun r => benign (costInBillingCurrency r)) decimal_rows
  /\ Summary.totalCost (aggregate decimal_rows) = Number 0.6000000000000001.
Proof.
  split.
  - repeat constructor.
  - rewrite (totalCost_is_sum decimal_rows) by (repeat constructor).
    vm_compute. reflexivity.
Defined.

(* ================================================================== *)
(** ** The empty input and the [catch] block *)

(** C5: on the empty array the summary has a zero total and average, empty
    lists, and the three placeholder objects. *)
Theorem aggregate_empty :
  try_block (results_object (Some [])) =
  Normal
    {| Summary.totalCost := Number 0;
       Summary.dailyAverage := Number 0;
       Summary.serviceBreakdown := [];
       Summary.dailyCosts := [];
       Summary.peakUsage := {| DailyCost.date := "N/A"; DailyCost.cost := Number 0 |};
       Summary.resourceCosts := {| CostEntry.name := "N/A"; CostEntry.cost := Number 0 |};
       Summary.resourceGroupCosts := [];
       Summary.topService :=
         {| ServiceEntry.name := "N/A"; ServiceEntry.value := Number 0 |} |}.
Proof. reflexivity. Qed.

(** C9: when the [try] block throws, [processCSVData] still returns: it stores
    the default structure and an error message built from the fault. *)
Theorem fault_recovered (r : results) (e : Error) (st : state) :
  try_block r = Throw e ->
  processCSVData r st
  = {| dashboardData := Some default_data;
       error := Some ("Error processing data: " ++ message e)%string |}
  /\ default_data
     = {| Summary.totalCost := Number 0;
          Summary.dailyAverage := Number 0;
          Summary.serviceBreakdown := [];
          Summary.dailyCosts := [];
          Summary.peakUsage := {| DailyCost.date := "N/A"; DailyCost.cost := Number 0 |};
          Summary.resourceCosts :=
            {| CostEntry.name := "N/A"; CostEntry.cost := Number 0 |};
          Summary.resourceGroupCosts := [];
          Summary.topService :=
            {| ServiceEntry.name := "N/A"; ServiceEntry.value := Number 0 |} |}.
Proof.
  intros H. unfold processCSVData. rewrite H. split; reflexivity.
Qed.

Lemma fault_recovered_example :
  try_block results_undefined
  = Throw {| message := "Cannot read properties of undefined (reading 'data')" |}
  /\ processCSVData results_undefined {| dashboardData := None; error := None |}
     = {| dashboardData := Some default_data;
          error := Some "Error processing data: Cannot read properties of undefined (reading 'data')" |}.
Proof.
  split.
  - reflexivity.
  - apply (fault_recovered results_undefined
             {| message := "Cannot read properties of undefined (reading 'data')" |}
             {| dashboardData := None; error := None |}).
    reflexivity.
Defined.

(* ================================================================== *)
(** ** Sorting *)

Section Sort.

Context {A : Type} (comparer : A -> A -> Z).

Lemma sort_insert_perm (x : A) (l : list A) :
  Permutation (Lodash.sort_insert comparer x l) (x :: l).
Proof.
  induction l as [ | y l IH ]; simpl; [ apply Permutation_refl | ].
  destruct (comparer x y <=? 0); [ apply Permutation_refl | ].
  eapply perm_trans; [ apply perm_skip; exact IH | apply perm_swap ].
Qed.

Lemma sort_perm (l : list A) : Permutation (Lodash.sort comparer l) l.
Proof.
  induction l as [ | x l IH ]; simpl; [ apply perm_nil | ].
  eapply perm_trans; [ apply sort_insert_perm | apply perm_skip; exact IH ].
Qed.

(** The comparer decides a transitive relation [T] on the elements met. *)
Variable T : A -> A -> Prop.
Hypothesis T_trans : forall a b c, T a b -> T b c -> T a c.

Lemma sort_insert_sorted (x : A) (l : list A) :
  Forall (decides comparer T x) l ->
  StronglySorted T l -> StronglySorted T (Lodash.sort_insert comparer x l).
Proof.
  induction l as [ | y l IH ]; intros Hd Hs; simpl.
  - constructor; constructor.
  - inversion Hd as [ | ? ? [Hle Hgt] Hd' ]; subst.
    inversion Hs as [ | ? ? Hs' Hy ]; subst.
    destruct (Z.leb_spec (comparer x y) 0) as [Hc | Hc].
    + constructor; [ exact Hs | ].
      constructor; [ auto | ].
      eapply Forall_impl; [ | exact Hy ]. intros z Hz. eapply T_trans; eauto.
    + constructor; [ apply IH; assumption | ].
      eapply Permutation_Forall; [ apply Permutation_sym, sort_insert_perm | ].
      constructor; [ auto | exact Hy ].
Qed.

Lemma sort_sorted (l : list A) :
  (forall x y, In x l -> In y l -> decides comparer T x y) ->
  StronglySorted T (Lodash.sort comparer l).
Proof.
  induction l as [ | x l IH ]; intros Hd; simpl; [ constructor | ].
  apply sort_insert_sorted.
  - apply Forall_forall. intros y Hy. apply Hd; [ left; reflexivity | right ].
    eapply Permutation_in; [ apply sort_perm | exact Hy ].
  - apply IH. intros a b Ha Hb. apply Hd; right; assumption.
Qed.

End Sort.

Lemma StronglySorted_map {A B : Type} (f : A -> B) (T : B -> B -> Prop) (l : list A) :
  StronglySorted (fun a b => T (f a) (f b)) l -> StronglySorted T (map f l).
Proof.
  induction 1 as [ | x l Hs IH Hx ]; simpl; constructor; [ exact IH | ].
  apply Forall_map. exact Hx.
Qed.

Lemma In_firstn {A : Type} (n : nat) (l : list A) (x : A) :
  In x (firstn n l) -> In x l.
Proof.
  revert n. induction l as [ | z l IH ]; intros [ | n ]; simpl; try tauto.
  intros [ -> | H ]; [ left; reflexivity | right; eapply IH; exact H ].
Qed.

Lemma StronglySorted_firstn {A : Type} (T : A -> A -> Prop) (n : nat) (l : list A) :
  StronglySorted T l -> StronglySorted T (firstn n l).
Proof.
  intros Hs. revert n. induction Hs as [ | x l Hs IH Hx ]; intros [ | n ]; simpl;
    try constructor; [ apply IH | ].
  apply Forall_forall. intros y Hy. rewrite Forall_forall in Hx. apply Hx.
  eapply In_firstn. exact Hy.
Qed.

Lemma StronglySorted_weaken {A : Type} (T U : A -> A -> Prop) (l : list A) :
  (forall a b, In a l -> In b l -> T a b -> U a b) ->
  StronglySorted T l -> StronglySorted U l.
Proof.
  intros H Hs. induction Hs as [ | x l Hs IH Hx ]; constructor.
  - apply IH. intros a b Ha Hb. apply H; right; assumption.
  - rewrite Forall_forall in *. intros y Hy. apply H; [ left; reflexivity | right; exact Hy | ].
    apply Hx. exact Hy.
Qed.

(** *** [_.orderBy] *)

Section OrderBy.

Context {A K : Type} `{Lodash.Comparable K} (iteratee : A -> K).

Lemma value_sortables (l : list A) (n : nat) :
  map Lodash.value (Lodash.sortables iteratee l n) = l.
Proof. revert n. induction l as [ | x l IH ]; intros n; simpl; [ | rewrite IH ]; reflexivity. Qed.

Lemma criteria_sortables (l : list A) (n : nat) (s : Lodash.sortable A K) :
  In s (Lodash.sortables iteratee l n) ->
  Lodash.criteria s = iteratee (Lodash.value s) /\ In (Lodash.value s) l.
Proof.
  revert n. induction l as [ | x l IH ]; intros n; simpl; [ tauto | ].
  intros [ <- | Hs ]; [ simpl; auto | ].
  destruct (IH _ Hs); auto.
Qed.

Lemma orderBy_perm (l : list A) (orders : list Lodash.order) :
  Permutation (Lodash.orderBy l iteratee orders) l.
Proof.
  unfold Lodash.orderBy. rewrite <- (value_sortables l 0) at 2.
  apply Permutation_map, sort_perm.
Qed.

Lemma orderBy_In (l : list A) (orders : list Lodash.order) (x : A) :
  In x (Lodash.orderBy l iteratee orders) <-> In x l.
Proof.
  split; apply Permutation_in;
    [ apply orderBy_perm | apply Permutation_sym, orderBy_perm ].
Qed.

(** When [compareMultiple] decides a transitive relation [R] between the
    criteria that satisfy [P], the ordered array is sorted by [R]. *)
Lemma orderBy_sorted (R : K -> K -> Prop) (P : K -> Prop)
    (orders : list Lodash.order) (l : list A) :
  (forall a b c, R a b -> R b c -> R a c) ->
  (forall x y : Lodash.sortable A K,
     P (Lodash.criteria x) -> P (Lodash.criteria y) ->
     (Lodash.compareMultiple orders x y <= 0
      -> R (Lodash.criteria x) (Lodash.criteria y))
     /\ (0 < Lodash.compareMultiple orders x y
         -> R (Lodash.criteria y) (Lodash.criteria x))) ->
  Forall (fun a => P (iteratee a)) l ->
  StronglySorted (fun a b => R (iteratee a) (iteratee b))
    (Lodash.orderBy l iteratee orders).
Proof.
  intros Rtrans Hcmp HP. unfold Lodash.orderBy.
  apply StronglySorted_map.
  eapply StronglySorted_weaken;
    [ | apply (sort_sorted (Lodash.compareMultiple orders)
                 (fun x y => R (Lodash.criteria x) (Lodash.criteria y))) ].
  - intros a b Ha Hb HR.
    apply (Permutation_in _ (sort_perm _ _)) in Ha, Hb.
    apply criteria_sortables in Ha, Hb.
    destruct Ha as [<- _], Hb as [<- _]. exact HR.
  - intros a b c. apply Rtrans.
  - intros x y Hx Hy. apply criteria_sortables in Hx, Hy.
    destruct Hx as [Ex Hx], Hy as [Ey Hy].
    rewrite Forall_forall in HP.
    apply Hcmp; [ rewrite Ex | rewrite Ey ]; apply HP; assumption.
Qed.

End OrderBy.

(** *** Text is ordered by its code units *)

Lemma ascii_compare_eq (a b : ascii) : Ascii.compare a b = Eq <-> a = b.
Proof.
  split; [ apply Ascii.compare_eq_iff | ].
  intros ->. unfold Ascii.compare. apply N.compare_refl.
Qed.

Lemma string_compare_refl (s : string) : String.compare s s = Eq.
Proof.
  induction s as [ | c s IH ]; simpl; [ reflexivity | ].
  rewrite (proj2 (ascii_compare_eq c c) eq_refl). exact IH.
Qed.

Lemma string_compare_lt_trans (a : string) : forall b c,
  String.compare a b = Lt -> String.compare b c = Lt -> String.compare a c = Lt.
Proof.
  induction a as [ | x a IH ]; intros [ | y b ] [ | z c ]; simpl; try congruence.
  destruct (Ascii.compare x y) eqn:Exy; try discriminate;
    destruct (Ascii.compare y z) eqn:Eyz; try discriminate; intros Hab Hbc.
  - apply ascii_compare_eq in Exy, Eyz. subst.
    rewrite (proj2 (ascii_compare_eq z z) eq_refl). eapply IH; eassumption.
  - apply ascii_compare_eq in Exy. subst. rewrite Eyz. reflexivity.
  - apply ascii_compare_eq in Eyz. subst. rewrite Exy. reflexivity.
  - unfold Ascii.compare in *. rewrite N.compare_lt_iff in Exy, Eyz.
    assert (Hxz : (N_of_ascii x < N_of_ascii z)%N) by lia.
    rewrite <- N.compare_lt_iff in Hxz. rewrite Hxz. reflexivity.
Qed.

Lemma string_leb_iff (a b : string) :
  String.leb a b = true <-> String.compare a b = Lt \/ a = b.
Proof.
  unfold String.leb. split.
  - destruct (String.compare a b) eqn:E; intros H; try discriminate;
      [ right; apply String.compare_eq_iff; exact E | left; reflexivity ].
  - intros [ -> | -> ]; [ reflexivity | rewrite string_compare_refl; reflexivity ].
Qed.

Lemma string_leb_trans (a b c : string) :
  String.leb a b = true -> String.leb b c = true -> String.leb a c = true.
Proof.
  rewrite !string_leb_iff. intros [Hab | ->] [Hbc | ->]; auto.
  left. eapply string_compare_lt_trans; eassumption.
Qed.

Lemma compareAscending_text (a b : string) :
  Lodash.compareAscending a b
  = match String.compare a b with Eq => 0 | Lt => -1 | Gt => 1 end.
Proof.
  unfold Lodash.compareAscending. cbn.
  rewrite !String.eqb_refl. cbn. unfold String.ltb.
  rewrite (String.compare_antisym b a).
  destruct (String.eqb_spec a b) as [ -> | Hne ]; cbn.
  - rewrite string_compare_refl. reflexivity.
  - destruct (String.compare a b); reflexivity.
Qed.

(** Ascending by a text criterion, as [orderBy(['date'])] asks. *)
Lemma orderBy_text_ascending {A : Type} (iteratee : A -> string) (l : list A) :
  StronglySorted (fun a b => String.leb (iteratee a) (iteratee b) = true)
    (Lodash.orderBy l iteratee []).
Proof.
  apply (orderBy_sorted iteratee (fun a b => String.leb a b = true) (fun _ => True)).
  - intros a b c. apply string_leb_trans.
  - intros x y _ _. unfold Lodash.compareMultiple.
    rewrite compareAscending_text, !string_leb_iff.
    rewrite (String.compare_antisym (Lodash.criteria y) (Lodash.criteria x)).
    destruct (String.compare (Lodash.criteria x) (Lodash.criteria y)) eqn:E; cbn.
    + apply String.compare_eq_iff in E. rewrite E. auto.
    + split; [ auto | lia ].
    + split; [ lia | auto ].
  - apply Forall_forall. intros; exact I.
Qed.

(** *** Numeric amounts are ordered by the numbers they read as *)

Lemma num_le_trans (a b c : primitive) : num_le a b -> num_le b c -> num_le a c.
Proof. unfold num_le. apply leb_trans. Qed.

Lemma num_le_refl (v : primitive) : numeric v -> num_le v v.
Proof. intros H. apply leb_refl, numeric_not_nan, H. Qed.

(** [compareAscending] between two numeric amounts. *)
Lemma compareAscending_numeric (a b : primitive) :
  numeric a -> numeric b ->
  Lodash.compareAscending a b
  = if (ToNumber b <? ToNumber a)%float then 1
    else if (ToNumber a <? ToNumber b)%float then -1 else 0.
Proof.
  destruct a as [ | | [ | ] | x | s ], b as [ | | [ | ] | y | t ];
    cbn [numeric]; try contradiction; intros Hx Hy;
    unfold Lodash.compareAscending; cbn.
  - reflexivity.
  - unfold is_nan in Hy. apply negb_false_iff in Hy. rewrite Hy. cbn.
    destruct (y <? 1)%float, (1 <? y)%float; reflexivity.
  - unfold is_nan in Hx. apply negb_false_iff in Hx. rewrite Hx. cbn.
    destruct (1 <? x)%float, (x <? 1)%float; reflexivity.
  - unfold is_nan in Hx, Hy. apply negb_false_iff in Hx, Hy. rewrite Hx, Hy. cbn.
    destruct (x =? y)%float eqn:E; cbn.
    + destruct (eqb_not_ltb _ _ E) as [-> ->]. reflexivity.
    + destruct (y <? x)%float, (x <? y)%float; reflexivity.
Qed.

(** Descending by a numeric amount, as [orderBy([...], ['desc'])] asks. *)
Lemma orderBy_numeric_descending {A : Type} (iteratee : A -> primitive) (l : list A) :
  Forall (fun a => numeric (iteratee a)) l ->
  StronglySorted (fun a b => num_le (iteratee b) (iteratee a))
    (Lodash.orderBy l iteratee [Lodash.desc]).
Proof.
  intros Hl.
  apply (orderBy_sorted iteratee (fun a b => num_le b a) numeric);
    [ | | exact Hl ].
  - intros a b c Hab Hbc. eapply num_le_trans; eassumption.
  - intros x y Hx Hy. unfold Lodash.compareMultiple.
    rewrite (compareAscending_numeric _ _ Hx Hy). unfold num_le.
    pose proof (numeric_not_nan _ Hx) as Nx. pose proof (numeric_not_nan _ Hy) as Ny.
    destruct (ToNumber (Lodash.criteria y) <? ToNumber (Lodash.criteria x))%float eqn:Egt;
      cbn.
    + split; [ intros _; apply ltb_leb; exact Egt | lia ].
    + destruct (ToNumber (Lodash.criteria x) <? ToNumber (Lodash.criteria y))%float eqn:Elt;
        cbn.
      * split; [ lia | intros _; apply ltb_leb; exact Elt ].
      * split; intros _; apply ltb_false_leb; assumption.
Qed.

(* ================================================================== *)
(** ** The entries of the three lists *)

Lemma map_object_Forall {V B : Type} (o : Lodash.object V) (f : V -> string -> B)
    (P : B -> Prop) :
  (forall v k, P (f v k)) -> Forall P (Lodash.map_object o f).
Proof. intros H. unfold Lodash.map_object. apply Forall_map, Forall_forall. intros; apply H. Qed.

Lemma dailyCosts_settled (data : list UsageRecord) :
  Forall (fun e => settled (DailyCost.cost e)) (dailyCosts data).
Proof.
  unfold dailyCosts.
  eapply Permutation_Forall; [ apply Permutation_sym, orderBy_perm | ].
  apply map_object_Forall. intros; apply js_or_settled.
Qed.

Lemma named_and_positive_intro (name : string) (v : primitive) :
  (negb (name =? "null")%string && negb (name =? "undefined")%string
   && js_gt v (Number 0))%bool = true ->
  named_and_positive name v.
Proof.
  rewrite !andb_true_iff, !negb_true_iff, !String.eqb_neq.
  intros [[H1 H2] H3]. repeat split; auto. apply js_gt_zero. exact H3.
Qed.

Lemma serviceBreakdown_entries (data : list UsageRecord) :
  Forall (fun e => named_and_positive (ServiceEntry.name e) (ServiceEntry.value e)
                   /\ settled (ServiceEntry.value e))
    (serviceBreakdown data).
Proof.
  unfold serviceBreakdown, Lodash.filter.
  eapply Permutation_Forall; [ apply Permutation_sym, orderBy_perm | ].
  apply Forall_forall. intros e He. apply filter_In in He. destruct He as [He Hp].
  split; [ apply named_and_positive_intro; exact Hp | ].
  clear Hp. revert e He. apply Forall_forall, map_object_Forall. intros; apply js_or_settled.
Qed.

Lemma resourceGroupCosts_entries (data : list UsageRecord) :
  Forall (fun e => named_and_positive (CostEntry.name e) (CostEntry.cost e)
                   /\ settled (CostEntry.cost e))
    (resourceGroupCosts data).
Proof.
  unfold resourceGroupCosts, Lodash.take, Lodash.filter.
  apply Forall_forall. intros e He. apply In_firstn in He.
  apply orderBy_In in He. apply filter_In in He. destruct He as [He Hp].
  split; [ apply named_and_positive_intro; exact Hp | ].
  clear Hp. revert e He. apply Forall_forall, map_object_Forall. intros; apply js_or_settled.
Qed.

(** C6: no entry of [serviceBreakdown] or [resourceGroupCosts] is named
    ["null"] or ["undefined"], and each has a value or cost above 0. *)
Theorem entries_named_and_positive (data : list UsageRecord) :
  Forall (fun e => named_and_positive (ServiceEntry.name e) (ServiceEntry.value e))
    (Summary.serviceBreakdown (aggregate data))
  /\ Forall (fun e => named_and_positive (CostEntry.name e) (CostEntry.cost e))
       (Summary.resourceGroupCosts (aggregate data)).
Proof.
  cbn [aggregate Summary.serviceBreakdown Summary.resourceGroupCosts].
  split.
  - eapply Forall_impl; [ | apply serviceBreakdown_entries ]. intros e [H _]; exact H.
  - eapply Forall_impl; [ | apply resourceGroupCosts_entries ]. intros e [H _]; exact H.
Qed.
(* ================================================================== *)
(** ** Grouping *)

Lemma NoDup_snoc {A : Type} (l : list A) (x : A) :
  NoDup l -> ~ In x l -> NoDup (l ++ [x]).
Proof.
  intros Hl Hx. apply (Permutation_NoDup (l := x :: l)); [ | constructor; assumption ].
  apply Permutation_cons_append.
Qed.

Lemma filter_none {A : Type} (f : A -> bool) (l : list A) :
  (forall x, In x l -> f x = false) -> List.filter f l = [].
Proof.
  induction l as [ | x l IH ]; intros H; simpl; [ reflexivity | ].
  rewrite (H x (or_introl eq_refl)). apply IH. intros y Hy. apply H. right. exact Hy.
Qed.

Section GroupBy.

Context {A : Type} (iteratee : A -> primitive).

Lemma groupBy_snoc (l : list A) (x : A) :
  Lodash.groupBy (l ++ [x]) iteratee = group_step iteratee (Lodash.groupBy l iteratee) x.
Proof. unfold Lodash.groupBy. rewrite fold_left_app. reflexivity. Qed.

(** Induction along the loop. *)
Lemma groupBy_ind (Q : Lodash.object (list A) -> list A -> Prop) :
  Q [] [] ->
  (forall g l x, Q g l -> Q (group_step iteratee g x) (l ++ [x])) ->
  forall l, Q (Lodash.groupBy l iteratee) l.
Proof.
  intros H0 Hstep l. induction l as [ | x l IH ] using rev_ind; [ exact H0 | ].
  rewrite groupBy_snoc. apply Hstep, IH.
Qed.

Lemma hasOwnProperty_In {V : Type} (o : Lodash.object V) (k : string) :
  Lodash.hasOwnProperty o k = true <-> exists v, In (k, v) o.
Proof.
  induction o as [ | [k' v'] o IH ]; simpl.
  - split; [ discriminate | intros [v []] ].
  - destruct (String.eqb_spec k' k) as [ -> | Hne ].
    + split; [ intros _; exists v'; left; reflexivity | reflexivity ].
    + rewrite IH. split; intros [v Hv]; exists v; [ right; exact Hv | ].
      destruct Hv as [E | Hv]; [ congruence | exact Hv ].
Qed.

(** What [push] leaves in an object whose keys are distinct. *)
Lemma In_push (g : Lodash.object (list A)) (k : string) (x : A) (k' : string)
    (items' : list A) :
  NoDup (map fst g) ->
  (In (k', items') (Lodash.push g k x) <->
   (k' = k /\ exists items, In (k, items) g /\ items' = items ++ [x])
   \/ (k' <> k /\ In (k', items') g)).
Proof.
  induction g as [ | [k0 items0] g IH ]; intros Hnd; simpl.
  - split; [ tauto | ]. intros [ [_ [? [[] _]]] | [_ []] ].
  - inversion Hnd as [ | ? ? Hnotin Hnd' ]; subst.
    destruct (String.eqb_spec k0 k) as [ -> | Hne ]; simpl.
    + split.
      * intros [ E | Hin ].
        -- inversion E; subst. left. split; [ reflexivity | ].
           exists items0. split; [ left; reflexivity | reflexivity ].
        -- right. split; [ | right; exact Hin ].
           intros ->. apply Hnotin. apply (in_map fst) in Hin. exact Hin.
      * intros [ [-> [items [[E | Hin] ->]]] | [Hk [E | Hin]] ].
        -- inversion E; subst. left; reflexivity.
        -- exfalso. apply Hnotin. apply (in_map fst) in Hin. exact Hin.
        -- inversion E; subst. contradiction.
        -- right; exact Hin.
    + rewrite (IH Hnd'). split.
      * intros [ E | [ [-> [items [Hin ->]]] | [Hk Hin] ] ].
        -- inversion E; subst. right. split; [ exact Hne | left; reflexivity ].
        -- left. split; [ reflexivity | ]. exists items. split; [ right; exact Hin | reflexivity ].
        -- right. split; [ exact Hk | right; exact Hin ].
      * intros [ [-> [items [[E | Hin] ->]]] | [Hk [E | Hin]] ].
        -- inversion E; subst. contradiction.
        -- right. left. split; [ reflexivity | ]. exists items. auto.
        -- left. exact E.
        -- right. right. auto.
Qed.

Lemma map_fst_push (g : Lodash.object (list A)) (k : string) (x : A) :
  map fst (Lodash.push g k x) = map fst g.
Proof.
  induction g as [ | [k0 items0] g IH ]; simpl; [ reflexivity | ].
  destruct (k0 =? k)%string; simpl; [ reflexivity | rewrite IH; reflexivity ].
Qed.

Lemma groupBy_grouped (l : list A) : grouped iteratee (Lodash.groupBy l iteratee) l.
Proof.
  apply groupBy_ind; clear l.
  - repeat split; [ constructor | intros ? ? [] | intros ? [] ].
  - intros g l x (Hnd & Hitems & Hown). unfold group_step.
    destruct (Lodash.hasOwnProperty g (key_of iteratee x)) eqn:E.
    + repeat split.
      * rewrite map_fst_push. exact Hnd.
      * intros k items Hin. apply (In_push _ _ _ _ _ Hnd) in Hin.
        rewrite filter_app. simpl.
        destruct Hin as [ [-> [items0 [Hin ->]]] | [Hk Hin] ].
        -- rewrite String.eqb_refl. f_equal. apply Hitems. exact Hin.
        -- destruct (String.eqb_spec (key_of iteratee x) k) as [ Ek | _ ]; [ congruence | ].
           rewrite app_nil_r. apply Hitems. exact Hin.
      * intros y Hy. apply hasOwnProperty_In.
        assert (Hy' : Lodash.hasOwnProperty g (key_of iteratee y) = true).
        { apply in_app_or in Hy. destruct Hy as [Hy | [ <- | [] ]]; auto. }
        apply hasOwnProperty_In in Hy'. destruct Hy' as [items Hin].
        destruct (String.eqb_spec (key_of iteratee y) (key_of iteratee x)) as [ Ek | Hne ].
        -- exists (items ++ [x]). apply (In_push _ _ _ _ _ Hnd). left.
           split; [ exact Ek | ]. exists items. rewrite <- Ek. auto.
        -- exists items. apply (In_push _ _ _ _ _ Hnd). right. auto.
    + assert (Hnot : ~ In (key_of iteratee x) (map fst g)).
      { intros Hin. apply in_map_iff in Hin. destruct Hin as [[k items] [Ek Hin]].
        simpl in Ek. subst k.
        assert (Lodash.hasOwnProperty g (key_of iteratee x) = true)
          by (apply hasOwnProperty_In; eauto).
        congruence. }
      unfold Lodash.baseAssignValue. repeat split.
      * rewrite map_app. simpl. apply NoDup_snoc; assumption.
      * intros k items Hin. rewrite filter_app. simpl.
        apply in_app_or in Hin. destruct Hin as [ Hin | [ Ek | [] ] ].
        -- destruct (String.eqb_spec (key_of iteratee x) k) as [ Ek | _ ].
           ++ exfalso. apply Hnot. rewrite Ek. apply (in_map fst) in Hin. exact Hin.
           ++ rewrite app_nil_r. apply Hitems. exact Hin.
        -- inversion Ek; subst. rewrite String.eqb_refl.
           replace (List.filter (fun y => (key_of iteratee y =? key_of iteratee x)%string) l) with (@nil A);
             [ reflexivity | ].
           symmetry. apply filter_none.
           intros y Hy. apply String.eqb_neq. intros Ek'.
           specialize (Hown y Hy). rewrite Ek' in Hown. congruence.
      * intros y Hy. apply hasOwnProperty_In.
        apply in_app_or in Hy. destruct Hy as [Hy | [ <- | [] ]].
        -- specialize (Hown y Hy). apply hasOwnProperty_In in Hown.
           destruct Hown as [items Hin]. exists items. apply in_or_app. auto.
        -- exists [x]. apply in_or_app. right. left. reflexivity.
Qed.

End GroupBy.

Lemma groupBy_items_Forall {A : Type} (iteratee : A -> primitive) (P : A -> Prop)
    (l : list A) (k : string) (items : list A) :
  Forall P l -> In (k, items) (Lodash.groupBy l iteratee) -> Forall P items.
Proof.
  intros Hl Hin. destruct (groupBy_grouped iteratee l) as (_ & Hitems & _).
  rewrite (Hitems _ _ Hin). apply Forall_forall. intros x Hx.
  apply filter_In in Hx. rewrite Forall_forall in Hl. apply Hl, Hx.
Qed.

(** *** [Object.keys] lists every property once *)

Lemma ownProperties_perm {V : Type} (o : Lodash.object V) :
  Permutation (Lodash.ownProperties o) o.
Proof.
  unfold Lodash.ownProperties.
  eapply perm_trans;
    [ apply Permutation_app_tail, Permutation_map, sort_perm | ].
  unfold Lodash.index_properties, Lodash.named_properties.
  induction o as [ | p o IH ]; simpl; [ apply perm_nil | ].
  destruct (Lodash.array_index (fst p)); simpl.
  - apply perm_skip. exact IH.
  - apply Permutation_sym.
    eapply perm_trans; [ | apply Permutation_middle ].
    apply perm_skip. apply Permutation_sym. exact IH.
Qed.

Lemma map_object_perm {V B : Type} (o : Lodash.object V) (f : V -> string -> B) :
  Permutation (Lodash.map_object o f) (map (fun p => f (snd p) (fst p)) o).
Proof. unfold Lodash.map_object. apply Permutation_map, ownProperties_perm. Qed.

Lemma map_object_In {V B : Type} (o : Lodash.object V) (f : V -> string -> B) (b : B) :
  In b (Lodash.map_object o f) <-> exists k v, In (k, v) o /\ b = f v k.
Proof.
  split.
  - intros H. apply (Permutation_in _ (map_object_perm o f)) in H.
    apply in_map_iff in H. destruct H as [[k v] [E H]]. exists k, v. auto.
  - intros [k [v [H ->]]].
    apply (Permutation_in _ (Permutation_sym (map_object_perm o f))).
    apply in_map_iff. exists (k, v). auto.
Qed.

Lemma groupBy_has_group {A : Type} (iteratee : A -> primitive) (l : list A) (x : A) :
  In x l ->
  In (key_of iteratee x,
      List.filter (fun y => (key_of iteratee y =? key_of iteratee x)%string) l)
     (Lodash.groupBy l iteratee).
Proof.
  intros Hx. destruct (groupBy_grouped iteratee l) as (_ & Hitems & Hown).
  specialize (Hown x Hx). apply hasOwnProperty_In in Hown. destruct Hown as [items Hin].
  rewrite <- (Hitems _ _ Hin). exact Hin.
Qed.

(** *** The groups and the entries made from them *)

Lemma groupBy_keys_from {A : Type} (iteratee : A -> primitive) (l : list A) (k : string) :
  In k (map fst (Lodash.groupBy l iteratee)) ->
  exists x, In x l /\ key_of iteratee x = k.
Proof.
  revert k.
  apply (groupBy_ind iteratee
           (fun g l => forall k, In k (map fst g) ->
                                 exists x, In x l /\ key_of iteratee x = k)).
  - intros k [].
  - intros g l0 x IH k Hk.
    assert (Hold : In k (map fst g) ->
                   exists y, In y (l0 ++ [x]) /\ key_of iteratee y = k).
    { intros H. destruct (IH k H) as [y [Hy Ey]]. exists y.
      split; [ apply in_or_app; left; exact Hy | exact Ey ]. }
    unfold group_step in Hk.
    destruct (Lodash.hasOwnProperty g (key_of iteratee x)).
    + rewrite map_fst_push in Hk. auto.
    + unfold Lodash.baseAssignValue in Hk. rewrite map_app in Hk.
      apply in_app_or in Hk. destruct Hk as [ Hk | [ Hk | [] ] ]; [ auto | ].
      exists x. split; [ apply in_or_app; right; left; reflexivity | exact Hk ].
Qed.

(** A group is the key of some element with all the elements of that key. *)
Lemma groupBy_entry {A : Type} (iteratee : A -> primitive) (l : list A) (k : string)
    (items : list A) :
  In (k, items) (Lodash.groupBy l iteratee)
  <-> exists x, In x l /\ k = key_of iteratee x
                /\ items = List.filter
                             (fun y => (key_of iteratee y =? key_of iteratee x)%string) l.
Proof.
  split.
  - intros Hin. destruct (groupBy_grouped iteratee l) as (_ & Hitems & _).
    destruct (groupBy_keys_from iteratee l k) as [x [Hx Ek]].
    { apply (in_map fst) in Hin. exact Hin. }
    exists x. subst k. split; [ exact Hx | split; [ reflexivity | ] ].
    apply Hitems. exact Hin.
  - intros [x (Hx & -> & ->)]. apply groupBy_has_group. exact Hx.
Qed.

(** The entries that [_.map] makes from the groups of [field]. *)
Lemma group_entries_In {B : Type} (field : UsageRecord -> primitive)
    (f : list UsageRecord -> string -> B) (data : list UsageRecord) (b : B) :
  In b (Lodash.map_object (Lodash.groupBy data field) f)
  <-> exists r, In r data
                /\ b = f (List.filter
                            (fun y => (ToString (field y) =? ToString (field r))%string)
                            data)
                         (ToString (field r)).
Proof.
  rewrite map_object_In. split.
  - intros (k & items & Hin & ->). apply groupBy_entry in Hin.
    destruct Hin as [r (Hr & -> & ->)]. exists r. split; [ exact Hr | reflexivity ].
  - intros [r [Hr ->]]. eexists; eexists. split; [ | reflexivity ].
    apply (groupBy_has_group field data r Hr).
Qed.

Lemma groupBy_keys_perm {A : Type} (iteratee : A -> primitive) (l : list A) :
  Permutation (map fst (Lodash.groupBy l iteratee))
    (nodup string_dec (map (key_of iteratee) l)).
Proof.
  destruct (groupBy_grouped iteratee l) as (Hnd & _ & Hown).
  apply NoDup_Permutation; [ exact Hnd | apply NoDup_nodup | ].
  intros k. rewrite nodup_In. split.
  - intros H. destruct (groupBy_keys_from iteratee l k H) as [x [Hx Ek]].
    apply in_map_iff. exists x. auto.
  - intros H. apply in_map_iff in H. destruct H as [x [Ek Hx]]. specialize (Hown x Hx). apply hasOwnProperty_In in Hown.
    destruct Hown as [items Hin]. apply (in_map fst) in Hin. rewrite <- Ek. exact Hin.
Qed.

Lemma dailyCosts_length (data : list UsageRecord) :
  List.length (dailyCosts data)
  = List.length (nodup string_dec (map (fun r => ToString (date r)) data)).
Proof.
  unfold dailyCosts.
  rewrite (Permutation_length (orderBy_perm _ _ _)).
  rewrite (Permutation_length (map_object_perm _ _)), length_map.
  rewrite <- (length_map fst).
  apply Permutation_length, (groupBy_keys_perm date data).
Qed.

(* ================================================================== *)
(** ** The order of the lists *)

(** Without a text in the cost column, every entry made from a group
    carries a numeric amount. *)
Lemma group_entries_numeric {B : Type} (field : UsageRecord -> primitive)
    (f : list UsageRecord -> string -> B) (cost : B -> primitive)
    (data : list UsageRecord) :
  (forall items k, cost (f items k)
                   = js_or (Lodash.sumBy items costInBillingCurrency) (Number 0)) ->
  costs_without_text data ->
  Forall (fun b => numeric (cost b))
    (Lodash.map_object (Lodash.groupBy data field) f).
Proof.
  intros Hf Hd. apply Forall_forall. intros b Hb. apply map_object_In in Hb.
  destruct Hb as (k & items & Hin & ->). rewrite Hf.
  apply js_or_numeric, sumBy_no_text.
  eapply groupBy_items_Forall; [ exact Hd | exact Hin ].
Qed.

Lemma filter_Forall {B : Type} (P : B -> Prop) (predicate : B -> bool) (l : list B) :
  Forall P l -> Forall P (Lodash.filter l predicate).
Proof.
  intros H. unfold Lodash.filter. apply Forall_forall. intros b Hb.
  apply filter_In in Hb. rewrite Forall_forall in H. apply H, Hb.
Qed.

Lemma serviceBreakdown_numeric (data : list UsageRecord) :
  costs_without_text data ->
  Forall (fun e => numeric (ServiceEntry.value e)) (serviceBreakdown data).
Proof.
  intros Hd. unfold serviceBreakdown.
  eapply Permutation_Forall; [ apply Permutation_sym, orderBy_perm | ].
  apply filter_Forall.
  apply (group_entries_numeric serviceFamily _ ServiceEntry.value);
    [ reflexivity | exact Hd ].
Qed.

Lemma resourceCosts_numeric (data : list UsageRecord) :
  costs_without_text data ->
  Forall (fun e => numeric (CostEntry.cost e)) (resourceCosts data).
Proof.
  intros Hd. unfold resourceCosts.
  eapply Permutation_Forall; [ apply Permutation_sym, orderBy_perm | ].
  apply filter_Forall.
  apply (group_entries_numeric resourceId _ CostEntry.cost);
    [ reflexivity | exact Hd ].
Qed.

Lemma resourceGroupCosts_numeric (data : list UsageRecord) :
  costs_without_text data ->
  Forall (fun e => numeric (CostEntry.cost e)) (resourceGroupCosts data).
Proof.
  intros Hd. unfold resourceGroupCosts, Lodash.take.
  apply Forall_forall. intros e He. apply In_firstn in He. revert e He.
  apply Forall_forall.
  eapply Permutation_Forall; [ apply Permutation_sym, orderBy_perm | ].
  apply filter_Forall.
  apply (group_entries_numeric resourceGroupName _ CostEntry.cost);
    [ reflexivity | exact Hd ].
Qed.

Lemma serviceBreakdown_descending (data : list UsageRecord) :
  costs_without_text data ->
  StronglySorted (fun a b => num_le (ServiceEntry.value b) (ServiceEntry.value a))
    (serviceBreakdown data).
Proof.
  intros Hd. unfold serviceBreakdown. apply orderBy_numeric_descending.
  apply filter_Forall.
  apply (group_entries_numeric serviceFamily _ ServiceEntry.value);
    [ reflexivity | exact Hd ].
Qed.

Lemma resourceCosts_descending (data : list UsageRecord) :
  costs_without_text data ->
  StronglySorted (fun a b => num_le (CostEntry.cost b) (CostEntry.cost a))
    (resourceCosts data).
Proof.
  intros Hd. unfold resourceCosts. apply orderBy_numeric_descending.
  apply filter_Forall.
  apply (group_entries_numeric resourceId _ CostEntry.cost);
    [ reflexivity | exact Hd ].
Qed.

Lemma resourceGroupCosts_descending (data : list UsageRecord) :
  costs_without_text data ->
  StronglySorted (fun a b => num_le (CostEntry.cost b) (CostEntry.cost a))
    (resourceGroupCosts data).
Proof.
  intros Hd. unfold resourceGroupCosts, Lodash.take. apply StronglySorted_firstn.
  apply orderBy_numeric_descending. apply filter_Forall.
  apply (group_entries_numeric resourceGroupName _ CostEntry.cost);
    [ reflexivity | exact Hd ].
Qed.

(** Three elements that [R] orders in a circle have no arrangement that [R]
    sorts. *)
Lemma circle_not_sorted {A : Type} (R : A -> A -> Prop) (a b c : A) :
  a <> b -> b <> c -> a <> c ->
  ~ R a c -> ~ R b a -> ~ R c b ->
  forall l, In a l -> In b l -> In c l -> ~ StronglySorted R l.
Proof.
  intros Hab Hbc Hac Ra Rb Rc l.
  induction l as [ | h l IH ]; intros Ha Hb Hc HS; [ destruct Ha | ].
  inversion HS as [ | ? ? HS' HF ]; subst. rewrite Forall_forall in HF.
  destruct Ha as [ -> | Ha ].
  { destruct Hc as [ E | Hc ]; [ congruence | ]. apply Ra, HF, Hc. }
  destruct Hb as [ -> | Hb ]; [ apply Rb, HF, Ha | ].
  destruct Hc as [ -> | Hc ]; [ apply Rc, HF, Hb | ].
  apply IH; assumption.
Qed.

(** C3, as the specification states it, fails when costs were left as text:
    [orderBy] compares two texts by their code units and a text with a number
    by the number it reads as, so ["+9"] stays before ["+80"] and before 10,
    though 9 is below 80 and below 10.  The three values stand in a circle
    under [<], so that no arrangement of the three entries descends, whatever
    the sort does with them. *)
Lemma text_costs_keep_their_order :
  Summary.serviceBreakdown (aggregate signed_cost_rows)
  = [ {| ServiceEntry.name := "Compute"; ServiceEntry.value := Text "+9" |};
      {| ServiceEntry.name := "Storage"; ServiceEntry.value := Text "+80" |};
      {| ServiceEntry.name := "Network"; ServiceEntry.value := Number 10 |} ]
  /\ Summary.resourceGroupCosts (aggregate signed_cost_rows)
     = [ {| CostEntry.name := "rg1"; CostEntry.cost := Text "+9" |};
         {| CostEntry.name := "rg2"; CostEntry.cost := Text "+80" |};
         {| CostEntry.name := "rg3"; CostEntry.cost := Number 10 |} ]
  /\ num_lt (Text "+9") (Text "+80")
  /\ js_lt (Text "+9") (Number 10) = true
  /\ ~ StronglySorted
         (fun a b => num_le (ServiceEntry.value b) (ServiceEntry.value a))
         (Summary.serviceBreakdown (aggregate signed_cost_rows))
  /\ (forall l,
        Permutation l (Summary.serviceBreakdown (aggregate signed_cost_rows)) ->
        ~ StronglySorted
            (fun a b => js_lt (ServiceEntry.value a) (ServiceEntry.value b) = false)
            l).
Proof.
  assert (E : Summary.serviceBreakdown (aggregate signed_cost_rows)
              = [ {| ServiceEntry.name := "Compute"; ServiceEntry.value := Text "+9" |};
                  {| ServiceEntry.name := "Storage"; ServiceEntry.value := Text "+80" |};
                  {| ServiceEntry.name := "Network"; ServiceEntry.value := Number 10 |} ])
    by (vm_compute; reflexivity).
  split; [ exact E | ].
  split; [ vm_compute; reflexivity | ].
  split; [ vm_compute; reflexivity | ].
  split; [ vm_compute; reflexivity | ].
  rewrite E. split.
  - intros H. inversion H as [ | ? ? _ F ]; subst.
    inversion F as [ | ? ? F1 _ ]; subst. vm_compute in F1. discriminate.
  - intros l Hl. apply Permutation_sym in Hl.
    eapply (circle_not_sorted _
              {| ServiceEntry.name := "Compute"; ServiceEntry.value := Text "+9" |}
              {| ServiceEntry.name := "Storage"; ServiceEntry.value := Text "+80" |}
              {| ServiceEntry.name := "Network"; ServiceEntry.value := Number 10 |});
      try discriminate;
      try (apply (Permutation_in _ Hl); cbn [In]; tauto);
      vm_compute; intros F; discriminate.
Qed.

(** C3 (amended): [dailyCosts] ascends by date, code unit by code unit, and
    [resourceGroupCosts] has at most five entries; when no cost cell holds a
    text, [serviceBreakdown] descends by value and [resourceGroupCosts] by
    cost, as numbers. *)
Theorem lists_sorted (data : list UsageRecord) :
  StronglySorted
    (fun a b => String.leb (DailyCost.date a) (DailyCost.date b) = true)
    (Summary.dailyCosts (aggregate data))
  /\ (List.length (Summary.resourceGroupCosts (aggregate data)) <= 5)%nat
  /\ (costs_without_text data ->
      StronglySorted
        (fun a b => num_le (ServiceEntry.value b) (ServiceEntry.value a))
        (Summary.serviceBreakdown (aggregate data))
      /\ StronglySorted
           (fun a b => num_le (CostEntry.cost b) (CostEntry.cost a))
           (Summary.resourceGroupCosts (aggregate data))).
Proof.
  cbn [aggregate Summary.dailyCosts Summary.serviceBreakdown Summary.resourceGroupCosts].
  split; [ apply orderBy_text_ascending | ].
  split; [ unfold resourceGroupCosts, Lodash.take; apply firstn_le_length | ].
  intros Hd. split;
    [ apply serviceBreakdown_descending | apply resourceGroupCosts_descending ];
    exact Hd.
Qed.

Lemma lists_sorted_example :
  costs_without_text example_rows
  /\ StronglySorted
       (fun a b => num_le (ServiceEntry.value b) (ServiceEntry.value a))
       (Summary.serviceBreakdown (aggregate example_rows))
  /\ StronglySorted
       (fun a b => num_le (CostEntry.cost b) (CostEntry.cost a))
       (Summary.resourceGroupCosts (aggregate example_rows)).
Proof.
  assert (H : costs_without_text example_rows) by (repeat constructor).
  split; [ exact H | ].
  exact (proj2 (proj2 (lists_sorted example_rows)) H).
Defined.
(* ================================================================== *)
(** ** The peak *)

Section MaxBy.

Context {A : Type} (iteratee : A -> primitive).

(** Once an element is chosen, [baseExtremum] ends on an element. *)
Lemma baseExtremum_In (comparator : primitive -> primitive -> bool) (l : list A) :
  forall computed m,
  exists m',
    Lodash.baseExtremum l iteratee comparator computed (Some m) = Some m'
    /\ (m' = m \/ In m' l).
Proof.
  induction l as [ | x l IH ]; intros computed m; cbn [Lodash.baseExtremum].
  - exists m. auto.
  - match goal with |- context [if ?c then _ else _] => destruct c end.
    + destruct (IH (iteratee x) x) as [m' [E [ Em | H ]]]; exists m'; cbn; auto.
    + destruct (IH computed m) as [m' [E [ Em | H ]]]; exists m'; cbn; auto.
Qed.

(** The first element is chosen when its amount is settled. *)
Lemma maxBy_In (x : A) (l : list A) :
  settled (iteratee x) ->
  exists m, Lodash.maxBy (x :: l) iteratee = Some m /\ In m (x :: l).
Proof.
  intros Hx. unfold Lodash.maxBy. cbn [Lodash.baseExtremum].
  assert (E : match iteratee x with
              | undefined | null => false
              | _ => strict_equal (iteratee x) (iteratee x)
              end = true).
  { destruct (iteratee x) as [ | | [ | ] | f | s ]; cbn in *; try contradiction.
    - reflexivity.
    - unfold is_nan in Hx. apply negb_false_iff in Hx. exact Hx.
    - apply String.eqb_refl. }
  rewrite E.
  destruct (baseExtremum_In Lodash.baseGt l (iteratee x) x) as [m [Em H]].
  exists m. split; [ exact Em | ]. cbn. destruct H; auto.
Qed.

Lemma baseExtremum_numeric (l : list A) : forall before m mid,
  numeric (iteratee m) ->
  Forall (fun x => numeric (iteratee x)) l ->
  Forall (fun x => num_lt (iteratee x) (iteratee m)) before ->
  Forall (fun x => num_le (iteratee x) (iteratee m)) mid ->
  exists m',
    Lodash.baseExtremum l iteratee Lodash.baseGt (iteratee m) (Some m) = Some m'
    /\ first_maximum iteratee (before ++ m :: mid ++ l) m'.
Proof.
  induction l as [ | x l IH ]; intros before m mid Hm Hl Hb Hmid.
  - exists m. split; [ reflexivity | ].
    exists before, mid. rewrite app_nil_r. auto.
  - inversion Hl as [ | ? ? Hx Hl' ]; subst.
    assert (Hstep :
      Lodash.baseExtremum (x :: l) iteratee Lodash.baseGt (iteratee m) (Some m)
      = if (ToNumber (iteratee m) <? ToNumber (iteratee x))%float
        then Lodash.baseExtremum l iteratee Lodash.baseGt (iteratee x) (Some x)
        else Lodash.baseExtremum l iteratee Lodash.baseGt (iteratee m) (Some m)).
    { cbn [Lodash.baseExtremum]. unfold Lodash.baseGt at 1.
      destruct (iteratee x) as [ | | [ | ] | fx | sx ],
               (iteratee m) as [ | | [ | ] | fm | sm ];
        cbn in Hx, Hm; try contradiction; reflexivity. }
    rewrite Hstep.
    pose proof (numeric_not_nan _ Hx) as Nx. pose proof (numeric_not_nan _ Hm) as Nm.
    destruct (ToNumber (iteratee m) <? ToNumber (iteratee x))%float eqn:Hlt.
    + destruct (IH (before ++ m :: mid) x [] Hx Hl') as [m' [E F]].
      * apply Forall_app. split; [ | constructor ].
        -- eapply Forall_impl; [ | exact Hb ]. cbn. intros a Ha.
           eapply ltb_trans; [ exact Ha | exact Hlt ].
        -- exact Hlt.
        -- eapply Forall_impl; [ | exact Hmid ]. cbn. intros a Ha.
           eapply leb_ltb_trans; [ exact Ha | exact Hlt ].
      * constructor.
      * exists m'. split; [ exact E | ].
        cbn [app] in F. rewrite <- app_assoc in F. exact F.
    + destruct (IH before m (mid ++ [x]) Hm Hl' Hb) as [m' [E F]].
      * apply Forall_app. split; [ exact Hmid | ].
        constructor; [ | constructor ]. apply ltb_false_leb; assumption.
      * exists m'. split; [ exact E | ].
        rewrite <- app_assoc in F. exact F.
Qed.

Lemma maxBy_numeric (x : A) (l : list A) :
  Forall (fun a => numeric (iteratee a)) (x :: l) ->
  exists m, Lodash.maxBy (x :: l) iteratee = Some m
            /\ first_maximum iteratee (x :: l) m.
Proof.
  intros Hl. inversion Hl as [ | ? ? Hx Hl' ]; subst.
  destruct (baseExtremum_numeric l [] x [] Hx Hl') as [m [E F]];
    try constructor.
  exists m. split; [ | exact F ].
  unfold Lodash.maxBy. cbn [Lodash.baseExtremum]. rewrite <- E.
  destruct (iteratee x) as [ | | [ | ] | f | s ]; cbn in Hx; try contradiction.
  - reflexivity.
  - cbn. unfold is_nan in Hx. apply negb_false_iff in Hx. rewrite Hx. reflexivity.
Qed.

End MaxBy.

Lemma dailyCosts_numeric (data : list UsageRecord) :
  costs_without_text data ->
  Forall (fun e => numeric (DailyCost.cost e)) (dailyCosts data).
Proof.
  intros Hd. unfold dailyCosts.
  eapply Permutation_Forall; [ apply Permutation_sym, orderBy_perm | ].
  apply (group_entries_numeric date _ DailyCost.cost); [ reflexivity | exact Hd ].
Qed.

(** The peak is an entry of [dailyCosts], or the placeholder. *)
Lemma peakUsage_In (data : list UsageRecord) :
  match dailyCosts data with
  | [] => peakUsage data = {| DailyCost.date := "N/A"; DailyCost.cost := Number 0 |}
  | _ :: _ => In (peakUsage data) (dailyCosts data)
  end.
Proof.
  unfold peakUsage. pose proof (dailyCosts_settled data) as Hs.
  destruct (dailyCosts data) as [ | x l ]; [ reflexivity | ].
  inversion Hs as [ | ? ? Hx _ ]; subst.
  destruct (maxBy_In DailyCost.cost x l Hx) as [m [E H]]. rewrite E. exact H.
Qed.

(** C4, as the specification states it, fails when costs were left as text:
    [maxBy] compares two texts by their code units, so the day that costs
    ["+9"] is the peak though another day costs ["+80"]. *)
Lemma text_peak_is_not_greatest :
  Summary.dailyCosts (aggregate signed_day_rows)
  = [ {| DailyCost.date := "2024-01-01"; DailyCost.cost := Text "+80" |};
      {| DailyCost.date := "2024-01-02"; DailyCost.cost := Text "+9" |} ]
  /\ Summary.peakUsage (aggregate signed_day_rows)
     = {| DailyCost.date := "2024-01-02"; DailyCost.cost := Text "+9" |}
  /\ num_lt (Text "+9") (Text "+80")
  /\ ~ first_maximum DailyCost.cost
         (Summary.dailyCosts (aggregate signed_day_rows))
         (Summary.peakUsage (aggregate signed_day_rows)).
Proof.
  assert (E : Summary.dailyCosts (aggregate signed_day_rows)
              = [ {| DailyCost.date := "2024-01-01"; DailyCost.cost := Text "+80" |};
                  {| DailyCost.date := "2024-01-02"; DailyCost.cost := Text "+9" |} ])
    by (vm_compute; reflexivity).
  assert (P : Summary.peakUsage (aggregate signed_day_rows)
              = {| DailyCost.date := "2024-01-02"; DailyCost.cost := Text "+9" |})
    by (vm_compute; reflexivity).
  split; [ exact E | ]. split; [ exact P | ].
  split; [ vm_compute; reflexivity | ].
  rewrite E, P. intros (before & after & El & Hb & _).
  destruct before as [ | a [ | b before ] ]; cbn in El.
  - inversion El.
  - inversion El; subst. inversion Hb as [ | ? ? Ha _ ]; subst.
    vm_compute in Ha. discriminate.
  - inversion El as [[E1 E2 E3]]. destruct before; discriminate.
Qed.

(** C4 (amended): [peakUsage] is an entry of [dailyCosts], or the placeholder
    when [dailyCosts] is empty; when no cost cell holds a text, it is the
    first entry of [dailyCosts], in its ascending order of dates, that has the
    greatest cost. *)
Theorem peakUsage_first_maximum (data : list UsageRecord) :
  match Summary.dailyCosts (aggregate data) with
  | [] =>
      Summary.peakUsage (aggregate data)
      = {| DailyCost.date := "N/A"; DailyCost.cost := Number 0 |}
  | _ :: _ =>
      In (Summary.peakUsage (aggregate data)) (Summary.dailyCosts (aggregate data))
      /\ (costs_without_text data ->
          first_maximum DailyCost.cost
            (Summary.dailyCosts (aggregate data)) (Summary.peakUsage (aggregate data)))
  end.
Proof.
  cbn [aggregate Summary.dailyCosts Summary.peakUsage].
  pose proof (peakUsage_In data) as Hin.
  pose proof (dailyCosts_numeric data) as Hn.
  unfold peakUsage in *.
  destruct (dailyCosts data) as [ | x l ]; [ exact Hin | ].
  split; [ exact Hin | ]. intros Hd.
  destruct (maxBy_numeric DailyCost.cost x l (Hn Hd)) as [m [E F]].
  rewrite E. exact F.
Qed.

Lemma peakUsage_first_maximum_example :
  costs_without_text example_rows
  /\ first_maximum DailyCost.cost
       (Summary.dailyCosts (aggregate example_rows))
       {| DailyCost.date := "2024-01-02"; DailyCost.cost := Number 20 |}.
Proof.
  assert (H : costs_without_text example_rows) by (repeat constructor).
  split; [ exact H | ].
  exact (proj2 (peakUsage_first_maximum example_rows) H).
Defined.
(* ================================================================== *)
(** ** Totality *)

Lemma resourceCosts_entries (data : list UsageRecord) :
  Forall (fun e => num_lt (Number 0) (CostEntry.cost e) /\ settled (CostEntry.cost e))
    (resourceCosts data).
Proof.
  unfold resourceCosts, Lodash.filter.
  eapply Permutation_Forall; [ apply Permutation_sym, orderBy_perm | ].
  apply Forall_forall. intros e He. apply filter_In in He. destruct He as [He Hp].
  split; [ apply js_gt_zero; exact Hp | ].
  clear Hp. revert e He. apply Forall_forall, map_object_Forall. intros; apply js_or_settled.
Qed.

Lemma peakUsage_settled (data : list UsageRecord) :
  settled (DailyCost.cost (peakUsage data)).
Proof.
  pose proof (peakUsage_In data) as H. pose proof (dailyCosts_settled data) as Hs.
  destruct (dailyCosts data) as [ | x l ]; [ rewrite H; reflexivity | ].
  rewrite Forall_forall in Hs. apply Hs, H.
Qed.


(* ================================================================== *)
(** ** The daily costs against the total *)

Lemma concat_push {A : Type} (g : Lodash.object (list A)) (k : string) (x : A) :
  Lodash.hasOwnProperty g k = true ->
  Permutation (List.concat (map snd (Lodash.push g k x))) (x :: List.concat (map snd g)).
Proof.
  induction g as [ | [k0 items] g IH ]; cbn [Lodash.hasOwnProperty Lodash.push];
    [ discriminate | ].
  destruct (k0 =? k)%string; intros H; cbn [map snd List.concat].
  - rewrite <- app_assoc. cbn [app].
    apply Permutation_sym, Permutation_middle.
  - eapply perm_trans; [ apply Permutation_app_head, IH, H | ].
    apply Permutation_sym, Permutation_middle.
Qed.

(** The groups hold the elements of the collection, each once. *)
Lemma groupBy_partition {A : Type} (iteratee : A -> primitive) (l : list A) :
  Permutation (List.concat (map snd (Lodash.groupBy l iteratee))) l.
Proof.
  apply (groupBy_ind iteratee (fun g l => Permutation (List.concat (map snd g)) l)).
  - apply perm_nil.
  - intros g l0 x IH. unfold group_step.
    destruct (Lodash.hasOwnProperty g (key_of iteratee x)) eqn:E.
    + eapply perm_trans; [ apply concat_push, E | ].
      eapply perm_trans; [ apply perm_skip, IH | ].
      apply Permutation_cons_append.
    + unfold Lodash.baseAssignValue. rewrite map_app, concat_app. cbn.
      rewrite ?app_nil_r. apply Permutation_app_tail, IH.
Qed.

(* ================================================================== *)
(** ** Whole numbers in doubles

    Doubles hold the whole numbers below [2^53] in magnitude, and add them
    without rounding when the sum stays below [2^53] too. *)

Lemma digits2_size (p : positive) : digits2_pos p = Pos.size p.
Proof. induction p; simpl; congruence. Qed.

Lemma Zdigits2_log2 (p : positive) : Zdigits2 (Zpos p) = Z.log2 (Zpos p) + 1.
Proof.
  cbn [Zdigits2]. rewrite digits2_size. destruct p; cbn [Z.log2 Pos.size]; lia.
Qed.

Lemma iter_xO (n : positive) (p : positive) :
  Zpos (Pos.iter xO p n) = Zpos p * 2 ^ Zpos n.
Proof.
  induction n as [ | n IH ] using Pos.peano_ind.
  - cbn. lia.
  - rewrite Pos.iter_succ, Pos2Z.inj_succ, Z.pow_succ_r by lia.
    rewrite Pos2Z.inj_xO, IH. lia.
Qed.

Lemma iter_pos_iter {A : Type} (f : A -> A) (n : positive) (x : A) :
  iter_pos f n x = Pos.iter f x n.
Proof.
  revert x. induction n as [ n IH | n IH | ]; intros x; cbn [iter_pos Pos.iter].
  - rewrite !IH. rewrite <- Pos.iter_swap. rewrite <- Pos.iter_swap. reflexivity.
  - rewrite !IH. reflexivity.
  - reflexivity.
Qed.

Lemma shr_exact (n : positive) (q : positive) :
  iter_pos shr_1 n {| shr_m := Zpos (Pos.iter xO q n); shr_r := false; shr_s := false |}
  = {| shr_m := Zpos q; shr_r := false; shr_s := false |}.
Proof.
  rewrite iter_pos_iter. revert q.
  induction n as [ | n IH ] using Pos.peano_ind; intros q.
  - reflexivity.
  - rewrite !Pos.iter_succ.
    rewrite <- (Pos.iter_swap n positive xO q). rewrite IH. reflexivity.
Qed.

Lemma fexp_whole (d : Z) : 1 <= d -> fexp prec emax d = d - 53.
Proof. intros H. unfold fexp, emin, prec, emax. lia. Qed.

Lemma to_pos_mul (z k : Z) : 0 < z -> 0 <= k -> Zpos (Z.to_pos (z * 2 ^ k)) = z * 2 ^ k.
Proof. intros. apply Z2Pos.id. apply Z.mul_pos_pos; [ lia | apply Z.pow_pos_nonneg; lia ]. Qed.

(** A mantissa of 53 bits at an exponent within range is kept. *)
Lemma binary_round_aux_kept (s : bool) (m : positive) (e : Z) :
  Z.log2 (Zpos m) = 52 -> -1074 <= e <= 971 ->
  binary_round_aux prec emax s (Zpos m) e loc_Exact = S754_finite s m e.
Proof.
  intros Hm He. unfold binary_round_aux.
  assert (F : shr_fexp prec emax (Zpos m) e loc_Exact
              = ({| shr_m := Zpos m; shr_r := false; shr_s := false |}, e)).
  { unfold shr_fexp. rewrite Zdigits2_log2, Hm.
    replace (fexp prec emax (52 + 1 + e) - e) with 0
      by (unfold fexp, emin, prec, emax; lia).
    reflexivity. }
  rewrite F. cbn [shr_m loc_of_shr_record round_nearest_even]. rewrite F.
  cbn [shr_m]. unfold prec, emax.
  destruct (Z.leb_spec e (1024 - 53)); [ reflexivity | lia ].
Qed.

(** A mantissa with [n] zero bits below its 53 bits is shifted. *)
Lemma binary_round_aux_shifted (s : bool) (m n : positive) (e : Z) :
  Z.log2 (Zpos m) = 52 -> -1074 <= e + Zpos n <= 971 ->
  binary_round_aux prec emax s (Zpos (Pos.iter xO m n)) e loc_Exact
  = S754_finite s m (e + Zpos n).
Proof.
  intros Hm He. unfold binary_round_aux.
  assert (F : shr_fexp prec emax (Zpos (Pos.iter xO m n)) e loc_Exact
              = ({| shr_m := Zpos m; shr_r := false; shr_s := false |}, e + Zpos n)).
  { unfold shr_fexp. rewrite Zdigits2_log2, iter_xO.
    rewrite Z.log2_mul_pow2 by lia. rewrite Hm.
    replace (fexp prec emax (Zpos n + 52 + 1 + e) - e) with (Zpos n)
      by (unfold fexp, emin, prec, emax; lia).
    cbn [shr_record_of_loc shr]. rewrite <- iter_xO, shr_exact. reflexivity. }
  rewrite F. cbn [shr_m loc_of_shr_record round_nearest_even].
  assert (G : shr_fexp prec emax (Zpos m) (e + Zpos n) loc_Exact
              = ({| shr_m := Zpos m; shr_r := false; shr_s := false |}, e + Zpos n)).
  { unfold shr_fexp. rewrite Zdigits2_log2, Hm.
    replace (fexp prec emax (52 + 1 + (e + Zpos n)) - (e + Zpos n)) with 0
      by (unfold fexp, emin, prec, emax; lia).
    reflexivity. }
  rewrite G. cbn [shr_m]. unfold prec, emax.
  destruct (Z.leb_spec (e + Zpos n) (1024 - 53)); [ reflexivity | lia ].
Qed.

Lemma log2_whole_mantissa (z : Z) :
  0 < z < 2 ^ 53 -> 0 <= 52 - Z.log2 z /\ Z.log2 (z * 2 ^ (52 - Z.log2 z)) = 52.
Proof.
  intros Hz.
  assert (Z.log2 z < 53) by (apply Z.log2_lt_pow2; lia).
  split; [ lia | ]. rewrite Z.log2_mul_pow2 by lia. lia.
Qed.

Lemma binary_round_whole (s : bool) (z k : Z) (p : positive) :
  0 < z < 2 ^ 53 -> 0 <= k -> Zpos p = z * 2 ^ k ->
  binary_round prec emax s p (- k) = whole_binary s z.
Proof.
  intros Hz Hk Hp.
  destruct (log2_whole_mantissa z Hz) as [Hl Hm].
  pose proof (Z.log2_nonneg z) as Hn.
  set (M := Z.to_pos (z * 2 ^ (52 - Z.log2 z))).
  assert (EM : Zpos M = z * 2 ^ (52 - Z.log2 z)) by (apply to_pos_mul; lia).
  unfold binary_round, whole_binary. fold M.
  replace (Zpos (digits2_pos p)) with (Zdigits2 (Zpos p)) by reflexivity.
  rewrite Zdigits2_log2, Hp, Z.log2_mul_pow2 by lia.
  replace (fexp prec emax (k + Z.log2 z + 1 + - k)) with (Z.log2 z - 52)
    by (unfold fexp, emin, prec, emax; lia).
  unfold shl_align.
  destruct (Z.log2 z - 52 - - k) as [ | n | d ] eqn:E.
  - (* the mantissa has its 53 bits *)
    assert (p = M).
    { apply Pos2Z.inj. rewrite Hp, EM. f_equal. f_equal. lia. }
    subst p. replace (- k) with (Z.log2 z - 52) by lia.
    apply binary_round_aux_kept; [ rewrite EM; exact Hm | lia ].
  - (* more than 53 bits, the lowest being zeros *)
    assert (p = Pos.iter xO M n).
    { apply Pos2Z.inj. rewrite iter_xO, Hp, EM, <- Z.mul_assoc, <- Z.pow_add_r by lia.
      f_equal. f_equal. lia. }
    subst p. replace (Z.log2 z - 52) with (- k + Zpos n) by lia.
    apply binary_round_aux_shifted; [ rewrite EM; exact Hm | lia ].
  - (* fewer than 53 bits *)
    assert (Pos.iter xO p d = M).
    { apply Pos2Z.inj. rewrite iter_xO, Hp, EM, <- Z.mul_assoc, <- Z.pow_add_r by lia.
      f_equal. f_equal. lia. }
    rewrite H. apply binary_round_aux_kept; [ rewrite EM; exact Hm | lia ].
Qed.


Lemma binary_normalize_whole (z k : Z) :
  Z.abs z < 2 ^ 53 -> 0 <= k ->
  binary_normalize prec emax (z * 2 ^ k) (- k) false = whole_float z.
Proof.
  intros Hz Hk. pose proof (Z.pow_pos_nonneg 2 k) as Hpow.
  destruct z as [ | p | p ]; cbn [whole_float].
  - reflexivity.
  - destruct (Zpos p * 2 ^ k) as [ | q | q ] eqn:E; try lia.
    cbn [binary_normalize]. apply binary_round_whole; lia.
  - destruct (Zneg p * 2 ^ k) as [ | q | q ] eqn:E; try lia.
    cbn [binary_normalize]. apply binary_round_whole; lia.
Qed.

Lemma valid_whole (s : bool) (z : Z) :
  0 < z < 2 ^ 53 -> valid_binary (whole_binary s z) = true.
Proof.
  intros Hz. destruct (log2_whole_mantissa z Hz) as [Hl Hm].
  pose proof (Z.log2_nonneg z) as Hn.
  unfold whole_binary, SpecFloat.valid_binary, bounded, canonical_mantissa.
  replace (Zpos (digits2_pos (Z.to_pos (z * 2 ^ (52 - Z.log2 z)))))
    with (Zdigits2 (Zpos (Z.to_pos (z * 2 ^ (52 - Z.log2 z))))) by reflexivity.
  rewrite Zdigits2_log2, to_pos_mul, Hm by lia.
  apply andb_true_iff. split.
  - apply Z.eqb_eq. unfold fexp, emin, prec, emax. lia.
  - apply Z.leb_le. unfold prec, emax. lia.
Qed.

Lemma Prim2SF_nearest_whole (z : Z) :
  Z.abs z < 2 ^ 53 -> Prim2SF (nearest z 0) = whole_float z.
Proof.
  intros Hz. unfold nearest.
  replace z with (z * 2 ^ 0) at 1 by lia. replace 0 with (- 0) at 2 by lia.
  rewrite binary_normalize_whole by lia.
  apply Prim2SF_SF2Prim.
  destruct z; cbn [whole_float]; [ reflexivity | apply valid_whole; lia .. ].
Qed.

Lemma shl_align_fst (m : positive) (e e' : Z) :
  e' <= e -> Zpos (fst (shl_align m e e')) = Zpos m * 2 ^ (e - e').
Proof.
  intros H. unfold shl_align. destruct (e' - e) as [ | n | d ] eqn:E; cbn [fst].
  - replace (e - e') with 0 by lia. lia.
  - lia.
  - rewrite iter_xO. f_equal. f_equal. lia.
Qed.

(** The aligned mantissa of a whole number. *)
Lemma whole_aligned (s : bool) (z e' : Z) :
  0 < z < 2 ^ 53 -> e' <= Z.log2 z - 52 ->
  cond_Zopp s
    (Zpos (fst (shl_align (Z.to_pos (z * 2 ^ (52 - Z.log2 z))) (Z.log2 z - 52) e')))
  = (if s then - z else z) * 2 ^ (- e').
Proof.
  intros Hz He. destruct (log2_whole_mantissa z Hz) as [Hl _].
  rewrite shl_align_fst by exact He. rewrite to_pos_mul by lia.
  rewrite <- Z.mul_assoc, <- Z.pow_add_r by lia.
  replace (52 - Z.log2 z + (Z.log2 z - 52 - e')) with (- e') by lia.
  destruct s; cbn [cond_Zopp]; lia.
Qed.

Lemma SFadd_whole (a b : Z) :
  Z.abs a < 2 ^ 53 -> Z.abs b < 2 ^ 53 -> Z.abs (a + b) < 2 ^ 53 ->
  SFadd prec emax (whole_float a) (whole_float b) = whole_float (a + b).
Proof.
  intros Ha Hb Hab.
  assert (F : forall (sa sb : bool) (x y : Z),
            0 < x < 2 ^ 53 -> 0 < y < 2 ^ 53 ->
            Z.abs ((if sa then - x else x) + (if sb then - y else y)) < 2 ^ 53 ->
            SFadd prec emax (whole_binary sa x) (whole_binary sb y)
            = whole_float ((if sa then - x else x) + (if sb then - y else y))).
  { intros sa sb x y Hx Hy Hxy. unfold whole_binary. cbn [SFadd].
    set (ez := Z.min (Z.log2 x - 52) (Z.log2 y - 52)).
    assert (Hez : ez <= 0).
    { destruct (log2_whole_mantissa x Hx). unfold ez. lia. }
    rewrite !whole_aligned by (try assumption; unfold ez; lia).
    rewrite <- Z.mul_add_distr_r.
    replace ez with (- - ez) at 2 by lia.
    apply binary_normalize_whole; [ exact Hxy | lia ]. }
  destruct a as [ | p | p ], b as [ | q | q ]; try reflexivity.
  - exact (F false false (Zpos p) (Zpos q) ltac:(lia) ltac:(lia) Hab).
  - exact (F false true (Zpos p) (Zpos q) ltac:(lia) ltac:(lia) Hab).
  - exact (F true false (Zpos p) (Zpos q) ltac:(lia) ltac:(lia) Hab).
  - exact (F true true (Zpos p) (Zpos q) ltac:(lia) ltac:(lia) Hab).
Qed.

(** Whole numbers below 2^53 are added exactly. *)
Lemma add_whole (a b : Z) :
  Z.abs a < 2 ^ 53 -> Z.abs b < 2 ^ 53 -> Z.abs (a + b) < 2 ^ 53 ->
  (nearest a 0 + nearest b 0)%float = nearest (a + b) 0.
Proof.
  intros Ha Hb Hab. apply Prim2SF_inj.
  rewrite add_spec, !Prim2SF_nearest_whole by assumption.
  apply SFadd_whole; assumption.
Qed.

(** *** Sums of whole numbers *)

Lemma sum_abs_nonneg (l : list Z) : 0 <= sum_abs l.
Proof. induction l as [ | z l IH ]; cbn [sum_abs fold_right]; [ lia | ]. fold (sum_abs l). lia. Qed.

Lemma sum_Z_abs (l : list Z) : Z.abs (sum_Z l) <= sum_abs l.
Proof.
  induction l as [ | z l IH ]; cbn [sum_Z sum_abs fold_right]; [ lia | ].
  fold (sum_Z l) (sum_abs l). lia.
Qed.

Lemma sum_Z_app (l l' : list Z) : sum_Z (l ++ l') = sum_Z l + sum_Z l'.
Proof.
  induction l as [ | z l IH ]; cbn [app sum_Z fold_right]; [ reflexivity | ].
  fold (sum_Z (l ++ l')) (sum_Z l). lia.
Qed.

Lemma sum_abs_app (l l' : list Z) : sum_abs (l ++ l') = sum_abs l + sum_abs l'.
Proof.
  induction l as [ | z l IH ]; cbn [app sum_abs fold_right]; [ reflexivity | ].
  fold (sum_abs (l ++ l')) (sum_abs l). lia.
Qed.

Lemma sum_Z_perm (l l' : list Z) : Permutation l l' -> sum_Z l = sum_Z l'.
Proof.
  induction 1; cbn [sum_Z fold_right] in *; try fold (sum_Z l) in *;
    try fold (sum_Z l') in *; lia.
Qed.

Lemma sum_abs_perm (l l' : list Z) : Permutation l l' -> sum_abs l = sum_abs l'.
Proof.
  induction 1; cbn [sum_abs fold_right] in *; try fold (sum_abs l) in *;
    try fold (sum_abs l') in *; lia.
Qed.

(** A whole number below [2^53] in magnitude is not [NaN], and is a zero
    only as the double 0. *)
Lemma or_zero_whole (z : Z) : Z.abs z < 2 ^ 53 -> or_zero (nearest z 0) = nearest z 0.
Proof.
  intros Hz. pose proof (Prim2SF_nearest_whole z Hz) as E.
  destruct z as [ | p | p ]; [ reflexivity | | ]; cbn [whole_float] in E;
    unfold or_zero;
    (destruct (is_zero (nearest _ 0)) eqn:Ez;
     [ apply is_zero_spec in Ez; destruct Ez as [s Es]; rewrite E in Es;
       discriminate | ]);
    (destruct (is_nan (nearest _ 0)) eqn:En;
     [ apply is_nan_spec in En; rewrite E in En; discriminate | ]);
    reflexivity.
Qed.

Section WholeSums.

Context {A : Type} (z : A -> Z).

(** Doubles that are whole numbers add up to the sum of those numbers, so
    long as the magnitudes together stay below [2^53]. *)
Lemma fold_add_whole (f : A -> float) (l : list A) : forall acc,
  Forall (fun x => f x = nearest (z x) 0) l ->
  Z.abs acc + sum_abs (map z l) < 2 ^ 53 ->
  fold_left PrimFloat.add (map f l) (nearest acc 0)
  = nearest (acc + sum_Z (map z l)) 0.
Proof.
  induction l as [ | x l IH ]; intros acc Hl Hb;
    cbn [map fold_left sum_Z sum_abs fold_right] in *.
  - f_equal. lia.
  - fold (sum_Z (map z l)). fold (sum_abs (map z l)) in Hb.
    pose proof (sum_abs_nonneg (map z l)).
    inversion Hl as [ | ? ? Hx Hl' ]; subst.
    rewrite Hx, add_whole by lia.
    rewrite IH by (try assumption; lia). f_equal. lia.
Qed.

Lemma fold_js_add_whole (h : A -> primitive) (l : list A) : forall acc,
  Forall (fun x => h x = Number (nearest (z x) 0)) l ->
  Z.abs acc + sum_abs (map z l) < 2 ^ 53 ->
  fold_left js_add (map h l) (Number (nearest acc 0))
  = Number (nearest (acc + sum_Z (map z l)) 0).
Proof.
  induction l as [ | x l IH ]; intros acc Hl Hb;
    cbn [map fold_left sum_Z sum_abs fold_right] in *.
  - do 2 f_equal. lia.
  - fold (sum_Z (map z l)). fold (sum_abs (map z l)) in Hb.
    pose proof (sum_abs_nonneg (map z l)).
    inversion Hl as [ | ? ? Hx Hl' ]; subst.
    rewrite Hx. cbn [js_add ToNumber]. rewrite add_whole by lia.
    rewrite IH by (try assumption; lia). do 2 f_equal. lia.
Qed.

End WholeSums.

(** What [sumBy(...) || 0] is for rows whose costs are whole numbers. *)
Lemma sumBy_whole (items : list UsageRecord) :
  Forall whole_cost items ->
  sum_abs (map amount items) < 2 ^ 53 ->
  js_or (Lodash.sumBy items costInBillingCurrency) (Number 0)
  = Number (nearest (sum_Z (map amount items)) 0).
Proof.
  intros Hw Hb.
  rewrite sumBy_or_zero
    by (eapply Forall_impl; [ | exact Hw ]; intros r [H _]; exact H).
  unfold sum_floats. change 0%float with (nearest 0 0).
  rewrite (fold_add_whole amount)
    by (try (eapply Forall_impl; [ | exact Hw ]; intros r [_ H]; exact H);
        cbn [Z.abs]; lia).
  cbn [Z.add]. rewrite or_zero_whole; [ reflexivity | ].
  pose proof (sum_Z_abs (map amount items)). lia.
Qed.

Lemma sum_abs_flat_map {B : Type} (f : B -> list Z) (l : list B) (b : B) :
  In b l -> sum_abs (f b) <= sum_abs (flat_map f l).
Proof.
  induction l as [ | c l IH ]; intros H; [ destruct H | ].
  cbn [flat_map]. rewrite sum_abs_app.
  pose proof (sum_abs_nonneg (f c)). pose proof (sum_abs_nonneg (flat_map f l)).
  destruct H as [ -> | H ]; [ lia | ]. specialize (IH H). lia.
Qed.

Lemma sum_Z_flat_map {B : Type} (f : B -> list Z) (l : list B) :
  sum_Z (flat_map f l) = sum_Z (map (fun b => sum_Z (f b)) l).
Proof.
  induction l as [ | c l IH ]; [ reflexivity | ].
  cbn [flat_map map]. rewrite sum_Z_app, IH. reflexivity.
Qed.

Lemma sum_abs_flat_map_le {B : Type} (f : B -> list Z) (l : list B) :
  sum_abs (map (fun b => sum_Z (f b)) l) <= sum_abs (flat_map f l).
Proof.
  induction l as [ | c l IH ]; [ cbn; lia | ].
  cbn [flat_map map]. rewrite sum_abs_app. cbn [sum_abs fold_right].
  fold (sum_abs (map (fun b => sum_Z (f b)) l)).
  pose proof (sum_Z_abs (f c)). lia.
Qed.

(** With whole costs, the costs of the days add up to the sum of the costs
    of the rows. *)
Lemma dailyCosts_sum_whole (data : list UsageRecord) :
  Forall whole_cost data ->
  sum_abs (map amount data) < 2 ^ 53 ->
  sum_values (map DailyCost.cost (dailyCosts data))
  = Number (nearest (sum_Z (map amount data)) 0).
Proof.
  intros Hw Hb.
  set (h := fun g : string * list UsageRecord =>
              js_or (Lodash.sumBy (snd g) costInBillingCurrency) (Number 0)).
  assert (P : Permutation (map DailyCost.cost (dailyCosts data))
                (map h (Lodash.groupBy data date))).
  { unfold dailyCosts.
    eapply perm_trans; [ apply Permutation_map, orderBy_perm | ].
    eapply perm_trans; [ apply Permutation_map, map_object_perm | ].
    rewrite map_map. apply Permutation_refl. }
  apply Permutation_map_inv in P. destruct P as (G & EG & PG).
  assert (PD : Permutation (flat_map snd G) data).
  { eapply perm_trans;
      [ apply Permutation_flat_map, Permutation_sym, PG | ].
    rewrite flat_map_concat_map. apply groupBy_partition. }
  assert (EA : flat_map (fun g => map amount (snd g)) G = map amount (flat_map snd G)).
  { clear. induction G as [ | g G IH ]; [ reflexivity | ].
    cbn [flat_map]. rewrite map_app, IH. reflexivity. }
  assert (HbG : sum_abs (flat_map (fun g => map amount (snd g)) G) < 2 ^ 53).
  { rewrite EA, (sum_abs_perm _ _ (Permutation_map amount PD)). exact Hb. }
  rewrite EG. unfold sum_values. change (Number 0) with (Number (nearest 0 0)).
  rewrite (fold_js_add_whole (fun g => sum_Z (map amount (snd g)))).
  - cbn [Z.add]. do 2 f_equal.
    rewrite <- (sum_Z_flat_map (fun g => map amount (snd g))), EA.
    apply sum_Z_perm, Permutation_map, PD.
  - apply Forall_forall. intros g Hg. unfold h. apply sumBy_whole.
    + apply Forall_forall. intros r Hr. rewrite Forall_forall in Hw. apply Hw.
      apply (Permutation_in _ PD). apply in_flat_map. exists g. auto.
    + pose proof (sum_abs_flat_map (fun g => map amount (snd g)) G g Hg) as Hg'.
      cbv beta in Hg'. lia.
  - pose proof (sum_abs_flat_map_le (fun g => map amount (snd g)) G) as HG.
    cbv beta in HG. cbn [Z.abs]. lia.
Qed.

Lemma totalCost_whole (data : list UsageRecord) :
  Forall whole_cost data ->
  sum_abs (map amount data) < 2 ^ 53 ->
  totalCost data = Number (nearest (sum_Z (map amount data)) 0).
Proof. intros Hw Hb. unfold totalCost. apply sumBy_whole; assumption. Qed.

(** C2, as the specification states it, fails on decimal costs: the days
    are added in another order than the rows, and the sums of doubles differ
    in their last digit. *)
Lemma dailyCosts_differ_from_total :
  Summary.totalCost (aggregate decimal_rows) = Number 0.6000000000000001
  /\ map DailyCost.cost (Summary.dailyCosts (aggregate decimal_rows))
     = [Number 0.1; Number 0.5]
  /\ sum_values (map DailyCost.cost (Summary.dailyCosts (aggregate decimal_rows)))
     = Number 0.6
  /\ strict_equal
       (sum_values (map DailyCost.cost (Summary.dailyCosts (aggregate decimal_rows))))
       (Summary.totalCost (aggregate decimal_rows))
     = false.
Proof. vm_compute. repeat split; reflexivity. Qed.

(** C2 (amended): no cost is lost or counted twice by the partition into
    dates.  The rows of the distinct dates, as [groupBy] reads them, are
    together the rows of the input, each once; the costs of [dailyCosts] are,
    date by date, the sum that [sumBy] makes of the rows of that date, or 0
    when that sum is falsy; and [totalCost] is that sum over all the rows.
    When every cost is a whole number (or absent, [null] or [false]) and the
    magnitudes of the costs add up to less than [2^53], no addition rounds:
    the costs of [dailyCosts] add up to [totalCost], which is the sum of the
    costs of the rows. *)
Theorem dailyCosts_partition (data : list UsageRecord) :
  Permutation
    (flat_map (fun k => List.filter (fun r => (ToString (date r) =? k)%string) data)
       (nodup string_dec (map (fun r => ToString (date r)) data)))
    data
  /\ Permutation
       (map DailyCost.cost (Summary.dailyCosts (aggregate data)))
       (map (fun k => group_cost date k data)
          (nodup string_dec (map (fun r => ToString (date r)) data)))
  /\ Summary.totalCost (aggregate data)
     = js_or (Lodash.sumBy data costInBillingCurrency) (Number 0)
  /\ (Forall whole_cost data ->
      sum_abs (map amount data) < 2 ^ 53 ->
      sum_values (map DailyCost.cost (Summary.dailyCosts (aggregate data)))
      = Summary.totalCost (aggregate data)
      /\ Summary.totalCost (aggregate data)
         = Number (nearest (sum_Z (map amount data)) 0)).
Proof.
  cbn [aggregate Summary.dailyCosts Summary.totalCost].
  destruct (groupBy_grouped date data) as (_ & Hitems & _).
  pose proof (groupBy_keys_perm date data) as Hkeys. unfold key_of in Hkeys.
  split; [ | split; [ | split; [ reflexivity | ] ] ].
  - eapply perm_trans;
      [ apply Permutation_flat_map, Permutation_sym, Hkeys | ].
    rewrite flat_map_concat_map, map_map.
    erewrite map_ext_in; [ apply (groupBy_partition date data) | ].
    intros [k items] Hin. cbn [fst snd]. symmetry. apply (Hitems _ _ Hin).
  - unfold dailyCosts.
    eapply perm_trans; [ apply Permutation_map, orderBy_perm | ].
    eapply perm_trans; [ apply Permutation_map, map_object_perm | ].
    rewrite map_map. cbn [DailyCost.cost].
    eapply perm_trans; [ | apply Permutation_map, Hkeys ].
    rewrite map_map.
    erewrite map_ext_in; [ apply Permutation_refl | ].
    intros [k items] Hin. cbn [fst snd]. unfold group_cost.
    rewrite (Hitems _ _ Hin). reflexivity.
  - intros Hw Hb.
    rewrite dailyCosts_sum_whole, totalCost_whole by assumption.
    split; reflexivity.
Qed.

(** The rows of the specification's example: the costs 10, 5 and 20 are
    whole, the days cost 15 and 20, and both sums are 35. *)
Lemma dailyCosts_partition_example :
  Forall whole_cost example_rows
  /\ sum_abs (map amount example_rows) = 35
  /\ sum_values (map DailyCost.cost (Summary.dailyCosts (aggregate example_rows)))
     = Summary.totalCost (aggregate example_rows)
  /\ Summary.totalCost (aggregate example_rows) = Number 35.
Proof.
  assert (Hw : Forall whole_cost example_rows)
    by (repeat constructor; reflexivity).
  assert (Hb : sum_abs (map amount example_rows) = 35) by reflexivity.
  destruct (dailyCosts_partition example_rows) as (_ & _ & _ & H).
  destruct (H Hw ltac:(rewrite Hb; reflexivity)) as [H1 H2].
  split; [ exact Hw | ]. split; [ exact Hb | ].
  split; [ exact H1 | rewrite H2; reflexivity ].
Defined.

(* ================================================================== *)
(** ** Labels that are empty, and labels that are absent *)

(** An element of a list is among the first [n], or the first [n] are [n]
    elements and it is among the others. *)
Lemma firstn_or_skipn {A : Type} (n : nat) (l : list A) (e : A) :
  In e l ->
  In e (firstn n l) \/ (List.length (firstn n l) = n /\ In e (skipn n l)).
Proof.
  revert n. induction l as [ | x l IH ]; intros n He; [ destruct He | ].
  destruct n as [ | n ]; [ right; split; [ reflexivity | exact He ] | ].
  destruct He as [ -> | He ]; [ left; left; reflexivity | ].
  destruct (IH n He) as [ Hin | [Hlen Hin] ]; [ left; right; exact Hin | ].
  right. cbn. split; [ f_equal; exact Hlen | exact Hin ].
Qed.

(** In a sorted list, each of the first [n] stands before each of the
    others. *)
Lemma firstn_skipn_sorted {A : Type} (T : A -> A -> Prop) (l : list A) :
  StronglySorted T l ->
  forall n, Forall (fun a => Forall (T a) (skipn n l)) (firstn n l).
Proof.
  induction 1 as [ | x l Hs IH Hx ]; intros [ | n ]; simpl; constructor.
  - rewrite Forall_forall in *. intros b Hb. apply Hx.
    rewrite <- (firstn_skipn n l). apply in_or_app. right. exact Hb.
  - apply IH.
Qed.

(** A resource group that passes the filter of lines 75-79 is one of the
    five listed, or five are listed; without a text in the cost column each
    of these five then costs at least as much. *)
Lemma resourceGroupCosts_keeps (data : list UsageRecord) (e : CostEntry.t) :
  In e (Lodash.map_object (Lodash.groupBy data resourceGroupName)
          (fun items name =>
             {| CostEntry.name := substring0 30 (or_text name "Unassigned");
                CostEntry.cost :=
                  js_or (Lodash.sumBy items costInBillingCurrency) (Number 0) |})) ->
  CostEntry.name e <> "null" ->
  CostEntry.name e <> "undefined" ->
  js_gt (CostEntry.cost e) (Number 0) = true ->
  In e (resourceGroupCosts data)
  \/ (List.length (resourceGroupCosts data) = 5%nat
      /\ (costs_without_text data ->
          Forall (fun e' => num_le (CostEntry.cost e) (CostEntry.cost e'))
            (resourceGroupCosts data))).
Proof.
  intros He H1 H2 H3. unfold resourceGroupCosts, Lodash.take.
  match goal with |- In _ (firstn 5 ?L) \/ _ => set (ranked := L) end.
  assert (Hin : In e ranked).
  { unfold ranked, Lodash.filter. apply orderBy_In. apply filter_In.
    split; [ exact He | ].
    rewrite !andb_true_iff, !negb_true_iff, !String.eqb_neq. auto. }
  destruct (firstn_or_skipn 5 ranked e Hin) as [ H | [Hlen Hskip] ];
    [ left; exact H | right ].
  split; [ exact Hlen | ]. intros Hd.
  assert (Hs : StronglySorted
                 (fun a b => num_le (CostEntry.cost b) (CostEntry.cost a)) ranked).
  { unfold ranked. apply orderBy_numeric_descending. apply filter_Forall.
    apply (group_entries_numeric resourceGroupName _ CostEntry.cost);
      [ reflexivity | exact Hd ]. }
  pose proof (firstn_skipn_sorted _ ranked Hs 5) as Hall.
  eapply Forall_impl; [ | exact Hall ]. cbn. intros a Ha.
  rewrite Forall_forall in Ha. apply Ha, Hskip.
Qed.

(** C7, as the specification states it, fails: with the labels absent (read
    as [undefined], or [null] for an empty cell) the two days are listed as
    ["null"] and ["undefined"], none as ["Unknown"], and the other two lists
    are empty, with no ["Others"] and no ["Unassigned"]. *)
Lemma absent_labels_get_no_default :
  Summary.dailyCosts (aggregate absent_label_rows)
  = [ {| DailyCost.date := "null"; DailyCost.cost := Number 3 |};
      {| DailyCost.date := "undefined"; DailyCost.cost := Number 5 |} ]
  /\ Summary.serviceBreakdown (aggregate absent_label_rows) = []
  /\ Summary.resourceGroupCosts (aggregate absent_label_rows) = [].
Proof. vm_compute. repeat split; reflexivity. Qed.

(** With costs left as text, the five groups that are kept need not be the
    costliest: the rows without a group name cost 10 and are left out, while
    the group that costs ["+9"] is listed first. *)
Example text_costs_crowd_out :
  map CostEntry.cost (Summary.resourceGroupCosts (aggregate crowded_rows))
  = [Text "+9"; Text "+83"; Text "+82"; Text "+81"; Text "+80"]
  /\ group_cost resourceGroupName "" crowded_rows = Number 10.
Proof. vm_compute. split; reflexivity. Qed.

(** C7 (amended): a row whose label is the empty text is aggregated under the
    default label: its date under ["Unknown"] in [dailyCosts]; its service
    family under ["Others"] in [serviceBreakdown] when the cost of the group
    is above 0; its resource group under ["Unassigned"] in
    [resourceGroupCosts] when the cost of the group is above 0, unless five
    groups are listed without it, which, when no cost cell holds a text, all
    cost at least as much. *)
Theorem empty_label_defaults (data : list UsageRecord) (r : UsageRecord) :
  In r data ->
  (date r = Text "" ->
   In {| DailyCost.date := "Unknown"; DailyCost.cost := group_cost date "" data |}
      (Summary.dailyCosts (aggregate data)))
  /\ (serviceFamily r = Text "" ->
      js_gt (group_cost serviceFamily "" data) (Number 0) = true ->
      In {| ServiceEntry.name := "Others";
            ServiceEntry.value := group_cost serviceFamily "" data |}
         (Summary.serviceBreakdown (aggregate data)))
  /\ (resourceGroupName r = Text "" ->
      js_gt (group_cost resourceGroupName "" data) (Number 0) = true ->
      In {| CostEntry.name := "Unassigned";
            CostEntry.cost := group_cost resourceGroupName "" data |}
         (Summary.resourceGroupCosts (aggregate data))
      \/ (List.length (Summary.resourceGroupCosts (aggregate data)) = 5%nat
          /\ (costs_without_text data ->
              Forall (fun e => num_le (group_cost resourceGroupName "" data)
                                 (CostEntry.cost e))
                (Summary.resourceGroupCosts (aggregate data))))).
Proof.
  intros Hr.
  cbn [aggregate Summary.dailyCosts Summary.serviceBreakdown Summary.resourceGroupCosts].
  split; [ | split ].
  - intros E. unfold dailyCosts. apply orderBy_In. apply map_object_In.
    exists "", (List.filter (fun y => (ToString (date y) =? "")%string) data).
    split; [ | reflexivity ].
    pose proof (groupBy_has_group date data r Hr) as G.
    unfold key_of in G. rewrite E in G. exact G.
  - intros E Hpos. unfold serviceBreakdown, Lodash.filter.
    apply orderBy_In. apply filter_In. split.
    + apply map_object_In.
      exists "", (List.filter (fun y => (ToString (serviceFamily y) =? "")%string) data).
      split; [ | reflexivity ].
      pose proof (groupBy_has_group serviceFamily data r Hr) as G.
      unfold key_of in G. rewrite E in G. exact G.
    + cbn. exact Hpos.
  - intros E Hpos.
    apply (resourceGroupCosts_keeps data
             {| CostEntry.name := "Unassigned";
                CostEntry.cost := group_cost resourceGroupName "" data |});
      [ | discriminate | discriminate | exact Hpos ].
    apply map_object_In.
    exists "", (List.filter (fun y => (ToString (resourceGroupName y) =? "")%string) data).
    split; [ | reflexivity ].
    pose proof (groupBy_has_group resourceGroupName data r Hr) as G.
    unfold key_of in G. rewrite E in G. exact G.
Qed.

Lemma empty_label_defaults_example :
  In (row (Text "") (Number 7) (Text "") undefined (Text "")) empty_label_rows
  /\ In {| DailyCost.date := "Unknown"; DailyCost.cost := Number 7 |}
        (Summary.dailyCosts (aggregate empty_label_rows))
  /\ In {| ServiceEntry.name := "Others"; ServiceEntry.value := Number 7 |}
        (Summary.serviceBreakdown (aggregate empty_label_rows))
  /\ (In {| CostEntry.name := "Unassigned"; CostEntry.cost := Number 7 |}
         (Summary.resourceGroupCosts (aggregate empty_label_rows))
      \/ (List.length (Summary.resourceGroupCosts (aggregate empty_label_rows)) = 5%nat
          /\ (costs_without_text empty_label_rows ->
              Forall (fun e => num_le (Number 7) (CostEntry.cost e))
                (Summary.resourceGroupCosts (aggregate empty_label_rows))))).
Proof.
  destruct (empty_label_defaults empty_label_rows
              (row (Text "") (Number 7) (Text "") undefined (Text ""))
              (or_introl eq_refl)) as (H1 & H2 & H3).
  split; [ left; reflexivity | ].
  split; [ exact (H1 eq_refl) | ].
  split; [ exact (H2 eq_refl eq_refl) | exact (H3 eq_refl eq_refl) ].
Defined.

(** *** Dropping the rows of one key *)

Section WithoutKey.

Context {A : Type} (iteratee : A -> primitive) (k0 : string).

Lemma others_pair {V : Type} (k : string) (v : V) :
  (others k0) (k, v) = negb (k =? k0)%string.
Proof. reflexivity. Qed.

Lemma hasOwnProperty_others {V : Type} (g : Lodash.object V) (k : string) :
  k <> k0 ->
  Lodash.hasOwnProperty (List.filter (others k0) g) k = Lodash.hasOwnProperty g k.
Proof.
  intros Hk. induction g as [ | [k' v] g IH ]; cbn [List.filter Lodash.hasOwnProperty];
    [ reflexivity | ].
  rewrite others_pair.
  destruct (String.eqb_spec k' k0) as [ -> | Hne ]; cbn [negb Lodash.hasOwnProperty].
  - destruct (String.eqb_spec k0 k); [ congruence | exact IH ].
  - rewrite IH. reflexivity.
Qed.

Lemma push_others (g : Lodash.object (list A)) (k : string) (x : A) :
  List.filter (others k0) (Lodash.push g k x)
  = if (k =? k0)%string then List.filter (others k0) g
    else Lodash.push (List.filter (others k0) g) k x.
Proof.
  induction g as [ | [k' items] g IH ]; cbn [Lodash.push List.filter].
  - destruct (k =? k0)%string; reflexivity.
  - destruct (String.eqb_spec k' k) as [ -> | Hne ]; cbn [List.filter];
      rewrite !others_pair.
    + destruct (String.eqb_spec k k0) as [ -> | Hk ]; cbn [negb Lodash.push];
        [ reflexivity | rewrite String.eqb_refl; reflexivity ].
    + rewrite IH. destruct (String.eqb_spec k' k0) as [ -> | Hk' ]; cbn [negb].
      * reflexivity.
      * destruct (String.eqb_spec k k0) as [ -> | Hk ]; [ reflexivity | ].
        cbn [Lodash.push]. destruct (String.eqb_spec k' k); [ congruence | reflexivity ].
Qed.

Lemma group_step_others (g : Lodash.object (list A)) (x : A) :
  List.filter (others k0) (group_step iteratee g x)
  = if (key_of iteratee x =? k0)%string then List.filter (others k0) g
    else group_step iteratee (List.filter (others k0) g) x.
Proof.
  unfold group_step.
  destruct (String.eqb_spec (key_of iteratee x) k0) as [ E | Hne ].
  - destruct (Lodash.hasOwnProperty g (key_of iteratee x)).
    + rewrite push_others, E, String.eqb_refl. reflexivity.
    + unfold Lodash.baseAssignValue. rewrite filter_app. cbn [List.filter].
      rewrite others_pair, E, String.eqb_refl. apply app_nil_r.
  - rewrite (hasOwnProperty_others g _ Hne).
    destruct (Lodash.hasOwnProperty g (key_of iteratee x)).
    + rewrite push_others.
      destruct (String.eqb_spec (key_of iteratee x) k0); [ contradiction | reflexivity ].
    + unfold Lodash.baseAssignValue. rewrite filter_app. cbn [List.filter].
      rewrite others_pair.
      destruct (String.eqb_spec (key_of iteratee x) k0); [ contradiction | reflexivity ].
Qed.

(** Removing elements of key [k0] changes no other group. *)
Lemma groupBy_others (keep : A -> bool) (l : list A) :
  (forall x, keep x = false -> key_of iteratee x = k0) ->
  List.filter (others k0) (Lodash.groupBy (List.filter keep l) iteratee)
  = List.filter (others k0) (Lodash.groupBy l iteratee).
Proof.
  intros Hkeep. induction l as [ | x l IH ] using rev_ind; [ reflexivity | ].
  rewrite filter_app, (groupBy_snoc iteratee l x), (group_step_others _ x). simpl.
  destruct (keep x) eqn:Ex.
  - rewrite (groupBy_snoc iteratee _ x), (group_step_others _ x), IH. reflexivity.
  - rewrite app_nil_r, (Hkeep x Ex), String.eqb_refl. exact IH.
Qed.

Hypothesis k0_named : Lodash.array_index k0 = None.

Lemma filter_all {B : Type} (f : B -> bool) (l : list B) :
  (forall x, In x l -> f x = true) -> List.filter f l = l.
Proof.
  induction l as [ | x l IH ]; intros H; simpl; [ reflexivity | ].
  rewrite (H x (or_introl eq_refl)). f_equal. apply IH. intros y Hy. apply H. right. exact Hy.
Qed.

Lemma index_properties_others {V : Type} (o : Lodash.object V) :
  Lodash.index_properties (List.filter (others k0) o) = Lodash.index_properties o.
Proof.
  unfold Lodash.index_properties.
  induction o as [ | [k v] o IH ]; cbn [List.filter flat_map]; [ reflexivity | ].
  rewrite others_pair.
  destruct (String.eqb_spec k k0) as [ -> | Hne ]; cbn [negb flat_map fst].
  - rewrite k0_named. exact IH.
  - rewrite IH. reflexivity.
Qed.

Lemma index_properties_index {V : Type} (o : Lodash.object V) (i : N) (p : string * V) :
  In (i, p) (Lodash.index_properties o) -> Lodash.array_index (fst p) = Some i.
Proof.
  unfold Lodash.index_properties. intros H. apply in_flat_map in H.
  destruct H as [q [_ H]]. destruct (Lodash.array_index (fst q)) eqn:E; [ | destruct H ].
  destruct H as [ H | [] ]. inversion H; subst. exact E.
Qed.

Lemma ownProperties_others {V : Type} (o : Lodash.object V) :
  List.filter (others k0) (Lodash.ownProperties o)
  = Lodash.ownProperties (List.filter (others k0) o).
Proof.
  unfold Lodash.ownProperties. rewrite filter_app, index_properties_others. f_equal.
  - apply filter_all. intros p Hp. apply in_map_iff in Hp.
    destruct Hp as [[i q] [E Hq]]. simpl in E. subst q.
    apply (Permutation_in _ (sort_perm _ _)) in Hq.
    apply index_properties_index in Hq.
    unfold others. apply negb_true_iff, String.eqb_neq. intros Ek.
    rewrite Ek, k0_named in Hq. discriminate.
  - unfold Lodash.named_properties.
    induction o as [ | p o IH ]; simpl; [ reflexivity | ].
    destruct (others k0 p) eqn:Ep; simpl;
      destruct (Lodash.array_index (fst p)); simpl; rewrite ?Ep; rewrite IH; reflexivity.
Qed.

Lemma filter_map_others {V B : Type} (f : string * V -> B) (predicate : B -> bool)
    (l : list (string * V)) :
  (forall p, (others k0) p = false -> predicate (f p) = false) ->
  List.filter predicate (map f l)
  = List.filter predicate (map f (List.filter (others k0) l)).
Proof.
  intros H. induction l as [ | p l IH ]; simpl; [ reflexivity | ].
  destruct (others k0 p) eqn:Ep; simpl.
  - rewrite IH. reflexivity.
  - rewrite (H p Ep). exact IH.
Qed.

(** The entries that survive a filter rejecting the name made from [k0] do
    not depend on the elements of key [k0]. *)
Lemma entries_without_key {B : Type} (f : list A -> string -> B)
    (predicate : B -> bool) (keep : A -> bool) (l : list A) :
  (forall items, predicate (f items k0) = false) ->
  (forall x, keep x = false -> key_of iteratee x = k0) ->
  Lodash.filter (Lodash.map_object (Lodash.groupBy l iteratee) f) predicate
  = Lodash.filter
      (Lodash.map_object (Lodash.groupBy (List.filter keep l) iteratee) f) predicate.
Proof.
  intros Hpred Hkeep. unfold Lodash.filter, Lodash.map_object.
  assert (Hf : forall p : string * list A,
             (others k0) p = false -> predicate (f (snd p) (fst p)) = false).
  { intros [k items] Hp. unfold others in Hp. simpl in *.
    apply negb_false_iff, String.eqb_eq in Hp. subst k. apply Hpred. }
  rewrite (filter_map_others _ predicate _ Hf).
  rewrite (filter_map_others _ predicate
             (Lodash.ownProperties (Lodash.groupBy (List.filter keep l) iteratee)) Hf).
  rewrite !ownProperties_others, (groupBy_others keep l Hkeep). reflexivity.
Qed.

End WithoutKey.

(** C10: the rows without a service family do not count in
    [serviceBreakdown], nor the rows without a resource group in
    [resourceGroupCosts]: each list is what it would be with those rows
    deleted, and neither has an entry named ["undefined"], the key under which
    those rows are grouped. *)
Theorem absent_labels_excluded (data : list UsageRecord) :
  Summary.serviceBreakdown (aggregate data)
  = Summary.serviceBreakdown
      (aggregate (List.filter (fun r => negb (absent (serviceFamily r))) data))
  /\ Summary.resourceGroupCosts (aggregate data)
     = Summary.resourceGroupCosts
         (aggregate (List.filter (fun r => negb (absent (resourceGroupName r))) data))
  /\ Forall (fun e => ServiceEntry.name e <> "undefined")
       (Summary.serviceBreakdown (aggregate data))
  /\ Forall (fun e => CostEntry.name e <> "undefined")
       (Summary.resourceGroupCosts (aggregate data))
  /\ (forall c, absent c = true -> ToString c = "undefined").
Proof.
  cbn [aggregate Summary.serviceBreakdown Summary.resourceGroupCosts].
  assert (Habs : forall c, absent c = true -> ToString c = "undefined").
  { intros [ | | b | f | s ]; simpl; intros H; try discriminate; reflexivity. }
  assert (Hkeep : forall (field : UsageRecord -> primitive) r,
             negb (absent (field r)) = false -> key_of field r = "undefined").
  { intros field r H. apply negb_false_iff in H. apply Habs, H. }
  repeat split.
  - unfold serviceBreakdown. f_equal.
    apply (entries_without_key serviceFamily "undefined" eq_refl);
      [ reflexivity | apply Hkeep ].
  - unfold resourceGroupCosts. do 2 f_equal.
    apply (entries_without_key resourceGroupName "undefined" eq_refl);
      [ reflexivity | apply Hkeep ].
  - eapply Forall_impl; [ | apply serviceBreakdown_entries ].
    intros e [(_ & H & _) _]. exact H.
  - eapply Forall_impl; [ | apply resourceGroupCosts_entries ].
    intros e [(_ & H & _) _]. exact H.
  - exact Habs.
Qed.

(* ================================================================== *)
(** ** The first entries: [topService] and [resourceCosts] *)

Lemma zero_not_above_zero : ~ num_lt (Number 0) (Number 0).
Proof. unfold num_lt. vm_compute. discriminate. Qed.

(** The first element of a descending list of numeric amounts is not
    below any of them. *)
Lemma descending_head {A : Type} (cost : A -> primitive) (x : A) (l : list A) :
  numeric (cost x) ->
  StronglySorted (fun a b => num_le (cost b) (cost a)) (x :: l) ->
  Forall (fun e => num_le (cost e) (cost x)) (x :: l).
Proof.
  intros Hx Hs. inversion Hs; subst.
  constructor; [ apply num_le_refl, Hx | assumption ].
Qed.

(** X1: [topService] is the first entry of [serviceBreakdown]: an entry of
    the list unless the list is empty, and the placeholder exactly when the
    list is empty; when no cost cell holds a text, no entry has a greater
    value. *)
Theorem topService_greatest (data : list UsageRecord) :
  (Summary.serviceBreakdown (aggregate data) = []
   \/ In (Summary.topService (aggregate data))
         (Summary.serviceBreakdown (aggregate data)))
  /\ (Summary.serviceBreakdown (aggregate data) = []
      <-> Summary.topService (aggregate data)
          = {| ServiceEntry.name := "N/A"; ServiceEntry.value := Number 0 |})
  /\ (costs_without_text data ->
      Forall (fun e => num_le (ServiceEntry.value e)
                         (ServiceEntry.value (Summary.topService (aggregate data))))
        (Summary.serviceBreakdown (aggregate data))).
Proof.
  cbn [aggregate Summary.serviceBreakdown Summary.topService].
  pose proof (serviceBreakdown_descending data) as Hs.
  pose proof (serviceBreakdown_numeric data) as Hn.
  pose proof (serviceBreakdown_entries data) as He.
  destruct (serviceBreakdown data) as [ | x l ]; cbn.
  - repeat split; auto.
  - inversion He as [ | ? ? [[_ [_ Hpos]] _] _ ]; subst.
    split; [ right; left; reflexivity | split ].
    + split; [ discriminate | ]. intros ->. destruct (zero_not_above_zero Hpos).
    + intros Hd. apply (descending_head ServiceEntry.value x l); [ | exact (Hs Hd) ].
      specialize (Hn Hd). inversion Hn; assumption.
Qed.

Lemma topService_greatest_example :
  costs_without_text example_rows
  /\ Forall (fun e => num_le (ServiceEntry.value e) (Number 30))
       (Summary.serviceBreakdown (aggregate example_rows)).
Proof.
  assert (H : costs_without_text example_rows) by (repeat constructor).
  split; [ exact H | ].
  exact (proj2 (proj2 (topService_greatest example_rows)) H).
Defined.

(** X2: the [resourceCosts] of the summary is the first of the ranked
    resources: one of them unless there is none, and the placeholder exactly
    when there is none; every ranked resource costs more than 0 and, when no
    cost cell holds a text, none costs more than it. *)
Theorem resourceCosts_greatest (data : list UsageRecord) :
  Forall (fun e => num_lt (Number 0) (CostEntry.cost e)) (resourceCosts data)
  /\ (resourceCosts data = []
      \/ In (Summary.resourceCosts (aggregate data)) (resourceCosts data))
  /\ (resourceCosts data = []
      <-> Summary.resourceCosts (aggregate data)
          = {| CostEntry.name := "N/A"; CostEntry.cost := Number 0 |})
  /\ (costs_without_text data ->
      Forall (fun e => num_le (CostEntry.cost e)
                         (CostEntry.cost (Summary.resourceCosts (aggregate data))))
        (resourceCosts data)).
Proof.
  cbn [aggregate Summary.resourceCosts].
  pose proof (resourceCosts_descending data) as Hs.
  pose proof (resourceCosts_numeric data) as Hn.
  pose proof (resourceCosts_entries data) as He.
  split; [ eapply Forall_impl; [ | exact He ]; intros e [H _]; exact H | ].
  destruct (resourceCosts data) as [ | x l ]; cbn.
  - repeat split; auto.
  - inversion He as [ | ? ? [Hpos _] _ ]; subst.
    split; [ right; left; reflexivity | split ].
    + split; [ discriminate | ]. intros ->. destruct (zero_not_above_zero Hpos).
    + intros Hd. apply (descending_head CostEntry.cost x l); [ | exact (Hs Hd) ].
      specialize (Hn Hd). inversion Hn; assumption.
Qed.

Lemma resourceCosts_greatest_example :
  costs_without_text example_rows
  /\ Forall (fun e => num_le (CostEntry.cost e) (Number 35)) (resourceCosts example_rows).
Proof.
  assert (H : costs_without_text example_rows) by (repeat constructor).
  split; [ exact H | ].
  exact (proj2 (proj2 (proj2 (resourceCosts_greatest example_rows))) H).
Defined.

(* ================================================================== *)
(** ** Display names *)

Lemma substring0_length (n : nat) (s : string) :
  String.length (substring0 n s) = Nat.min n (String.length s).
Proof.
  unfold substring0. revert n. induction s as [ | c s IH ]; intros [ | n ]; simpl;
    try reflexivity.
  rewrite IH. reflexivity.
Qed.

Lemma substring0_In (n : nat) (s : string) (c : ascii) :
  In c (list_ascii_of_string (substring0 n s)) -> In c (list_ascii_of_string s).
Proof.
  unfold substring0. revert n. induction s as [ | a s IH ]; intros [ | n ]; simpl;
    try tauto.
  intros [ H | H ]; [ left; exact H | right; eapply IH; exact H ].
Qed.

Lemma substring0_short (n : nat) (s : string) :
  (String.length s <= n)%nat -> substring0 n s = s.
Proof.
  unfold substring0. revert n. induction s as [ | a s IH ]; intros [ | n ]; simpl;
    intros H; try reflexivity; try lia.
  f_equal. apply IH. lia.
Qed.

Lemma or_text_nonempty (s d : string) : d <> "" -> or_text s d <> "".
Proof.
  intros Hd. unfold or_text. destruct (String.eqb_spec s ""); assumption.
Qed.

Lemma nonempty_length (s : string) : s <> "" <-> (1 <= String.length s)%nat.
Proof.
  destruct s; simpl; split; intros H; try congruence; try lia; try discriminate.
Qed.

Lemma name_bounds (s : string) :
  s <> "" -> (1 <= String.length (substring0 30 s) <= 30)%nat.
Proof.
  intros H. rewrite substring0_length. apply nonempty_length in H. lia.
Qed.

(** The last segment of [s.split(sep)]: it has no [sep], and [s] is that
    segment, or a path, [sep] and that segment. *)
Lemma split_last (sep : ascii) (s : string) :
  exists segment,
    pop (split sep s) = Some segment
    /\ ~ In sep (list_ascii_of_string segment)
    /\ ((split sep s = [segment] /\ s = segment)
        \/ (exists path, s = (path ++ String sep segment)%string)
           /\ (2 <= List.length (split sep s))%nat).
Proof.
  induction s as [ | a s (segment & Hpop & Hno & Hs) ].
  - exists EmptyString. repeat split; [ tauto | left; split; reflexivity ].
  - cbn [split]. destruct (Ascii.eqb_spec a sep) as [ -> | Hne ].
    + exists segment. assert (Hlen : (1 <= List.length (split sep s))%nat).
      { destruct Hs as [ [-> _] | [_ H] ]; simpl; lia. }
      split; [ | split; [ exact Hno | right; split ] ].
      * destruct (split sep s) as [ | x l ]; [ simpl in Hlen; lia | exact Hpop ].
      * destruct Hs as [ [_ ->] | [[path ->] _] ].
        -- exists EmptyString. reflexivity.
        -- exists (String sep path). reflexivity.
      * simpl. lia.
    + destruct Hs as [ [E ->] | [[path ->] Hlen] ].
      * rewrite E. exists (String a segment).
        split; [ reflexivity | split ].
        -- simpl. intros [ H | H ]; [ congruence | exact (Hno H) ].
        -- left. split; reflexivity.
      * destruct (split sep (path ++ String sep segment)) as [ | x [ | y l ] ];
          try (simpl in Hlen; lia).
        exists segment. split; [ exact Hpop | split; [ exact Hno | right; split ] ].
        -- exists (String a path). reflexivity.
        -- simpl. lia.
Qed.

(** X3: the name shown for a resource is the text after the last ["/"] of
    its id, or ["Unnamed"] when nothing follows it, cut to its first 30 code
    units when it is longer and kept whole otherwise; it holds no ["/"] and
    is never empty. *)
Theorem resource_name_is_last_segment (resource : string) :
  exists segment,
    (resource = segment \/ exists path, resource = (path ++ "/" ++ segment)%string)
    /\ ~ In "/"%char (list_ascii_of_string segment)
    /\ resource_name resource = substring0 30 (or_text segment "Unnamed")
    /\ ~ In "/"%char (list_ascii_of_string (resource_name resource))
    /\ (1 <= String.length (resource_name resource) <= 30)%nat
    /\ String.length (resource_name resource)
       = Nat.min 30 (String.length (or_text segment "Unnamed"))
    /\ (segment <> "" -> (String.length segment <= 30)%nat ->
        resource_name resource = segment).
Proof.
  destruct (split_last "/" resource) as (segment & Hpop & Hno & Hs).
  exists segment. unfold resource_name. rewrite Hpop.
  split; [ | split; [ exact Hno | split; [ reflexivity | split; [ | split; [ | split ] ] ] ] ].
  - destruct Hs as [ [_ H] | [[path H] _] ]; [ left; exact H | right ].
    exists path. exact H.
  - intros H. apply substring0_In in H. unfold or_text in H.
    destruct (String.eqb_spec segment "") as [ _ | _ ]; [ | exact (Hno H) ].
    simpl in H. repeat (destruct H as [ H | H ]; [ discriminate | ]). exact H.
  - apply name_bounds, or_text_nonempty. discriminate.
  - apply substring0_length.
  - intros Hne Hlen. unfold or_text.
    destruct (String.eqb_spec segment ""); [ contradiction | ].
    apply substring0_short. exact Hlen.
Qed.

(* ================================================================== *)
(** ** The entries made from the groups *)

(** X4: [dailyCosts] lists exactly one entry per date as [groupBy] reads it
    (the text of the cell): the entry carries that text, or ["Unknown"] for
    the empty text, and the sum of the costs of the rows of that date, or 0
    when that sum is falsy. *)
Theorem dailyCosts_entries (data : list UsageRecord) (e : DailyCost.t) :
  (In e (Summary.dailyCosts (aggregate data))
   <-> exists r, In r data
                 /\ e = {| DailyCost.date := or_text (ToString (date r)) "Unknown";
                           DailyCost.cost :=
                             group_cost date (ToString (date r)) data |})
  /\ List.length (Summary.dailyCosts (aggregate data))
     = List.length (nodup string_dec (map (fun r => ToString (date r)) data)).
Proof.
  cbn [aggregate Summary.dailyCosts]. split; [ | apply dailyCosts_length ].
  unfold dailyCosts. rewrite orderBy_In. apply group_entries_In.
Qed.

(** X5: [serviceBreakdown] lists exactly the service families, as [groupBy]
    reads them, whose name (["Others"] for the empty text) is neither
    ["null"] nor ["undefined"] and whose summed cost is above 0. *)
Theorem serviceBreakdown_entries_iff (data : list UsageRecord) (e : ServiceEntry.t) :
  In e (Summary.serviceBreakdown (aggregate data))
  <-> exists r, In r data
                /\ e = {| ServiceEntry.name := or_text (ToString (serviceFamily r)) "Others";
                          ServiceEntry.value :=
                            group_cost serviceFamily (ToString (serviceFamily r)) data |}
                /\ ServiceEntry.name e <> "null"
                /\ ServiceEntry.name e <> "undefined"
                /\ js_gt (ServiceEntry.value e) (Number 0) = true.
Proof.
  cbn [aggregate Summary.serviceBreakdown]. unfold serviceBreakdown, Lodash.filter.
  rewrite orderBy_In, filter_In, group_entries_In.
  rewrite !andb_true_iff, !negb_true_iff, !String.eqb_neq.
  split.
  - intros [[r [Hr ->]] [[H1 H2] H3]]. exists r. auto.
  - intros [r (Hr & -> & H1 & H2 & H3)]. split; [ exists r; auto | auto ].
Qed.

(** X6: the resources ranked for [resourceCosts] are exactly the resource
    ids, as [groupBy] reads them, whose summed cost is above 0, each under the
    name made from the id. *)
Theorem resourceCosts_entries_iff (data : list UsageRecord) (e : CostEntry.t) :
  In e (resourceCosts data)
  <-> exists r, In r data
                /\ e = {| CostEntry.name := resource_name (ToString (resourceId r));
                          CostEntry.cost :=
                            group_cost resourceId (ToString (resourceId r)) data |}
                /\ js_gt (CostEntry.cost e) (Number 0) = true.
Proof.
  unfold resourceCosts, Lodash.filter.
  rewrite orderBy_In, filter_In, group_entries_In.
  split.
  - intros [[r [Hr ->]] H]. exists r. auto.
  - intros [r (Hr & -> & H)]. split; [ exists r; auto | auto ].
Qed.

(* ================================================================== *)
(** ** The daily average and the dates *)

(** X7: for at least one row, [dailyAverage] is [totalCost], read as a
    number, over the number of distinct dates as [groupBy] reads them; it is
    0 only through that quotient, never through the guard of line 41. *)
Theorem dailyAverage_quotient (data : list UsageRecord) :
  data <> [] ->
  (0 < List.length (nodup string_dec (map (fun r => ToString (date r)) data)))%nat
  /\ Summary.dailyAverage (aggregate data)
     = js_div (Summary.totalCost (aggregate data))
         (array_length (nodup string_dec (map (fun r => ToString (date r)) data))).
Proof.
  intros Hne. cbn [aggregate Summary.dailyAverage Summary.totalCost].
  unfold dailyAverage, array_length. rewrite dailyCosts_length.
  assert (Hpos : (0 < List.length
                         (nodup string_dec (map (fun r => ToString (date r)) data)))%nat).
  { destruct data as [ | r data ]; [ congruence | ].
    assert (Hin : In (ToString (date r))
                     (nodup string_dec
                        (map (fun r => ToString (date r)) (r :: data)))).
    { apply nodup_In. left. reflexivity. }
    destruct (nodup string_dec (map (fun r => ToString (date r)) (r :: data)));
      [ destruct Hin | simpl; lia ]. }
  split; [ exact Hpos | ].
  apply Nat.ltb_lt in Hpos. rewrite Hpos. reflexivity.
Qed.

Lemma dailyAverage_quotient_example :
  example_rows <> []
  /\ Summary.dailyAverage (aggregate example_rows) = Number 17.5.
Proof.
  split; [ discriminate | ].
  rewrite (proj2 (dailyAverage_quotient example_rows ltac:(discriminate))).
  vm_compute. reflexivity.
Defined.

(** X8: when no row has the empty text as its date, no date is listed twice
    in [dailyCosts]. *)
Theorem dailyCosts_dates_distinct (data : list UsageRecord) :
  Forall (fun r => ToString (date r) <> "") data ->
  NoDup (map DailyCost.date (Summary.dailyCosts (aggregate data))).
Proof.
  intros Hd. cbn [aggregate Summary.dailyCosts]. unfold dailyCosts.
  eapply Permutation_NoDup;
    [ apply Permutation_sym, Permutation_map, orderBy_perm | ].
  eapply Permutation_NoDup;
    [ apply Permutation_sym, Permutation_map, map_object_perm | ].
  rewrite map_map. cbn [DailyCost.date].
  destruct (groupBy_grouped date data) as (Hnd & _ & _).
  erewrite map_ext_in; [ exact Hnd | ].
  intros [k items] Hin. cbn [fst snd].
  destruct (groupBy_keys_from date data k) as [r [Hr Ek]].
  { apply (in_map fst) in Hin. exact Hin. }
  rewrite Forall_forall in Hd. specialize (Hd r Hr). unfold key_of in Ek.
  rewrite Ek in Hd. unfold or_text.
  destruct (String.eqb_spec k ""); [ contradiction | reflexivity ].
Qed.

Lemma dailyCosts_dates_distinct_example :
  Forall (fun r => ToString (date r) <> "") example_rows
  /\ NoDup (map DailyCost.date (Summary.dailyCosts (aggregate example_rows))).
Proof.
  split.
  - repeat constructor; discriminate.
  - apply (dailyCosts_dates_distinct example_rows). repeat constructor; discriminate.
Defined.

(* ================================================================== *)
(** ** The five that are kept *)

(** X9: each entry of [resourceGroupCosts] is a resource group, as [groupBy]
    reads it, under its name (at most 30 code units, ["Unassigned"] for the
    empty text) with its summed cost; and a group whose name is neither
    ["null"] nor ["undefined"] and whose cost is above 0 is left out only when
    five groups are listed, which, when no cost cell holds a text, all cost
    at least as much. *)
Theorem resourceGroupCosts_top_five (data : list UsageRecord) (e : CostEntry.t) :
  (In e (Summary.resourceGroupCosts (aggregate data)) ->
   exists r, In r data
             /\ e = {| CostEntry.name :=
                         substring0 30 (or_text (ToString (resourceGroupName r)) "Unassigned");
                       CostEntry.cost :=
                         group_cost resourceGroupName (ToString (resourceGroupName r)) data |})
  /\ ((exists r, In r data
                 /\ e = {| CostEntry.name :=
                             substring0 30
                               (or_text (ToString (resourceGroupName r)) "Unassigned");
                           CostEntry.cost :=
                             group_cost resourceGroupName
                               (ToString (resourceGroupName r)) data |}
                 /\ CostEntry.name e <> "null"
                 /\ CostEntry.name e <> "undefined"
                 /\ js_gt (CostEntry.cost e) (Number 0) = true) ->
      In e (Summary.resourceGroupCosts (aggregate data))
      \/ (List.length (Summary.resourceGroupCosts (aggregate data)) = 5%nat
          /\ (costs_without_text data ->
              Forall (fun e' => num_le (CostEntry.cost e) (CostEntry.cost e'))
                (Summary.resourceGroupCosts (aggregate data))))).
Proof.
  cbn [aggregate Summary.resourceGroupCosts]. split.
  - unfold resourceGroupCosts, Lodash.take, Lodash.filter.
    intros Hin. apply In_firstn in Hin. rewrite orderBy_In, filter_In in Hin.
    destruct Hin as [Hin _]. apply group_entries_In in Hin. exact Hin.
  - intros [r (Hr & He & H1 & H2 & H3)].
    apply resourceGroupCosts_keeps; [ | assumption .. ].
    apply group_entries_In. exists r. auto.
Qed.

Lemma resourceGroupCosts_top_five_example :
  In {| CostEntry.name := "rg1"; CostEntry.cost := Number 15 |}
     (Summary.resourceGroupCosts (aggregate example_rows))
  /\ exists r, In r example_rows
               /\ {| CostEntry.name := "rg1"; CostEntry.cost := Number 15 |}
                  = {| CostEntry.name :=
                         substring0 30
                           (or_text (ToString (resourceGroupName r)) "Unassigned");
                       CostEntry.cost :=
                         group_cost resourceGroupName
                           (ToString (resourceGroupName r)) example_rows |}.
Proof.
  assert (H : In {| CostEntry.name := "rg1"; CostEntry.cost := Number 15 |}
                 (Summary.resourceGroupCosts (aggregate example_rows))).
  { right. left. vm_compute. reflexivity. }
  split; [ exact H | ].
  exact (proj1 (resourceGroupCosts_top_five example_rows
                  {| CostEntry.name := "rg1"; CostEntry.cost := Number 15 |}) H).
Defined.

(** X10: the pie chart shows the first services of [serviceBreakdown], five
    at most, and the slices take the colours of the array in order, none
    without a colour; when no cost cell holds a text, no service left out has
    a greater value than one that is shown. *)
Theorem pie_shows_top_five (data : list UsageRecord) :
  (List.length (pie_data (aggregate data)) <= 5)%nat
  /\ pie_data (aggregate data) = firstn 5 (Summary.serviceBreakdown (aggregate data))
  /\ pie_fills (aggregate data)
     = map Some (firstn (List.length (pie_data (aggregate data))) pie_colours)
  /\ (costs_without_text data ->
      Forall (fun shown =>
                Forall (fun left_out =>
                          num_le (ServiceEntry.value left_out) (ServiceEntry.value shown))
                  (skipn 5 (Summary.serviceBreakdown (aggregate data))))
        (pie_data (aggregate data))).
Proof.
  unfold pie_fills, pie_data. cbn [aggregate Summary.serviceBreakdown].
  split; [ apply firstn_le_length | split; [ reflexivity | split ] ].
  - destruct (serviceBreakdown data) as [ | a [ | b [ | c [ | d [ | e rest ] ] ] ] ];
      reflexivity.
  - intros Hd. apply (firstn_skipn_sorted _ _ (serviceBreakdown_descending data Hd)).
Qed.

Lemma pie_shows_top_five_example :
  costs_without_text example_rows
  /\ pie_fills (aggregate example_rows) = [Some "#2563eb"; Some "#16a34a"].
Proof.
  split; [ repeat constructor | ].
  rewrite (proj1 (proj2 (proj2 (pie_shows_top_five example_rows)))).
  vm_compute. reflexivity.
Defined.

(* ================================================================== *)
(** ** Amounts as text *)

Example formatCurrency_examples :
  map formatCurrency
    [ Number 35; Number 12.5; Number 1e21; Number 0.6000000000000001;
      Number nan; undefined; null; Bool true; Text "5N/A3" ]
  = [ Normal "$35.00"; Normal "$12.50"; Normal "$1e+21"; Normal "$0.60";
      Normal "$NaN"; Normal "$0.00"; Normal "$0.00";
      Throw {| message := "value.toFixed is not a function" |};
      Throw {| message := "value.toFixed is not a function" |} ].
Proof. vm_compute. reflexivity. Qed.

(** With benign cost cells, every entry made from a group carries a
    number. *)
Lemma group_entries_number {B : Type} (field : UsageRecord -> primitive)
    (f : list UsageRecord -> string -> B) (cost : B -> primitive)
    (data : list UsageRecord) :
  (forall items k, cost (f items k)
                   = js_or (Lodash.sumBy items costInBillingCurrency) (Number 0)) ->
  Forall (fun r => benign (costInBillingCurrency r)) data ->
  Forall (fun b => exists x, cost b = Number x)
    (Lodash.map_object (Lodash.groupBy data field) f).
Proof.
  intros Hf Hd. apply Forall_forall. intros b Hb. apply map_object_In in Hb.
  destruct Hb as (k & items & Hin & ->). rewrite Hf.
  rewrite sumBy_or_zero; [ eexists; reflexivity | ].
  eapply groupBy_items_Forall; [ exact Hd | exact Hin ].
Qed.

(** X11: when no cost cell holds [true] or a text, [formatCurrency] does not
    throw on any amount of the cards: it gives the total as the sum of the
    cost numbers (0 for a [NaN] sum) printed by [toFixed(2)], and the amount
    of the top service, of the peak and of the costliest resource as a number
    printed the same way; the daily average is printed so whatever the
    cells. *)
Theorem currency_of_benign_rows (data : list UsageRecord) :
  (exists x, formatCurrency (Summary.dailyAverage (aggregate data))
             = Normal (currency x))
  /\ (Forall (fun r => benign (costInBillingCurrency r)) data ->
      formatCurrency (Summary.totalCost (aggregate data))
      = Normal (currency (or_zero (sum_floats (map numeric_cost data))))
      /\ (exists x, formatCurrency (ServiceEntry.value (Summary.topService (aggregate data)))
                    = Normal (currency x))
      /\ (exists x, formatCurrency (DailyCost.cost (Summary.peakUsage (aggregate data)))
                    = Normal (currency x))
      /\ (exists x, formatCurrency (CostEntry.cost (Summary.resourceCosts (aggregate data)))
                    = Normal (currency x))).
Proof.
  cbn [aggregate Summary.totalCost Summary.dailyAverage Summary.topService
       Summary.peakUsage Summary.resourceCosts].
  assert (Hnum : forall v, (exists x, v = Number x) ->
                           exists x, formatCurrency v = Normal (currency x)).
  { intros v [x ->]. exists x. reflexivity. }
  split.
  { apply Hnum. unfold dailyAverage.
    destruct (0 <? List.length (dailyCosts data))%nat; eexists; reflexivity. }
  intros Hd. split; [ | split; [ | split ] ].
  - unfold totalCost. rewrite (sumBy_or_zero costInBillingCurrency data Hd). reflexivity.
  - apply Hnum.
    assert (H : Forall (fun e => exists x, ServiceEntry.value e = Number x)
                  (serviceBreakdown data)).
    { unfold serviceBreakdown.
      eapply Permutation_Forall; [ apply Permutation_sym, orderBy_perm | ].
      apply filter_Forall.
      apply (group_entries_number serviceFamily _ ServiceEntry.value);
        [ reflexivity | exact Hd ]. }
    destruct (serviceBreakdown data) as [ | x l ]; cbn.
    + eexists. reflexivity.
    + inversion H; assumption.
  - apply Hnum.
    assert (H : Forall (fun e => exists x, DailyCost.cost e = Number x) (dailyCosts data)).
    { unfold dailyCosts.
      eapply Permutation_Forall; [ apply Permutation_sym, orderBy_perm | ].
      apply (group_entries_number date _ DailyCost.cost); [ reflexivity | exact Hd ]. }
    pose proof (peakUsage_In data) as Hin.
    destruct (dailyCosts data) as [ | x l ].
    + rewrite Hin. eexists. reflexivity.
    + rewrite Forall_forall in H. apply H, Hin.
  - apply Hnum.
    assert (H : Forall (fun e => exists x, CostEntry.cost e = Number x)
                  (resourceCosts data)).
    { unfold resourceCosts.
      eapply Permutation_Forall; [ apply Permutation_sym, orderBy_perm | ].
      apply filter_Forall.
      apply (group_entries_number resourceId _ CostEntry.cost);
        [ reflexivity | exact Hd ]. }
    destruct (resourceCosts data) as [ | x l ]; cbn.
    + eexists. reflexivity.
    + inversion H; assumption.
Qed.

Lemma currency_of_benign_rows_example :
  Forall (fun r => benign (costInBillingCurrency r)) decimal_rows
  /\ formatCurrency (Summary.totalCost (aggregate decimal_rows)) = Normal "$0.60".
Proof.
  assert (H : Forall (fun r => benign (costInBillingCurrency r)) decimal_rows)
    by (repeat constructor).
  split; [ exact H | ].
  rewrite (proj1 (proj2 (currency_of_benign_rows decimal_rows) H)).
  vm_compute. reflexivity.
Defined.

(** *** When the total is not a number *)

Lemma append_nonempty_l (a b : string) : a <> "" -> (a ++ b)%string <> "".
Proof. destruct a; [ congruence | discriminate ]. Qed.

Lemma append_nonempty_r (a b : string) : b <> "" -> (a ++ b)%string <> "".
Proof. destruct a; [ exact (fun H => H) | discriminate ]. Qed.

Section Present.

Context {A : Type} (iteratee : A -> primitive).

Lemma present_cons (v : primitive) (l : list primitive) :
  v <> undefined -> present (v :: l) = v :: present l.
Proof. intros H. destruct v; [ congruence | reflexivity .. ]. Qed.

(** Once [result] is a text that is not empty, it stays one. *)
Lemma baseSum_text_stays (l : list A) : forall t,
  t <> "" ->
  exists t', Lodash.baseSum l iteratee (Text t) = Text t' /\ t' <> "".
Proof.
  induction l as [ | x l IH ]; intros t Ht; [ exists t; auto | ].
  cbn [Lodash.baseSum].
  destruct (iteratee x) as [ | | b | f | s ]; cbn [js_add ToString];
    [ apply IH; exact Ht | apply IH, append_nonempty_l, Ht .. ].
Qed.

(** A text that is not empty among the cells makes the sum such a text. *)
Lemma baseSum_text (l : list A) (x : A) (s : string) :
  In x l -> iteratee x = Text s -> s <> "" ->
  forall result,
  exists t, Lodash.baseSum l iteratee result = Text t /\ t <> "".
Proof.
  intros Hin Ex Hs. induction l as [ | y l IH ]; [ destruct Hin | ].
  intros result. cbn [Lodash.baseSum]. destruct Hin as [ -> | Hin ].
  - rewrite Ex.
    destruct result as [ | | b | f | t ]; cbn [js_add ToString];
      [ apply baseSum_text_stays, Hs
      | apply baseSum_text_stays, append_nonempty_r, Hs .. ].
  - apply (IH Hin).
Qed.

(** Once [result] is set and no cell is a text, [baseSum] leaves it as it
    is when no further cell is present, and ends on a number otherwise. *)
Lemma baseSum_from_defined (l : list A) : forall result,
  Forall (fun x => is_text (iteratee x) = false) l ->
  is_text result = false -> result <> undefined ->
  (Lodash.baseSum l iteratee result = result /\ present (map iteratee l) = [])
  \/ (exists n, Lodash.baseSum l iteratee result = Number n
                /\ present (map iteratee l) <> []).
Proof.
  induction l as [ | x l IH ]; intros result Hl Ht Hr; [ left; split; reflexivity | ].
  inversion Hl as [ | ? ? Hx Hl' ]; subst.
  cbn [Lodash.baseSum map].
  assert (D : iteratee x = undefined \/ iteratee x <> undefined)
    by (destruct (iteratee x); [ left; reflexivity | right; discriminate .. ]).
  destruct D as [ E | E ].
  - rewrite E. apply IH; assumption.
  - right. rewrite (present_cons _ _ E).
    assert (Hk : match iteratee x with
                 | undefined => result
                 | _ => match result with
                        | undefined => iteratee x
                        | _ => js_add result (iteratee x)
                        end
                 end = Number (ToNumber result + ToNumber (iteratee x))).
    { rewrite <- (js_add_numbers result (iteratee x) Ht Hx).
      destruct (iteratee x), result; congruence. }
    rewrite Hk.
    destruct (IH (Number (ToNumber result + ToNumber (iteratee x))) Hl')
      as [ [H _] | [m [H _]] ]; [ reflexivity | discriminate | | ];
      eexists; (split; [ exact H | discriminate ]).
Qed.

(** Without a text among the cells, [sumBy] gives back a boolean only when
    it is the one cell present. *)
Lemma sumBy_true (l : list A) :
  Forall (fun x => is_text (iteratee x) = false) l ->
  (Lodash.sumBy l iteratee = Bool true <-> present (map iteratee l) = [Bool true]).
Proof.
  destruct l as [ | x0 l0 ]; [ split; discriminate | ].
  unfold Lodash.sumBy. generalize (x0 :: l0). clear x0 l0. intros l.
  induction l as [ | x l IH ]; intros Hl; [ split; discriminate | ].
  inversion Hl as [ | ? ? Hx Hl' ]; subst.
  cbn [Lodash.baseSum map].
  assert (D : iteratee x = undefined \/ iteratee x <> undefined)
    by (destruct (iteratee x); [ left; reflexivity | right; discriminate .. ]).
  destruct D as [ E | E ].
  - rewrite E. exact (IH Hl').
  - rewrite (present_cons _ _ E).
    replace (match iteratee x with undefined => undefined | _ => iteratee x end)
      with (iteratee x) by (destruct (iteratee x); reflexivity).
    destruct (baseSum_from_defined l (iteratee x) Hl' Hx E) as [ [H P] | [m [H P]] ];
      rewrite H.
    + rewrite P. split; congruence.
    + split; [ discriminate | ]. intros Hp. inversion Hp. contradiction.
Qed.

End Present.

(** X12: [formatCurrency] throws on the total when a text that is not empty
    stands in the cost column: [sumBy] then gives a text, which has no
    [toFixed].  Without a text it throws exactly when [true] is the one cell
    present, which [sumBy] gives back as it is.  When it does not throw, the
    total is a number, printed by [toFixed(2)]. *)
Theorem currency_of_total_throws (data : list UsageRecord) :
  (forall r s, In r data -> costInBillingCurrency r = Text s -> s <> "" ->
     formatCurrency (Summary.totalCost (aggregate data))
     = Throw {| message := "value.toFixed is not a function" |})
  /\ (costs_without_text data ->
      (formatCurrency (Summary.totalCost (aggregate data))
       = Throw {| message := "value.toFixed is not a function" |}
       <-> present (map costInBillingCurrency data) = [Bool true]))
  /\ (formatCurrency (Summary.totalCost (aggregate data))
      = Throw {| message := "value.toFixed is not a function" |}
      \/ exists x, Summary.totalCost (aggregate data) = Number x
                   /\ formatCurrency (Summary.totalCost (aggregate data))
                      = Normal (currency x)).
Proof.
  cbn [aggregate Summary.totalCost]. unfold totalCost.
  split; [ | split ].
  - intros r s Hr Es Hs.
    assert (E : exists t, Lodash.sumBy data costInBillingCurrency = Text t /\ t <> "").
    { destruct data as [ | r0 data0 ]; [ destruct Hr | ].
      unfold Lodash.sumBy.
      exact (baseSum_text costInBillingCurrency (r0 :: data0) r s Hr Es Hs undefined). }
    destruct E as [t [-> Ht]]. unfold js_or. cbn [ToBoolean].
    apply String.eqb_neq in Ht. rewrite Ht. reflexivity.
  - intros Hd. rewrite <- (sumBy_true costInBillingCurrency data Hd).
    pose proof (sumBy_no_text costInBillingCurrency data Hd) as Ht.
    destruct (Lodash.sumBy data costInBillingCurrency) as [ | | [ | ] | f | s ];
      try discriminate; unfold js_or; cbn [ToBoolean]; cbn;
      try (split; [ discriminate | discriminate ]);
      try (split; reflexivity).
    destruct (negb _); cbn; split; discriminate.
  - pose proof (js_or_settled (Lodash.sumBy data costInBillingCurrency)) as Hs.
    destruct (js_or (Lodash.sumBy data costInBillingCurrency) (Number 0))
      as [ | | [ | ] | f | s ]; cbn in Hs; try contradiction.
    + left. reflexivity.
    + right. exists f. split; reflexivity.
    + left. reflexivity.
Qed.

Lemma currency_of_total_throws_example :
  In (row (Text "2024-01-01") (Text "N/A") (Text "Compute") undefined (Text "rg1"))
     text_cost_rows
  /\ formatCurrency (Summary.totalCost (aggregate text_cost_rows))
     = Throw {| message := "value.toFixed is not a function" |}.
Proof.
  assert (H : In (row (Text "2024-01-01") (Text "N/A") (Text "Compute") undefined
                    (Text "rg1")) text_cost_rows)
    by (right; left; reflexivity).
  split; [ exact H | ].
  apply (proj1 (currency_of_total_throws text_cost_rows) _ "N/A" H);
    [ reflexivity | discriminate ].
Defined.

(* ================================================================== *)
(** ** Uploads and screens *)

(** X13: after an upload whose parse completes, whatever the state before,
    the component is not loading and shows the dashboard: of the new summary
    with the error cleared, or, when the [try] block threw, of the default
    structure with the error set, an error that this screen does not show. *)
Theorem upload_completed (r : results) (c : component) :
  handleFileUpload (Some (parse_complete r)) c
  = {| isLoading := false;
       hooks :=
         match try_block r with
         | Normal d => {| dashboardData := Some d; error := None |}
         | Throw e =>
             {| dashboardData := Some default_data;
                error := Some ("Error processing data: " ++ message e)%string |}
         end |}
  /\ render (handleFileUpload (Some (parse_complete r)) c)
     = dashboard_screen
         match try_block r with
         | Normal d => d
         | Throw _ => default_data
         end.
Proof.
  unfold handleFileUpload, on_complete, handleFileUpload_begin, render, processCSVData.
  destruct (try_block r); split; reflexivity.
Qed.

(** X14: after an upload whose parse fails, the component is not loading,
    [dashboardData] is what it was and the error is the parser's message; the
    message is on screen only when no dashboard was there, otherwise the
    earlier dashboard stays and nothing tells of the failure. *)
Theorem upload_failed (e : Error) (c : component) :
  handleFileUpload (Some (parse_error e)) c
  = {| isLoading := false;
       hooks := {| dashboardData := dashboardData (hooks c);
                   error := Some ("Error parsing CSV: " ++ message e)%string |} |}
  /\ render (handleFileUpload (Some (parse_error e)) c)
     = match dashboardData (hooks c) with
       | Some d => dashboard_screen d
       | None =>
           upload_screen false (Some ("Error parsing CSV: " ++ message e)%string)
       end.
Proof.
  unfold handleFileUpload, on_error, handleFileUpload_begin, render.
  split; [ reflexivity | ]. cbn. destruct (dashboardData (hooks c)); reflexivity.
Qed.

(** X15: while a selected file is being parsed, the line ["Processing
    file..."] is on screen, with no error, only if no dashboard was shown
    before; otherwise the earlier dashboard stays as it is. *)
Theorem upload_pending (c : component) :
  render (handleFileUpload_begin c)
  = match dashboardData (hooks c) with
    | Some d => dashboard_screen d
    | None => upload_screen true None
    end
  /\ handleFileUpload None c = c.
Proof.
  unfold handleFileUpload_begin, render. cbn.
  destruct (dashboardData (hooks c)); split; reflexivity.
Qed.

(* ================================================================== *)
(** ** The recommendations *)

(** A cost of the form [v || 0] that is falsy is the number 0 itself. *)
Lemma js_or_falsy (v : primitive) :
  ToBoolean (js_or v (Number 0)) = false -> js_or v (Number 0) = Number 0.
Proof.
  unfold js_or. destruct (ToBoolean v) eqn:E; [ | reflexivity ].
  intros H. congruence.
Qed.

Lemma peakUsage_cost_falsy (data : list UsageRecord) :
  ToBoolean (DailyCost.cost (peakUsage data)) = false ->
  DailyCost.cost (peakUsage data) = Number 0.
Proof.
  pose proof (peakUsage_In data) as H.
  assert (Hd : Forall (fun e => exists v, DailyCost.cost e = js_or v (Number 0))
                 (dailyCosts data)).
  { unfold dailyCosts.
    eapply Permutation_Forall; [ apply Permutation_sym, orderBy_perm | ].
    apply map_object_Forall. intros; eexists; reflexivity. }
  destruct (dailyCosts data) as [ | x l ]; [ rewrite H; reflexivity | ].
  rewrite Forall_forall in Hd. destruct (Hd _ H) as [v ->]. apply js_or_falsy.
Qed.

(** X16: the third recommendation says that no peak data is available
    exactly when the cost of [peakUsage] is the number 0, which is so without
    rows but also when the greatest daily cost is 0; for another number it
    names that cost, printed by [toFixed(2)], and its date; and it throws
    when that cost is [true] or a text. *)
Theorem peak_recommendation_text (data : list UsageRecord) :
  (peak_recommendation (aggregate data)
   = Normal "No peak usage data available for analysis."
   <-> DailyCost.cost (Summary.peakUsage (aggregate data)) = Number 0)
  /\ (forall x, DailyCost.cost (Summary.peakUsage (aggregate data)) = Number x ->
                is_zero x = false ->
                peak_recommendation (aggregate data)
                = Normal ("Peak daily cost of " ++ currency x ++ " on "
                          ++ DailyCost.date (Summary.peakUsage (aggregate data))
                          ++ ". Review workload scheduling and resource scaling policies.")%string)
  /\ (is_text (DailyCost.cost (Summary.peakUsage (aggregate data))) = true
      \/ DailyCost.cost (Summary.peakUsage (aggregate data)) = Bool true ->
      peak_recommendation (aggregate data)
      = Throw {| message := "value.toFixed is not a function" |}).
Proof.
  unfold peak_recommendation. cbn [aggregate Summary.peakUsage].
  pose proof (peakUsage_settled data) as Hs.
  pose proof (peakUsage_cost_falsy data) as Hf.
  destruct (DailyCost.cost (peakUsage data)) as [ | | [ | ] | x | s ] eqn:E;
    cbn in Hs; try contradiction.
  - cbn. split; [ split; discriminate | ].
    split; [ intros x Hx; discriminate | reflexivity ].
  - destruct (ToBoolean (Number x)) eqn:Et.
    + cbn [formatCurrency]. split; [ | split ].
      * split; [ cbn; discriminate | ]. intros Hx. rewrite Hx in Et.
        vm_compute in Et. discriminate.
      * intros y Hy _. inversion Hy; subst. reflexivity.
      * intros [ H | H ]; discriminate.
    + split; [ | split ].
      * split; [ intros _; apply Hf; reflexivity | reflexivity ].
      * intros y Hy Hz. inversion Hy; subst. cbn [ToBoolean] in Et.
        apply negb_false_iff, orb_true_iff in Et. destruct Et; congruence.
      * intros [ H | H ]; discriminate.
  - cbn [ToBoolean]. apply String.eqb_neq in Hs. rewrite Hs. cbn.
    split; [ split; discriminate | ].
    split; [ intros x Hx; discriminate | reflexivity ].
Qed.

Example peak_recommendation_example :
  peak_recommendation (aggregate decimal_rows)
  = Normal "Peak daily cost of $0.50 on 2024-01-02. Review workload scheduling and resource scaling policies.".
Proof. vm_compute. reflexivity. Qed.

(** The first entry of [resourceGroupCosts] is not below any resource group
    that passes the filter, when no cost cell holds a text. *)
Lemma resourceGroupCosts_head (data : list UsageRecord) (e : CostEntry.t)
    (rest : list CostEntry.t) :
  costs_without_text data ->
  resourceGroupCosts data = e :: rest ->
  forall e', (exists r, In r data
                /\ e' = {| CostEntry.name :=
                             substring0 30
                               (or_text (ToString (resourceGroupName r)) "Unassigned");
                           CostEntry.cost :=
                             group_cost resourceGroupName
                               (ToString (resourceGroupName r)) data |}
                /\ CostEntry.name e' <> "null"
                /\ CostEntry.name e' <> "undefined"
                /\ js_gt (CostEntry.cost e') (Number 0) = true) ->
  num_le (CostEntry.cost e') (CostEntry.cost e).
Proof.
  intros Hd Hhead e' [r (Hr & He & H1 & H2 & H3)].
  pose proof (resourceGroupCosts_numeric data Hd) as Hn.
  pose proof (resourceGroupCosts_descending data Hd) as Hs.
  assert (Hk : In e' (resourceGroupCosts data)
               \/ (List.length (resourceGroupCosts data) = 5%nat
                   /\ (costs_without_text data ->
                       Forall (fun a => num_le (CostEntry.cost e') (CostEntry.cost a))
                         (resourceGroupCosts data)))).
  { apply resourceGroupCosts_keeps; [ | assumption .. ].
    apply group_entries_In. exists r. auto. }
  rewrite Hhead in *.
  assert (Hx : numeric (CostEntry.cost e)) by (inversion Hn; assumption).
  destruct Hk as [ Hin | [_ Hall] ].
  - pose proof (descending_head CostEntry.cost e rest Hx Hs) as Hh.
    rewrite Forall_forall in Hh. apply Hh, Hin.
  - specialize (Hall Hd). inversion Hall; assumption.
Qed.

(** X17: the first recommendation says that no resource group data is
    available when [resourceGroupCosts] is empty; otherwise it names the first
    entry with its cost, printed by [toFixed(2)] when it is a number, and
    throws when that cost is [true] or a text; when no cost cell holds a
    text, no resource group that passes the filter of lines 75-79 costs more
    than that entry. *)
Theorem resource_group_recommendation_text (data : list UsageRecord) :
  match Summary.resourceGroupCosts (aggregate data) with
  | [] =>
      resource_group_recommendation (aggregate data)
      = Normal "No resource group data available for analysis."
  | e :: _ =>
      (forall x, CostEntry.cost e = Number x ->
                 resource_group_recommendation (aggregate data)
                 = Normal (CostEntry.name e ++ " has the highest spend at "
                           ++ currency x
                           ++ ". Review resource allocation and implement cost controls.")%string)
      /\ (is_text (CostEntry.cost e) = true \/ CostEntry.cost e = Bool true ->
          resource_group_recommendation (aggregate data)
          = Throw {| message := "value.toFixed is not a function" |})
      /\ (costs_without_text data ->
          forall e',
            (exists r, In r data
               /\ e' = {| CostEntry.name :=
                            substring0 30
                              (or_text (ToString (resourceGroupName r)) "Unassigned");
                          CostEntry.cost :=
                            group_cost resourceGroupName
                              (ToString (resourceGroupName r)) data |}
               /\ CostEntry.name e' <> "null"
               /\ CostEntry.name e' <> "undefined"
               /\ js_gt (CostEntry.cost e') (Number 0) = true) ->
            num_le (CostEntry.cost e') (CostEntry.cost e))
  end.
Proof.
  unfold resource_group_recommendation. cbn [aggregate Summary.resourceGroupCosts].
  destruct (resourceGroupCosts data) as [ | e rest ] eqn:E; [ reflexivity | ].
  split; [ | split ].
  - intros x Hx. cbn. rewrite Hx. reflexivity.
  - intros [ H | H ]; cbn.
    + destruct (CostEntry.cost e); try discriminate. reflexivity.
    + rewrite H. reflexivity.
  - intros Hd. apply (resourceGroupCosts_head data e rest Hd E).
Qed.

Lemma resource_group_recommendation_text_example :
  costs_without_text example_rows
  /\ resource_group_recommendation (aggregate example_rows)
     = Normal "rg2 has the highest spend at $20.00. Review resource allocation and implement cost controls."
  /\ num_le (Number 15) (Number 20).
Proof.
  assert (H : costs_without_text example_rows) by (repeat constructor).
  pose proof (resource_group_recommendation_text example_rows) as T.
  assert (E : Summary.resourceGroupCosts (aggregate example_rows)
              = [ {| CostEntry.name := "rg2"; CostEntry.cost := Number 20 |};
                  {| CostEntry.name := "rg1"; CostEntry.cost := Number 15 |} ])
    by (vm_compute; reflexivity).
  rewrite E in T. destruct T as (T1 & _ & T3).
  split; [ exact H | ].
  split; [ rewrite (T1 20%float eq_refl); vm_compute; reflexivity | ].
  apply (T3 H {| CostEntry.name := "rg1"; CostEntry.cost := Number 15 |}).
  exists (row (Text "2024-01-01") (Number 10) (Text "Compute") undefined (Text "rg1")).
  split; [ left; reflexivity | ].
  split; [ vm_compute; reflexivity | ].
  split; [ discriminate | ]. split; [ discriminate | vm_compute; reflexivity ].
Defined.
